(** * simple-splat-loader.js: PLY / raw Float32 point-cloud decoding

    A shallow embedding of [src/simple-splat-loader.js] ([isPlyBuffer],
    [parsePly], [loadSimpleSplatFromArrayBuffer]) together with the
    ECMAScript built-ins it calls, and the properties of the decoder
    stated over it.  The annotation tools of [src/viewer.js] follow in
    the module [Viewer].

    Conventions.
    - An [ArrayBuffer] is a [list Byte.byte].
    - [new TextDecoder('ascii')] is the windows-1252 decoder (the label
      "ascii" names that encoding): one character per byte.  A decoded
      character is identified with its byte, so a JS string is a
      [string]; the only non-ASCII character the code can distinguish
      is U+00A0 (byte 0xA0), which belongs to the regexp class [\s].
    - A thrown exception is a [Throw] completion. *)

From Stdlib Require Import ZArith Bool Ascii String SpecFloat Eqdep_dec DecimalString.
From Stdlib.Strings Require Import Byte.
From stdpp Require Import base tactics option list.

Local Open Scope string_scope.
Local Open Scope list_scope.

(** ** Completions *)

Inductive exn :=
  | Error (message : string)   (* [throw new Error(message)] *)
  | RangeError.                (* raised by DataView / typed-array built-ins *)

Inductive completion (A : Type) :=
  | Return (a : A)
  | Throw (e : exn).
Arguments Return {A} a.
Arguments Throw {A} e.

#[global] Instance completion_ret : MRet completion := fun A a => Return a.
#[global] Instance completion_bind : MBind completion := fun A B k c =>
  match c with
  | Return a => k a
  | Throw e => Throw e
  end.

(** ** JS values that a variable of the parser can hold besides numbers *)

Inductive value :=
  | Null
  | Undefined
  | Str (s : string).

(** [String(v)] *)
Definition ToString (v : value) : string :=
  match v with
  | Null => "null"
  | Undefined => "undefined"
  | Str s => s
  end.

(** [!v] for a null / undefined / string value *)
Definition falsy (v : value) : bool :=
  match v with
  | Null | Undefined => true
  | Str s => String.eqb s ""
  end.

(** [v === 'lit'] *)
Definition is_str (v : value) (lit : string) : bool :=
  match v with
  | Str s => String.eqb s lit
  | _ => false
  end.

(** ** Strings *)

Definition LF : ascii := ascii_of_nat 10.
Definition CR : ascii := ascii_of_nat 13.

(** The regexp class [\s] (WhiteSpace and LineTerminator) on decoded
    windows-1252 text: TAB, LF, VT, FF, CR, SP and NBSP. *)
Definition isWhiteSpace (c : ascii) : bool :=
  let n := N_of_ascii c in
  ((9 <=? n) && (n <=? 13) || (n =? 32) || (n =? 160))%N.

Definition cons_head (c : ascii) (l : list string) : list string :=
  match l with
  | [] => [String c ""]
  | s :: r => String c s :: r
  end.

(** [s.split(/\r?\n/)] *)
Fixpoint split_lines (s : string) : list string :=
  match s with
  | "" => [""]
  | String c s' =>
      if Ascii.eqb c LF then "" :: split_lines s'
      else if Ascii.eqb c CR then
        match s' with
        | String c' s'' =>
            if Ascii.eqb c' LF then "" :: split_lines s''
            else cons_head c (split_lines s')
        | "" => cons_head c (split_lines s')
        end
      else cons_head c (split_lines s')
  end.

(** [s.split(/\s+/)]; [in_sep] records that the previous character was
    part of a separator. *)
Fixpoint split_ws_from (in_sep : bool) (s : string) : list string :=
  match s with
  | "" => [""]
  | String c s' =>
      if isWhiteSpace c then
        if in_sep then split_ws_from true s' else "" :: split_ws_from true s'
      else cons_head c (split_ws_from false s')
  end.
Definition split_ws : string -> list string := split_ws_from false.

Fixpoint trimStart (s : string) : string :=
  match s with
  | "" => ""
  | String c s' => if isWhiteSpace c then trimStart s' else s
  end.

Fixpoint trimEnd (s : string) : string :=
  match s with
  | "" => ""
  | String c s' =>
      match trimEnd s' with
      | "" => if isWhiteSpace c then "" else String c ""
      | t => String c t
      end
  end.

(** [s.trim()] *)
Definition trim (s : string) : string := trimEnd (trimStart s).

(** [s.indexOf(needle)], [None] for -1 *)
Fixpoint indexOf (needle s : string) : option nat :=
  if String.prefix needle s then Some 0
  else match s with
       | "" => None
       | String _ s' => S <$> indexOf needle s'
       end.

(** [s.slice(0, n)] and [s.slice(n)] for [0 <= n] *)
Fixpoint slice_to (n : nat) (s : string) : string :=
  match n, s with
  | S n', String c s' => String c (slice_to n' s')
  | _, _ => ""
  end.
Fixpoint slice_from (n : nat) (s : string) : string :=
  match n, s with
  | S n', String _ s' => slice_from n' s'
  | _, _ => s
  end.

(** [s.search(/\S|$/)]: index of the first non-whitespace character,
    or the length of [s]. *)
Fixpoint search_nonspace (s : string) : nat :=
  match s with
  | "" => 0
  | String c s' => if isWhiteSpace c then S (search_nonspace s') else 0
  end.

(** [a[i]] on an array of strings *)
Definition at_index (a : list string) (i : nat) : value :=
  match a !! i with
  | Some s => Str s
  | None => Undefined
  end.

(** [a.indexOf(name)], [None] for -1 *)
Fixpoint array_indexOf (name : string) (a : list string) : option nat :=
  match a with
  | [] => None
  | s :: r => if String.eqb s name then Some 0 else S <$> array_indexOf name r
  end.

(** [parseInt(v, 10)]; [None] is NaN.  The result is the mathematical
    integer: it is the Number [parseInt] returns whenever that integer is
    below 2^53, which is the only range in which the parser goes on to use
    it (three times a larger count is no valid typed-array length). *)
Definition digit_of (c : ascii) : option Z :=
  let n := N_of_ascii c in
  if ((48 <=? n) && (n <=? 57))%N then Some (Z.of_N n - 48)%Z else None.

Fixpoint parse_digits (acc : Z) (s : string) : Z :=
  match s with
  | "" => acc
  | String c s' =>
      match digit_of c with
      | Some d => parse_digits (10 * acc + d)%Z s'
      | None => acc
      end
  end.

Definition parse_unsigned (s : string) : option Z :=
  match s with
  | "" => None
  | String c _ =>
      match digit_of c with
      | Some _ => Some (parse_digits 0 s)
      | None => None
      end
  end.

Definition parseInt (v : value) : option Z :=
  match trimStart (ToString v) with
  | String "-" r => Z.opp <$> parse_unsigned r
  | String "+" r => parse_unsigned r
  | s => parse_unsigned s
  end.

(** ** ArrayBuffer and TextDecoder *)

Definition ArrayBuffer := list byte.

(** [new TextDecoder('ascii').decode(b)] *)
Definition decode (b : ArrayBuffer) : string := string_of_list_byte b.

(** [b.slice(0, n)] and [b.slice(n)] are [take n b] and [drop n b]. *)

(** [isPlyBuffer] *)
Definition isPlyBuffer (buffer : ArrayBuffer) : bool :=
  let text := decode (take 1024 buffer) in
  String.prefix "ply" text.

(** ** Header scan of [parsePly] (the [for (const line of headerLines)] loop) *)

Record header := {
  format : value;                       (* null until a [format] line *)
  vertexCount : option Z;               (* a Number; [None] is NaN *)
  vertexPropertyOrder : list string;
  vertexPropertyTypes : list value;
  inVertexElement : bool
}.

Definition header_init : header :=
  {| format := Null; vertexCount := Some 0%Z;
     vertexPropertyOrder := []; vertexPropertyTypes := [];
     inVertexElement := false |}.

(** [tokens[tokens.length - 1]]; [tokens] is never empty. *)
Definition last_token (tokens : list string) : string :=
  List.last tokens "".

Definition header_line (h : header) (line : string) : header :=
  let tokens := split_ws (trim line) in
  if (length tokens =? 0)%nat then h else
  let h :=
    if is_str (at_index tokens 0) "format"
    then {| format := at_index tokens 1; vertexCount := vertexCount h;
            vertexPropertyOrder := vertexPropertyOrder h;
            vertexPropertyTypes := vertexPropertyTypes h;
            inVertexElement := inVertexElement h |}
    else h in
  if is_str (at_index tokens 0) "element" && is_str (at_index tokens 1) "vertex"
  then {| format := format h; vertexCount := parseInt (at_index tokens 2);
          vertexPropertyOrder := vertexPropertyOrder h;
          vertexPropertyTypes := vertexPropertyTypes h;
          inVertexElement := true |}
  else
  let h :=
    if is_str (at_index tokens 0) "element" && negb (is_str (at_index tokens 1) "vertex")
    then {| format := format h; vertexCount := vertexCount h;
            vertexPropertyOrder := vertexPropertyOrder h;
            vertexPropertyTypes := vertexPropertyTypes h;
            inVertexElement := false |}
    else h in
  if inVertexElement h && is_str (at_index tokens 0) "property"
  then {| format := format h; vertexCount := vertexCount h;
          vertexPropertyOrder := vertexPropertyOrder h ++ [last_token tokens];
          vertexPropertyTypes := vertexPropertyTypes h ++ [at_index tokens 1];
          inVertexElement := inVertexElement h |}
  else h.

Definition scan_header (headerLines : list string) : header :=
  fold_left header_line headerLines header_init.

(** ** The engine: Numbers and typed-array limits

    The decoder never branches on a floating-point value: it only moves
    Numbers around, divides them by 255 and stores them in a
    [Float32Array].  The Number operations are therefore an interface,
    together with the two facts about the host that the code depends on
    (the byte order of typed-array views and the longest array that can
    be allocated); [IEEE] below implements it with binary64 / binary32
    arithmetic.  A [float32] is a binary32 value: the NaNs are one value,
    as they are to the code. *)

Class Engine := {
  number : Type;                         (* Number values (binary64) *)
  float32 : Type;                        (* elements of a Float32Array *)
  of_Z : Z -> number;                    (* the Number of a (small) integer *)
  fdiv : number -> number -> number;     (* [a / b] *)
  parseFloat : string -> number;
  float32_of_bits : Z -> float32;        (* the binary32 value of a bit pattern *)
  float64_of_bits : Z -> number;         (* the binary64 value of a bit pattern *)
  widen : float32 -> number;             (* reading an element: exact *)
  fround : number -> float32;            (* storing an element: round to nearest *)
  host_little_endian : bool;             (* byte order of typed-array views *)
  max_array_length : Z;                  (* longest typed array that can be allocated *)
  max_array_length_safe : (0 <= max_array_length <= 2 ^ 53 - 1)%Z;
  fround_widen : forall x, fround (widen x) = x;
  fround_one_nonzero : fround (of_Z 1) <> float32_of_bits 0
}.

(** ** Bytes to integers *)

Fixpoint le_to_Z (bs : list byte) : Z :=
  match bs with
  | [] => 0
  | b :: r => Z.lor (Z.of_N (Byte.to_N b)) (Z.shiftl (le_to_Z r) 8)
  end.

Definition bytes_to_Z (littleEndian : bool) (bs : list byte) : Z :=
  if littleEndian then le_to_Z bs else le_to_Z (rev bs).

(** Two's complement reading of a [w]-bit pattern *)
Definition to_signed (w : Z) (u : Z) : Z :=
  if Z.testbit u (w - 1) then (u - Z.shiftl 1 w)%Z else u.

Section Decoder.
Context `{Engine}.

(** ** Float32Array *)

Definition Float32Array := list float32.

Definition float32_zero : float32 := float32_of_bits 0.
(** what storing [undefined] leaves in an element: the quiet NaN *)
Definition float32_nan : float32 := float32_of_bits 2143289344.

(** [new Float32Array(n)]: a negative length, or one the engine cannot
    allocate, is a [RangeError]; the elements start at +0. *)
Definition new_Float32Array (n : Z) : completion Float32Array :=
  if ((0 <=? n) && (n <=? max_array_length))%Z
  then Return (replicate (Z.to_nat n) float32_zero)
  else Throw RangeError.

(** [a[i] = x]; a store outside the array is ignored. *)
Definition store (a : Float32Array) (i : nat) (x : number) : Float32Array :=
  <[i := fround x]> a.

Fixpoint chunks4 (bs : list byte) : list (list byte) :=
  match bs with
  | b0 :: b1 :: b2 :: b3 :: r => [b0; b1; b2; b3] :: chunks4 r
  | _ => []
  end.

(** [new Float32Array(buffer)]: a view in host byte order; the byte
    length must be a multiple of 4. *)
Definition Float32Array_view (buffer : ArrayBuffer) : completion Float32Array :=
  if (length buffer mod 4 =? 0)%nat
  then Return ((fun c => float32_of_bits (bytes_to_Z host_little_endian c)) <$> chunks4 buffer)
  else Throw RangeError.

(** [dst[k] = src[j]] between two Float32Arrays *)
Definition copy_element (dst : Float32Array) (k : nat) (src : Float32Array) (j : nat) : Float32Array :=
  match src !! j with
  | Some f => store dst k (widen f)
  | None => <[k := float32_nan]> dst
  end.

(** ** DataView *)

(** [new DataView(buffer, byteOffset)]: the bytes from [byteOffset] on. *)
Definition DataView := list byte.

Definition new_DataView (buffer : ArrayBuffer) (byteOffset : nat) : completion DataView :=
  if (byteOffset <=? length buffer)%nat
  then Return (drop byteOffset buffer)
  else Throw RangeError.

Definition view_bytes (view : DataView) (offset n : nat) : completion (list byte) :=
  if (offset + n <=? length view)%nat
  then Return (take n (drop offset view))
  else Throw RangeError.

Definition getFloat32 (view : DataView) (offset : nat) (littleEndian : bool) : completion number :=
  bs ← view_bytes view offset 4; mret (widen (float32_of_bits (bytes_to_Z littleEndian bs))).
Definition getFloat64 (view : DataView) (offset : nat) (littleEndian : bool) : completion number :=
  bs ← view_bytes view offset 8; mret (float64_of_bits (bytes_to_Z littleEndian bs)).
Definition getUint8 (view : DataView) (offset : nat) : completion number :=
  bs ← view_bytes view offset 1; mret (of_Z (bytes_to_Z true bs)).
Definition getInt8 (view : DataView) (offset : nat) : completion number :=
  bs ← view_bytes view offset 1; mret (of_Z (to_signed 8 (bytes_to_Z true bs))).
Definition getUint16 (view : DataView) (offset : nat) (littleEndian : bool) : completion number :=
  bs ← view_bytes view offset 2; mret (of_Z (bytes_to_Z littleEndian bs)).
Definition getInt16 (view : DataView) (offset : nat) (littleEndian : bool) : completion number :=
  bs ← view_bytes view offset 2; mret (of_Z (to_signed 16 (bytes_to_Z littleEndian bs))).
Definition getUint32 (view : DataView) (offset : nat) (littleEndian : bool) : completion number :=
  bs ← view_bytes view offset 4; mret (of_Z (bytes_to_Z littleEndian bs)).
Definition getInt32 (view : DataView) (offset : nat) (littleEndian : bool) : completion number :=
  bs ← view_bytes view offset 4; mret (of_Z (to_signed 32 (bytes_to_Z littleEndian bs))).

(** ** [parsePly]: the scalar codec *)

(** [switch (type) { case l1: case l2: ... }] *)
Definition case_of (type : value) (labels : list string) : bool :=
  existsb (is_str type) labels.

Definition readProperty (bufferView : DataView) (type : value) (offset : nat)
    (littleEndian : bool) : completion number :=
  if case_of type ["float"; "float32"] then getFloat32 bufferView offset littleEndian
  else if case_of type ["double"; "float64"] then getFloat64 bufferView offset littleEndian
  else if case_of type ["uchar"; "uint8"] then getUint8 bufferView offset
  else if case_of type ["char"; "int8"] then getInt8 bufferView offset
  else if case_of type ["ushort"; "uint16"] then getUint16 bufferView offset littleEndian
  else if case_of type ["short"; "int16"] then getInt16 bufferView offset littleEndian
  else if case_of type ["uint"; "uint32"] then getUint32 bufferView offset littleEndian
  else if case_of type ["int"; "int32"] then getInt32 bufferView offset littleEndian
  else getFloat32 bufferView offset littleEndian.

Definition propertySize (type : value) : nat :=
  if case_of type ["float"; "float32"; "int"; "int32"; "uint"; "uint32"] then 4
  else if case_of type ["double"; "float64"] then 8
  else if case_of type ["short"; "int16"; "ushort"; "uint16"] then 2
  else if case_of type ["char"; "int8"; "uchar"; "uint8"] then 1
  else 4.

(** ** [parsePly]: the two decoding loops *)

Section Rows.
(** the constants of [parsePly] that both loops read *)
Variable vertexCount : Z.
Variable vertexPropertyOrder : list string.
Variable vertexPropertyTypes : list value.
Variables xIndex yIndex zIndex rIndex gIndex bIndex : option nat.
Variable hasColor : bool.

(** [tokens[i]] where [i] may be -1 *)
Definition token_at (tokens : list string) (i : option nat) : value :=
  match i with
  | Some i => at_index tokens i
  | None => Undefined
  end.

Definition parseFloat_at (tokens : list string) (i : option nat) : number :=
  parseFloat (ToString (token_at tokens i)).

(** [for (const line of lines)] of the ASCII branch; the result also
    carries the final value of [v]. *)
Fixpoint ascii_loop (lines : list string) (v : nat)
    (positions colors : Float32Array) : nat * Float32Array * Float32Array :=
  match lines with
  | [] => (v, positions, colors)
  | line :: lines' =>
      if String.eqb (trim line) "" then ascii_loop lines' v positions colors else
      let tokens := split_ws (trim line) in
      if (length tokens <? length vertexPropertyOrder)%nat
      then ascii_loop lines' v positions colors else
      if (vertexCount <=? Z.of_nat v)%Z then (v, positions, colors) else
      let positions := store positions (3 * v + 0) (parseFloat_at tokens xIndex) in
      let positions := store positions (3 * v + 1) (parseFloat_at tokens yIndex) in
      let positions := store positions (3 * v + 2) (parseFloat_at tokens zIndex) in
      let colors :=
        if hasColor then
          let r := fdiv (parseFloat_at tokens rIndex) (of_Z 255) in
          let g := fdiv (parseFloat_at tokens gIndex) (of_Z 255) in
          let b := fdiv (parseFloat_at tokens bIndex) (of_Z 255) in
          store (store (store colors (3 * v + 0) r) (3 * v + 1) g) (3 * v + 2) b
        else
          store (store (store colors (3 * v + 0) (of_Z 1)) (3 * v + 1) (of_Z 1))
                (3 * v + 2) (of_Z 1) in
      ascii_loop lines' (S v) positions colors
  end.

(** the [let] variables of one iteration of the binary vertex loop *)
Record locals := {
  propertyOffset : nat;
  l_x : number; l_y : number; l_z : number;
  l_r : number; l_g : number; l_b : number
}.

Variable bufferView : DataView.
Variable little : bool.

(** body of [for (let i = 0; i < vertexPropertyOrder.length; i++)] *)
Definition property_step (i : nat) (st : locals) : completion locals :=
  let name := at_index vertexPropertyOrder i in
  let type := default Undefined (vertexPropertyTypes !! i) in
  value ← readProperty bufferView type (propertyOffset st) little;
  let x := if is_str name "x" then value else l_x st in
  let y := if is_str name "y" then value else l_y st in
  let z := if is_str name "z" then value else l_z st in
  let r := if hasColor && (is_str name "red" || is_str name "r")
           then fdiv value (of_Z 255) else l_r st in
  let g := if hasColor && (is_str name "green" || is_str name "g")
           then fdiv value (of_Z 255) else l_g st in
  let b := if hasColor && (is_str name "blue" || is_str name "b")
           then fdiv value (of_Z 255) else l_b st in
  mret {| propertyOffset := propertyOffset st + propertySize type;
          l_x := x; l_y := y; l_z := z; l_r := r; l_g := g; l_b := b |}.

(** [n] iterations of the property loop from index [i] *)
Fixpoint property_loop (n i : nat) (st : locals) : completion locals :=
  match n with
  | 0 => mret st
  | S n' => st' ← property_step i st; property_loop n' (S i) st'
  end.

Definition bytesPerVertex : nat :=
  foldl (fun acc t => acc + propertySize t) 0 vertexPropertyTypes.

(** [n] iterations of [for (let v = 0; v < vertexCount; v++)] from [v] *)
Fixpoint vertex_loop (n v offset : nat) (positions colors : Float32Array)
    : completion (Float32Array * Float32Array) :=
  match n with
  | 0 => mret (positions, colors)
  | S n' =>
      st ← property_loop (length vertexPropertyOrder) 0
             {| propertyOffset := offset;
                l_x := of_Z 0; l_y := of_Z 0; l_z := of_Z 0;
                l_r := of_Z 1; l_g := of_Z 1; l_b := of_Z 1 |};
      let positions := store positions (3 * v + 0) (l_x st) in
      let positions := store positions (3 * v + 1) (l_y st) in
      let positions := store positions (3 * v + 2) (l_z st) in
      let colors := store colors (3 * v + 0) (l_r st) in
      let colors := store colors (3 * v + 1) (l_g st) in
      let colors := store colors (3 * v + 2) (l_b st) in
      vertex_loop n' (S v) (offset + bytesPerVertex) positions colors
  end.
End Rows.

(** ** [parsePly] *)

Record PlyData := {
  ply_positions : Float32Array;
  ply_colors : Float32Array;
  ply_vertexCount : Z
}.

Definition quote : string := String (ascii_of_nat 34) "".
Definition msg_no_end_header : string :=
  "PLY header does not contain " ++ quote ++ "end_header" ++ quote ++ ".".
Definition msg_no_format : string := "PLY format not specified in header.".
Definition msg_no_vertex : string :=
  "PLY vertex element not found or vertex count is 0.".
Definition msg_no_xyz : string := "PLY vertex does not contain x/y/z properties.".
Definition msg_unsupported (format : value) : string :=
  "Unsupported PLY format: " ++ ToString format.

(** [a.indexOf(long) !== -1 ? a.indexOf(long) : a.indexOf(short)] *)
Definition color_index (order : list string) (long short : string) : option nat :=
  match array_indexOf long order with
  | Some i => Some i
  | None => array_indexOf short order
  end.

(** [!vertexCount] *)
Definition falsy_number (n : option Z) : bool :=
  match n with
  | None => true
  | Some n => (n =? 0)%Z
  end.

(** [i !== -1] *)
Definition found (i : option nat) : bool :=
  match i with
  | Some _ => true
  | None => false
  end.

(** [textHeader]: up to 64 KB of the buffer, decoded *)
Definition textHeader (buffer : ArrayBuffer) : string :=
  decode (take (1024 * 64) buffer).

Definition end_header : string := "end_header".

(** [headerLines], given [headerEndIndex] *)
Definition headerLines (buffer : ArrayBuffer) (headerEndIndex : nat) : list string :=
  split_lines (slice_to (headerEndIndex + String.length end_header) (textHeader buffer)).

(** [dataStart], given [headerEndIndex] *)
Definition dataStart (buffer : ArrayBuffer) (headerEndIndex : nat) : nat :=
  let headerLength := headerEndIndex + String.length end_header in
  let headerBytes := headerLength in
  headerBytes + search_nonspace (slice_from headerLength (textHeader buffer)).

(** [parsePly] from the allocation of [positions] and [colors] on
    (source lines 98-243), in terms of the variables set before. *)
Definition decode_vertices (buffer : ArrayBuffer) (h : header) (vertexCount : Z)
    (dataStart : nat) (bufferView : DataView) : completion PlyData :=
  let order := vertexPropertyOrder h in
  let types := vertexPropertyTypes h in
  let isLittleEndian := is_str (format h) "binary_little_endian" in
  let xIndex := array_indexOf "x" order in
  let yIndex := array_indexOf "y" order in
  let zIndex := array_indexOf "z" order in
  let rIndex := color_index order "red" "r" in
  let gIndex := color_index order "green" "g" in
  let bIndex := color_index order "blue" "b" in
  let hasColor := found rIndex && found gIndex && found bIndex in
  positions ← new_Float32Array (vertexCount * 3);
  colors ← new_Float32Array (vertexCount * 3);
  if is_str (format h) "ascii" then
    let asciiData := decode (drop dataStart buffer) in
    let lines := split_lines asciiData in
    let '(_, positions, colors) :=
      ascii_loop vertexCount order xIndex yIndex zIndex rIndex gIndex bIndex hasColor
                 lines 0 positions colors in
    mret {| ply_positions := positions; ply_colors := colors;
            ply_vertexCount := vertexCount |}
  else if is_str (format h) "binary_little_endian"
          || is_str (format h) "binary_big_endian" then
    '(positions, colors) ←
      vertex_loop order types hasColor bufferView isLittleEndian
                  (Z.to_nat vertexCount) 0 0 positions colors;
    mret {| ply_positions := positions; ply_colors := colors;
            ply_vertexCount := vertexCount |}
  else Throw (Error (msg_unsupported (format h))).

(** [parsePly]: the header (source lines 18-96), then [decode_vertices]. *)
Definition parsePly (buffer : ArrayBuffer) : completion PlyData :=
  match indexOf end_header (textHeader buffer) with
  | None => Throw (Error msg_no_end_header)
  | Some headerEndIndex =>
  let h := scan_header (headerLines buffer headerEndIndex) in
  if falsy (format h) then Throw (Error msg_no_format) else
  if falsy_number (vertexCount h) then Throw (Error msg_no_vertex) else
  let vertexCount := default 0%Z (vertexCount h) in
  let order := vertexPropertyOrder h in
  let dataStart := dataStart buffer headerEndIndex in
  bufferView ← new_DataView buffer dataStart;
  let xIndex := array_indexOf "x" order in
  let yIndex := array_indexOf "y" order in
  let zIndex := array_indexOf "z" order in
  if negb (found xIndex) || negb (found yIndex) || negb (found zIndex)
  then Throw (Error msg_no_xyz) else
  decode_vertices buffer h vertexCount dataStart bufferView
  end.

(** ** [loadSimpleSplatFromArrayBuffer] *)

Inductive console_entry :=
  | console_log (message : string)
  | console_warn (message : string) (args : list nat).

(** What the returned [THREE.Points] is built from: the two buffer
    attributes (item size 3) and the point count.  The [material]
    argument is handed to [THREE.Points] untouched and is left out. *)
Record PointSet := {
  positions : Float32Array;
  colors : Float32Array;
  count : Z
}.

(** [n] iterations of [for (let i = 0; i < count; i++)] from [i] *)
Fixpoint raw_loop (floats : Float32Array) (n i : nat)
    (positions colors : Float32Array) : Float32Array * Float32Array :=
  match n with
  | 0 => (positions, colors)
  | S n' =>
      let positions := copy_element positions (3 * i + 0) floats (6 * i + 0) in
      let positions := copy_element positions (3 * i + 1) floats (6 * i + 1) in
      let positions := copy_element positions (3 * i + 2) floats (6 * i + 2) in
      let colors := copy_element colors (3 * i + 0) floats (6 * i + 3) in
      let colors := copy_element colors (3 * i + 1) floats (6 * i + 4) in
      let colors := copy_element colors (3 * i + 2) floats (6 * i + 5) in
      raw_loop floats n' (S i) positions colors
  end.

Definition msg_length : string :=
  "Expected Float32 xyzrgb per point (6 floats), but got length =".

(** The result pairs what was written to the console with the
    completion: [Return None] is [return null]. *)
Definition loadSimpleSplatFromArrayBuffer (buffer : ArrayBuffer)
    : list console_entry * completion (option PointSet) :=
  if isPlyBuffer buffer then
    ([console_log "Detected PLY format."],
     plyData ← parsePly buffer;
     mret (Some {| positions := ply_positions plyData;
                   colors := ply_colors plyData;
                   count := ply_vertexCount plyData |}))
  else
    let out := [console_log "Assuming raw Float32 xyzrgb format."] in
    match Float32Array_view buffer with
    | Throw e => (out, Throw e)
    | Return floats =>
        let out :=
          if (length floats mod 6 =? 0)%nat then out
          else out ++ [console_warn msg_length [length floats]] in
        let count := (length floats / 6)%nat in
        if (count =? 0)%nat
        then (out ++ [console_warn "No points detected in buffer." []], Return None)
        else
          (out,
           positions ← new_Float32Array (Z.of_nat count * 3);
           colors ← new_Float32Array (Z.of_nat count * 3);
           let '(positions, colors) := raw_loop floats count 0 positions colors in
           mret (Some {| positions := positions; colors := colors;
                         count := Z.of_nat count |}))
    end.
End Decoder.

(** ** What a buffer declares: observers used in the statements *)

(** [headerEndIndex] of [parsePly]; [None] is -1. *)
Definition headerEndIndex (buffer : ArrayBuffer) : option nat :=
  indexOf end_header (textHeader buffer).

(** The variables [parsePly] holds once its header loop is over. *)
Definition schema (buffer : ArrayBuffer) : option header :=
  (fun i => scan_header (headerLines buffer i)) <$> headerEndIndex buffer.

(** [dataStart] of [parsePly]. *)
Definition dataOffset (buffer : ArrayBuffer) : nat :=
  match headerEndIndex buffer with
  | Some i => dataStart buffer i
  | None => 0
  end.

(** [lines] of the ASCII branch. *)
Definition asciiLines (buffer : ArrayBuffer) : list string :=
  split_lines (decode (drop (dataOffset buffer) buffer)).

(** [bufferView]: the bytes the binary branch reads. *)
Definition dataBytes (buffer : ArrayBuffer) : list byte :=
  drop (dataOffset buffer) buffer.

(** A data line the ASCII loop does not skip: not blank, and with at
    least [nprops] tokens. *)
Definition accepted (nprops : nat) (line : string) : bool :=
  negb (String.eqb (trim line) "")
  && negb (length (split_ws (trim line)) <? nprops)%nat.

Fixpoint data_rows (nprops : nat) (lines : list string) : nat :=
  match lines with
  | [] => 0
  | line :: lines' =>
      if accepted nprops line then S (data_rows nprops lines')
      else data_rows nprops lines'
  end.

(** The tokens of the accepted data lines, in order. *)
Fixpoint row_tokens (nprops : nat) (lines : list string) : list (list string) :=
  match lines with
  | [] => []
  | line :: lines' =>
      if accepted nprops line
      then split_ws (trim line) :: row_tokens nprops lines'
      else row_tokens nprops lines'
  end.

(** [name] is among the collected vertex properties. *)
Definition declares (h : header) (name : string) : bool :=
  found (array_indexOf name (vertexPropertyOrder h)).

(** [hasColor] of [parsePly] *)
Definition hasColor_of (h : header) : bool :=
  found (color_index (vertexPropertyOrder h) "red" "r")
  && found (color_index (vertexPropertyOrder h) "green" "g")
  && found (color_index (vertexPropertyOrder h) "blue" "b").

Definition supported_format (h : header) : bool :=
  is_str (format h) "ascii" || is_str (format h) "binary_little_endian"
  || is_str (format h) "binary_big_endian".

(** The element a point without colour data receives: [1] stored as
    binary32. *)
Definition white `{Engine} : float32 := fround (of_Z 1).

(** The header checks of [parsePly] that come before the allocation. *)
Definition header_ok (h : header) : bool :=
  negb (falsy (format h)) && negb (falsy_number (vertexCount h))
  && declares h "x" && declares h "y" && declares h "z".

(** The colour properties do not include all of red, green, blue, nor
    all of r, g, b. *)
Definition no_full_triple (h : header) : bool :=
  negb (declares h "red" && declares h "green" && declares h "blue")
  && negb (declares h "r" && declares h "g" && declares h "b").

(** ** Sample files *)

Module Examples.
Definition unlines (ls : list string) : string :=
  fold_right (fun l acc => String.append l (String LF acc)) "" ls.

(** A file: header lines, each ended by a line feed, then the data. *)
Definition file (header : list string) (data : list byte) : ArrayBuffer :=
  list_byte_of_string (unlines header) ++ data.

Definition text (rows : list string) : list byte :=
  list_byte_of_string (unlines rows).

Definition scenario_header : list string :=
  ["ply"; "format binary_little_endian 1.0"; "element vertex 2";
   "property float x"; "property float y"; "property float z";
   "property uchar red"; "property uchar green"; "property uchar blue";
   "end_header"].

(** what [parsePly] reads from that header *)
Definition scenario_schema : header :=
  {| format := Str "binary_little_endian";
     vertexCount := Some 2%Z;
     vertexPropertyOrder := ["x"; "y"; "z"; "red"; "green"; "blue"];
     vertexPropertyTypes :=
       [Str "float"; Str "float"; Str "float"; Str "uchar"; Str "uchar"; Str "uchar"];
     inVertexElement := true |}.

(** (1, 2, 3) coloured (255, 128, 0) and (-1, 0.5, 0.1f) coloured (1, 2, 3) *)
Definition scenario_records : list byte :=
  [x00; x00; x80; x3f;  x00; x00; x00; x40;  x00; x00; x40; x40;  xff; x80; x00;
   x00; x00; x80; xbf;  x00; x00; x00; x3f;  xcd; xcc; xcc; x3d;  x01; x02; x03].

Definition scenario : ArrayBuffer := file scenario_header scenario_records.

(** The same file with the first x coordinate 0x3F800020 (about
    1.0000038): its first encoded byte is 0x20. *)
Definition scenario_space : ArrayBuffer :=
  file scenario_header
    [x20; x00; x80; x3f;  x00; x00; x00; x40;  x00; x00; x40; x40;  xff; x80; x00;
     x00; x00; x80; xbf;  x00; x00; x00; x3f;  xcd; xcc; xcc; x3d;  x01; x02; x03].

Definition no_terminator : ArrayBuffer :=
  file ["ply"; "format ascii 1.0"; "element vertex 1"; "property float x"] [].

Definition xyz : list string :=
  ["property float x"; "property float y"; "property float z"].

Definition no_format : ArrayBuffer :=
  file (["ply"; "element vertex 1"] ++ xyz ++ ["end_header"]) (text ["1 2 3"]).

Definition negative_count : ArrayBuffer :=
  file (["ply"; "format binary_middle_endian 1.0"; "element vertex -1"] ++ xyz
        ++ ["end_header"]) [].

(** One vertex (1, 2, 3) with red = 255, green = 128, blue = 0 and a
    further property r = 0. *)
Definition both_names_header (format : string) : list string :=
  ["ply"; format; "element vertex 1"] ++ xyz
  ++ ["property uchar red"; "property uchar green"; "property uchar blue";
      "property uchar r"; "end_header"].

Definition both_names_binary : ArrayBuffer :=
  file (both_names_header "format binary_little_endian 1.0")
    [x00; x00; x80; x3f;  x00; x00; x00; x40;  x00; x00; x40; x40;
     xff; x80; x00; x00].

Definition both_names_ascii : ArrayBuffer :=
  file (both_names_header "format ascii 1.0") (text ["1 2 3 255 128 0 0"]).

(** One vertex (1, 2, 3) whose colour properties are red, g, b = 0, 0, 0. *)
Definition mixed_names : ArrayBuffer :=
  file (["ply"; "format binary_little_endian 1.0"; "element vertex 1"] ++ xyz
        ++ ["property uchar red"; "property uchar g"; "property uchar b";
            "end_header"])
    [x00; x00; x80; x3f;  x00; x00; x00; x40;  x00; x00; x40; x40;
     x00; x00; x00].

(** Two vertices declared, one data line, no colour property. *)
Definition short_text : ArrayBuffer :=
  file (["ply"; "format ascii 1.0"; "element vertex 2"] ++ xyz ++ ["end_header"])
    (text ["1 2 3"]).

(** Seven floats: 1, 2, 3, 0.5, 0.5, 0.5 and a stray 1. *)
Definition raw_seven : ArrayBuffer :=
  [x00; x00; x80; x3f;  x00; x00; x00; x40;  x00; x00; x40; x40;
   x00; x00; x00; x3f;  x00; x00; x00; x3f;  x00; x00; x00; x3f;
   x00; x00; x80; x3f].

Definition raw_two : ArrayBuffer :=
  [x00; x00; x80; x3f;  x00; x00; x00; x40].

Definition raw_five_bytes : ArrayBuffer :=
  [x00; x00; x80; x3f;  x00].
End Examples.

(** ** Two statements of the specification, as it words them *)

(** Header problems: [parsePly] throws one of its own errors exactly
    when there is no [format] line, the vertex count is missing or zero,
    [x], [y], [z] are not all declared, or the format token is not one of
    the three encodings. *)
Definition error_cases_as_stated `{Engine} : Prop :=
  forall (buffer : ArrayBuffer) (h : header),
    schema buffer = Some h ->
    ((exists m, parsePly buffer = Throw (Error m)) <->
     (format h = Null \/ falsy_number (vertexCount h) = true \/
      declares h "x" && declares h "y" && declares h "z" = false \/
      supported_format h = false)).

(** Colour defaulting: without a complete colour triple under either
    naming, every element of [colors] is [1]. *)
Definition colour_default_as_stated `{Engine} : Prop :=
  forall (buffer : ArrayBuffer) (h : header) (d : PlyData),
    schema buffer = Some h ->
    no_full_triple h = true ->
    parsePly buffer = Return d ->
    forall k, k < length (ply_colors d) -> ply_colors d !! k = Some white.

(** ** The fields of a binary record, as a decode should deliver them *)

(** The little-endian binary32 encoded at byte [o] of [records]. *)
Definition float_at `{Engine} (records : list byte) (o : nat) : float32 :=
  float32_of_bits (bytes_to_Z true (take 4 (drop o records))).

(** The byte at [o] of [records] divided by 255, as a binary32. *)
Definition channel_at `{Engine} (records : list byte) (o : nat) : float32 :=
  fround (fdiv (of_Z (bytes_to_Z true (take 1 (drop o records)))) (of_Z 255)).

(** ** An implementation of [Engine]: IEEE 754 binary64 / binary32

    Numbers are [spec_float]s rounded with precision 53; a Float32Array
    element is a [spec_float] that is a valid binary32 value. *)

Module IEEE.
Definition binary32 := { x : spec_float | valid_binary 24 128 x = true }.

(** Packs a value with the certificate that it is a binary32 value;
    a value that fails the check becomes NaN. *)
Definition pack (x : spec_float) : binary32 :=
  match bool_dec (valid_binary 24 128 x) true with
  | left pf => exist _ x pf
  | right _ => exist _ S754_nan eq_refl
  end.

(** The value of a bit pattern with [mw] mantissa bits and [ew]
    exponent bits; [emin] is the exponent of the subnormals. *)
Definition of_bits (mw ew emin : Z) (bits : Z) : spec_float :=
  let m := Z.land bits (Z.ones mw) in
  let e := Z.land (Z.shiftr bits mw) (Z.ones ew) in
  let s := Z.testbit bits (mw + ew) in
  if (e =? 0)%Z then
    match m with
    | Zpos p => S754_finite s p emin
    | _ => S754_zero s
    end
  else if (e =? Z.ones ew)%Z then
    if (m =? 0)%Z then S754_infinity s else S754_nan
  else
    match Z.lor m (Z.shiftl 1 mw) with
    | Zpos p => S754_finite s p (e + emin - 1)
    | _ => S754_nan
    end.

Definition round32 (x : spec_float) : spec_float :=
  match x with
  | S754_finite s m e => binary_round 24 128 s m e
  | _ => x
  end.

Definition double_of_Z (z : Z) : spec_float := binary_normalize 53 1024 z 0 false.

(** *** [parseFloat]: the longest prefix that is a StrDecimalLiteral *)

Fixpoint span_digits (acc : Z) (n : nat) (s : string) : Z * nat * string :=
  match s with
  | String c s' =>
      match digit_of c with
      | Some d => span_digits (10 * acc + d)%Z (S n) s'
      | None => (acc, n, s)
      end
  | "" => (acc, n, s)
  end.

Definition exponent_part (s : string) : Z :=
  match s with
  | String c r =>
      if Ascii.eqb c "e" || Ascii.eqb c "E" then
        let '(neg, r) :=
          match r with
          | String "-" r' => (true, r')
          | String "+" r' => (false, r')
          | _ => (false, r)
          end in
        let '(e, n, _) := span_digits 0 0 r in
        if (n =? 0)%nat then 0%Z else if neg then (- e)%Z else e
      else 0%Z
  | "" => 0%Z
  end.

(** the double nearest to [m * 10 ^ e], ties to even *)
Definition double_of_decimal (neg : bool) (m e : Z) : spec_float :=
  if (m =? 0)%Z then S754_zero neg else
  let sg := fun z : Z => if neg then (- z)%Z else z in
  if (0 <=? e)%Z then binary_normalize 53 1024 (sg (m * 10 ^ e)%Z) 0 false
  else
    let d := (10 ^ (- e))%Z in
    let k := Z.max 0 (Z.log2 d + 60 - Z.log2 m) in
    let n := Z.shiftl m k in
    let sticky := if (n mod d =? 0)%Z then 0%Z else 1%Z in
    binary_normalize 53 1024 (sg (2 * (n / d) + sticky)%Z) (- k - 1) false.

Definition parse_float (s : string) : spec_float :=
  let s := trimStart s in
  let '(neg, s) :=
    match s with
    | String "-" r => (true, r)
    | String "+" r => (false, r)
    | _ => (false, s)
    end in
  if String.prefix "Infinity" s then S754_infinity neg else
  let '(ip, ni, s1) := span_digits 0 0 s in
  let '(m, nf, s2) :=
    match s1 with
    | String "." r => span_digits ip 0 r
    | _ => (ip, 0, s1)
    end in
  if (ni + nf =? 0)%nat then S754_nan
  else double_of_decimal neg m (exponent_part s2 - Z.of_nat nf).

(** *** The laws *)

Lemma binary_round_bounded prec emax s m e :
  bounded prec emax m e = true ->
  binary_round prec emax s m e = S754_finite s m e.
Proof.
  unfold bounded, canonical_mantissa.
  intros [Hc He]%andb_true_iff. apply Z.eqb_eq in Hc.
  unfold binary_round, shl_align. rewrite Hc, Z.sub_diag.
  unfold binary_round_aux, shr_fexp. cbn [Zdigits2].
  rewrite Hc, Z.sub_diag. cbn.
  rewrite Hc, Z.sub_diag. cbn. now rewrite He.
Qed.

Lemma round32_valid x : valid_binary 24 128 x = true -> round32 x = x.
Proof. destruct x; cbn [round32 valid_binary]; auto using binary_round_bounded. Qed.

Lemma pack_valid x (pf : valid_binary 24 128 x = true) : pack x = exist _ x pf.
Proof.
  unfold pack. destruct (bool_dec _ _) as [pf'|n]; [|contradiction].
  f_equal. apply UIP_dec, bool_dec.
Qed.

Lemma pack_round32_proj (x : binary32) : pack (round32 (proj1_sig x)) = x.
Proof. destruct x as [v pf]. cbn [proj1_sig]. rewrite round32_valid by exact pf. apply pack_valid. Qed.

Lemma one_is_not_zero :
  pack (round32 (double_of_Z 1)) <> pack (of_bits 23 8 (-149) 0).
Proof. intros E. apply (f_equal (@proj1_sig _ _)) in E. vm_compute in E. discriminate E. Qed.

Lemma max_length_is_safe : (0 <= 4294967295 <= 2 ^ 53 - 1)%Z.
Proof. split; discriminate. Qed.

#[global] Instance engine : Engine := {|
  number := spec_float;
  float32 := binary32;
  of_Z := double_of_Z;
  fdiv := SFdiv 53 1024;
  parseFloat := parse_float;
  float32_of_bits := fun bits => pack (of_bits 23 8 (-149) bits);
  float64_of_bits := of_bits 52 11 (-1074);
  widen := @proj1_sig _ _;
  fround := fun x => pack (round32 x);
  host_little_endian := true;
  max_array_length := 4294967295;
  max_array_length_safe := max_length_is_safe;
  fround_widen := pack_round32_proj;
  fround_one_nonzero := one_is_not_zero
|}.
End IEEE.

(** What a decode with the [IEEE] instance produced, read as plain
    floating-point values. *)
Module Observe.
(** The Numbers read from a [Float32Array]. *)
Definition values (a : @Float32Array IEEE.engine) : list spec_float :=
  @widen IEEE.engine <$> a.

Definition observed : Type := list spec_float * list spec_float * Z.

Definition ply (c : completion (@PlyData IEEE.engine)) : completion observed :=
  match c with
  | Return d =>
      Return (values (ply_positions d), values (ply_colors d),
              ply_vertexCount d)
  | Throw e => Throw e
  end.

Definition points (c : completion (option (@PointSet IEEE.engine)))
    : completion (option observed) :=
  match c with
  | Return (Some ps) =>
      Return (Some (values (positions ps), values (colors ps),
                    count ps))
  | Return None => Return None
  | Throw e => Throw e
  end.

(** a positive binary32 / binary64 value [m * 2 ^ e] *)
Definition pos (m : positive) (e : Z) : spec_float := S754_finite false m e.
Definition neg (m : positive) (e : Z) : spec_float := S754_finite true m e.
Definition zero : spec_float := S754_zero false.
End Observe.


(** ** Further observers: binary records and header lines *)

(** Byte offset of property [i] inside a record: the sizes of the
    properties declared before it. *)
Definition field_offset (types : list value) (i : nat) : nat :=
  sum_list (propertySize <$> take i types).

(** What [readProperty] delivers for property [i] of the record that
    starts at byte [base] of the view. *)
Definition field `{Engine} (view : DataView) (little : bool) (types : list value)
    (base i : nat) : completion number :=
  readProperty view (default Undefined (types !! i)) (base + field_offset types i) little.

(** Index of the last property whose name is one of [names]; the first
    element of [order] has index [i]. *)
Fixpoint last_named_from (names : list string) (order : list string) (i : nat)
    : option nat :=
  match order with
  | [] => None
  | name :: rest =>
      match last_named_from names rest (S i) with
      | Some j => Some j
      | None => if case_of (Str name) names then Some i else None
      end
  end.
Definition last_named (names : list string) (order : list string) : option nat :=
  last_named_from names order 0.

(** [tokens] of a header or data line *)
Definition tokens_of (line : string) : list string := split_ws (trim line).

Definition is_format_line (line : string) : bool :=
  is_str (at_index (tokens_of line) 0) "format".
Definition is_element_line (line : string) : bool :=
  is_str (at_index (tokens_of line) 0) "element".
Definition is_vertex_line (line : string) : bool :=
  is_element_line line && is_str (at_index (tokens_of line) 1) "vertex".
Definition is_property_line (line : string) : bool :=
  is_str (at_index (tokens_of line) 0) "property".

(** A stored element [out] is the value of the last property named one
    of [names] in the record at byte [base], passed through [g] and
    rounded to binary32. *)
Definition record_field `{Engine} (view : DataView) (little : bool)
    (types : list value) (order : list string) (base : nat)
    (names : list string) (g : number -> number) (out : option float32) : Prop :=
  exists j val,
    last_named names order = Some j /\
    field view little types base j = Return val /\
    out = Some (fround (g val)).

(** [name] and [type] of a [property] line *)
Definition property_name (line : string) : string := last_token (tokens_of line).
Definition property_type (line : string) : value := at_index (tokens_of line) 1.

(** ** Lines and tokens, as a writer lays them out *)

(** only whitespace, possibly none *)
Fixpoint blank (s : string) : bool :=
  match s with
  | "" => true
  | String c s' => isWhiteSpace c && blank s'
  end.

(** no whitespace *)
Fixpoint solid (s : string) : bool :=
  match s with
  | "" => true
  | String c s' => negb (isWhiteSpace c) && solid s'
  end.

(** a token: at least one character, none of them whitespace *)
Definition word (s : string) : bool := negb (String.eqb s "") && solid s.

(** what stands between two tokens: at least one whitespace character *)
Definition separator (s : string) : bool := negb (String.eqb s "") && blank s.

(** words, each followed by its separator, then [rest] *)
Fixpoint spaced (items : list (string * string)) (rest : string) : string :=
  match items with
  | [] => rest
  | (w, sep) :: r => String.append w (String.append sep (spaced r rest))
  end.

Fixpoint no_LF (s : string) : bool :=
  match s with
  | "" => true
  | String c s' => negb (Ascii.eqb c LF) && no_LF s'
  end.

Fixpoint ends_with_CR (s : string) : bool :=
  match s with
  | "" => false
  | String c "" => Ascii.eqb c CR
  | String _ s' => ends_with_CR s'
  end.

(** lines, each followed by its line break (CR LF when the flag is set,
    LF otherwise), then [rest] *)
Fixpoint broken (lines : list (string * bool)) (rest : string) : string :=
  match lines with
  | [] => rest
  | (l, crlf) :: r =>
      String.append l
        (if crlf then String CR (String LF (broken r rest))
         else String LF (broken r rest))
  end.

(** The bytes from the first one that is not whitespace on. *)
Fixpoint skip_whitespace (bs : list byte) : list byte :=
  match bs with
  | b :: r => if isWhiteSpace (ascii_of_byte b) then skip_whitespace r else bs
  | [] => []
  end.

(** ** The header terminator *)

(** [needle] occurs somewhere in [s]. *)
Definition contains (needle s : string) : Prop :=
  exists pre post, s = String.append pre (String.append needle post).

(** [text] has a terminator line: one of its lines, as [split(/\r?\n/)]
    cuts them, reads [end_header] once the whitespace around it is
    removed. *)
Definition has_terminator_line (text : string) : bool :=
  existsb (fun line => String.eqb (trim line) end_header) (split_lines text).

(** The statement of the specification on a missing terminator, as it
    words it: a structured buffer whose first 64 KiB hold no terminator
    line makes the decode fail with an error of the parser. *)
Definition missing_terminator_line_as_stated `{Engine} : Prop :=
  forall buffer : ArrayBuffer,
    isPlyBuffer buffer = true ->
    has_terminator_line (textHeader buffer) = false ->
    exists m, snd (loadSimpleSplatFromArrayBuffer buffer) = Throw (Error m).

(** ** An 8-bit colour channel under IEEE arithmetic *)

(** The Number read back from a [colors] element that the binary branch
    filled from a [uchar] property holding the byte [b]: [getUint8],
    [/ 255.0], the store into the [Float32Array]. *)
Definition uchar_channel (b : byte) : spec_float :=
  @widen IEEE.engine
    (@fround IEEE.engine
       (@fdiv IEEE.engine (@of_Z IEEE.engine (bytes_to_Z true [b]))
          (@of_Z IEEE.engine 255))).

(** ** Further sample inputs *)

Module Layout.
Definition TAB : string := String (ascii_of_nat 9) "".

(** [  property float<TAB><TAB>x<CR>] *)
Definition property_line_lead : string := "  ".
Definition property_line_items : list (string * string) :=
  [("property", " "); ("float", String.append TAB TAB)].
Definition property_line_trail : string := String CR "".

(** a header whose vertex element is followed by a face element *)
Definition faces_pre : list string :=
  ["ply"; "format ascii 1.0"; "comment made by hand"; "property float w"].
Definition faces_body : list string :=
  ["property float x"; "comment the height"; "property double y";
   "property float z"; ""].
Definition faces_tail : list string :=
  ["element face 1"; "property list uchar int vertex_indices"; "end_header"].

(** A text file with one vertex (1, 2, 3) whose header has no
    [end_header] line of its own: the word only closes a comment. *)
Definition comment_terminator : ArrayBuffer :=
  Examples.file
    (["ply"; "format ascii 1.0"; "element vertex 1"] ++ Examples.xyz
     ++ ["comment end_header"])
    (Examples.text ["1 2 3"]).

(** [ply<CR><LF>format ascii 1.0<LF>end_header] *)
Definition mixed_breaks : list (string * bool) :=
  [("ply", true); ("format ascii 1.0", false)].
End Layout.

(** * viewer.js: the annotation tools

    The part of [src/viewer.js] that keeps the list of annotations: the
    toolbar handler, the [pointerdown] handler of the canvas,
    [addMarkerAnnotation], [handleDistanceClick] and the call of
    [rebuildAnnotations].  What the handlers take from the page is an
    argument of the event: the [data-tool] attribute of the button that
    was clicked (if any), the point [get3DPointFromClick] returns ([None]
    for [null]) and the reading of [Date.now()].  A [THREE.Vector3] is
    its three coordinates; the scene graph and the labels that
    [rebuildAnnotations] builds are determined by the list it is run on,
    so the state records that list.  The [active] class that the toolbar
    handler moves between the buttons is styling and is left out. *)

Module Viewer.
(** [String(n)] for an integer Number *)
Definition decimal (n : N) : string := NilEmpty.string_of_uint (N.to_uint n).

Section Tools.
Context {coordinate : Type}.

Record Vector3 := { v_x : coordinate; v_y : coordinate; v_z : coordinate }.

(** the objects pushed on [viewerState.annotations] *)
Inductive annotation :=
  | marker (id : string) (position : list coordinate) (label color : string)
  | distance (id : string) (p1 p2 : list coordinate).

Record state := {
  tool : string;                      (* [tool] *)
  pending : option Vector3;           (* [distanceTemp.pending]: null or [{ p1 }] *)
  annotations : list annotation;      (* [viewerState.annotations] *)
  drawn : list annotation             (* the list [rebuildAnnotations] last drew *)
}.

Definition initial : state :=
  {| tool := "select"; pending := None; annotations := []; drawn := [] |}.

Definition rebuildAnnotations (s : state) : state :=
  {| tool := tool s; pending := pending s; annotations := annotations s;
     drawn := annotations s |}.

Definition push (a : annotation) (s : state) : state :=
  {| tool := tool s; pending := pending s;
     annotations := annotations s ++ [a]; drawn := drawn s |}.

Definition addMarkerAnnotation (now : N) (position : Vector3) (s : state) : state :=
  let id := String.append "marker-" (decimal now) in
  rebuildAnnotations
    (push (marker id [v_x position; v_y position; v_z position] id "#ff0000") s).

Definition handleDistanceClick (now : N) (position : Vector3) (s : state) : state :=
  match pending s with
  | None =>
      {| tool := tool s; pending := Some position;
         annotations := annotations s; drawn := drawn s |}
  | Some p1 =>
      let p2 := position in
      let id := String.append "dist-" (decimal now) in
      let s := push (distance id [v_x p1; v_y p1; v_z p1] [v_x p2; v_y p2; v_z p2]) s in
      rebuildAnnotations
        {| tool := tool s; pending := None;
           annotations := annotations s; drawn := drawn s |}
  end.

(** [canvas.addEventListener('pointerdown', ...)] *)
Definition pointerdown (hit : option Vector3) (now : N) (s : state) : state :=
  if String.eqb (tool s) "select" then s else
  match hit with
  | None => s
  | Some p =>
      if String.eqb (tool s) "marker" then addMarkerAnnotation now p s
      else if String.eqb (tool s) "distance" then handleDistanceClick now p s
      else s
  end.

(** [toolbar.addEventListener('click', ...)]: [button] is the
    [data-tool] attribute of the closest tool button, if there is one. *)
Definition toolbar_click (button : option string) (s : state) : state :=
  match button with
  | None => s
  | Some t =>
      {| tool := t; pending := pending s; annotations := annotations s;
         drawn := drawn s |}
  end.

Inductive event :=
  | PointerDown (hit : option Vector3) (now : N)
  | ToolbarClick (button : option string).

Definition handle (s : state) (e : event) : state :=
  match e with
  | PointerDown hit now => pointerdown hit now s
  | ToolbarClick button => toolbar_click button s
  end.

Definition run (events : list event) (s : state) : state :=
  fold_left handle events s.

(** What a series of clicks that hit the model should leave behind
    when the distance tool is active: one measurement for every two
    clicks, dated by the second. *)
Fixpoint measurements (clicks : list (Vector3 * N)) : list annotation :=
  match clicks with
  | (p1, _) :: (p2, t) :: rest =>
      distance (String.append "dist-" (decimal t))
        [v_x p1; v_y p1; v_z p1] [v_x p2; v_y p2; v_z p2]
      :: measurements rest
  | _ => []
  end.

Fixpoint unpaired (clicks : list (Vector3 * N)) : option Vector3 :=
  match clicks with
  | _ :: _ :: rest => unpaired rest
  | [(p, _)] => Some p
  | [] => None
  end.

Definition markers (clicks : list (Vector3 * N)) : list annotation :=
  (fun c : Vector3 * N =>
     let id := String.append "marker-" (decimal (snd c)) in
     marker id [v_x (fst c); v_y (fst c); v_z (fst c)] id "#ff0000") <$> clicks.

Definition hits (clicks : list (Vector3 * N)) : list event :=
  (fun c : Vector3 * N => PointerDown (Some (fst c)) (snd c)) <$> clicks.
End Tools.

(** A session on integer coordinates: three clicks on the model. *)
Definition corner (x y z : Z) : @Vector3 Z := {| v_x := x; v_y := y; v_z := z |}.
Definition three_clicks : list (@Vector3 Z * N) :=
  [(corner 0 0 0, 1700000000000%N); (corner 1 0 0, 1700000000250%N);
   (corner 1 2 0, 1700000000900%N)].
Definition measuring : @state Z := toolbar_click (Some "distance") initial.
End Viewer.

(** * Properties *)

(** ** Strings and the data offset *)

Lemma length_decode (b : ArrayBuffer) : String.length (decode b) = length b.
Proof.
  unfold decode, string_of_list_byte.
  induction b as [|c b IH]; cbn; [reflexivity | now rewrite IH].
Qed.

Lemma prefix_length (p s : string) :
  String.prefix p s = true -> String.length p <= String.length s.
Proof.
  revert s; induction p as [|a p IH]; intros [|c s]; cbn; try lia; try discriminate.
  destruct (ascii_dec a c); [intros Hp; apply IH in Hp; lia | done].
Qed.

Lemma indexOf_bound (needle s : string) (i : nat) :
  indexOf needle s = Some i -> i + String.length needle <= String.length s.
Proof.
  revert i; induction s as [|c s IH]; intros i.
  - destruct needle; cbn; [intros [= <-]; cbn; lia | done].
  - cbn [indexOf]. destruct (String.prefix needle (String c s)) eqn:Hp.
    + intros [= <-]. apply prefix_length in Hp. lia.
    + destruct (indexOf needle s) as [j|]; [|done].
      intros [= <-]. specialize (IH j eq_refl). cbn; lia.
Qed.

Lemma length_slice_from (n : nat) (s : string) :
  String.length (slice_from n s) = String.length s - n.
Proof.
  revert s; induction n as [|n IH]; intros [|c s]; cbn; try lia. apply IH.
Qed.

Lemma search_nonspace_le (s : string) : search_nonspace s <= String.length s.
Proof.
  induction s as [|c s IH]; cbn; [lia|]. destruct (isWhiteSpace c); lia.
Qed.

Lemma dataStart_le (buffer : ArrayBuffer) (i : nat) :
  indexOf end_header (textHeader buffer) = Some i ->
  dataStart buffer i <= length buffer.
Proof.
  intros Hi%indexOf_bound. unfold dataStart.
  pose proof (search_nonspace_le
    (slice_from (i + String.length end_header) (textHeader buffer))) as Hs.
  rewrite length_slice_from in Hs.
  unfold textHeader in *. rewrite length_decode, length_take in *. lia.
Qed.

Section DecoderFacts.
Context `{Engine}.

Lemma new_DataView_dataStart (buffer : ArrayBuffer) (i : nat) :
  indexOf end_header (textHeader buffer) = Some i ->
  new_DataView buffer (dataStart buffer i) = Return (drop (dataStart buffer i) buffer).
Proof.
  intros Hi%dataStart_le. unfold new_DataView.
  now apply Nat.leb_le in Hi as ->.
Qed.

(** *** Typed arrays *)

Lemma new_Float32Array_Return (n : Z) (a : Float32Array) :
  new_Float32Array n = Return a ->
  (0 <= n <= max_array_length)%Z /\ a = replicate (Z.to_nat n) float32_zero.
Proof.
  unfold new_Float32Array.
  destruct ((0 <=? n)%Z && (n <=? max_array_length)%Z) eqn:E; [|done].
  intros [= <-]. apply andb_true_iff in E as [?%Z.leb_le ?%Z.leb_le]. auto.
Qed.

Lemma new_Float32Array_Throw (n : Z) (e : exn) :
  new_Float32Array n = Throw e ->
  e = RangeError /\ ~ (0 <= n <= max_array_length)%Z.
Proof.
  unfold new_Float32Array.
  destruct ((0 <=? n)%Z && (n <=? max_array_length)%Z) eqn:E; [done|].
  intros [= <-]. split; [reflexivity|].
  apply andb_false_iff in E as [?%Z.leb_gt | ?%Z.leb_gt]; lia.
Qed.

Lemma length_store (a : Float32Array) (i : nat) (x : number) :
  length (store a i x) = length a.
Proof. apply length_insert. Qed.

Lemma lookup_store_ne (a : Float32Array) (i k : nat) (x : number) :
  i <> k -> store a i x !! k = a !! k.
Proof. apply list_lookup_insert_ne. Qed.

Lemma lookup_store_eq (a : Float32Array) (i : nat) (x : number) :
  i < length a -> store a i x !! i = Some (fround x).
Proof. apply list_lookup_insert_eq. Qed.

(** One value stored in the three elements of point [v]. *)
Lemma lookup_store_point (a : Float32Array) (v k : nat) (x : number) :
  3 * v <= k < 3 * S v -> k < length a ->
  store (store (store a (3 * v + 0) x) (3 * v + 1) x) (3 * v + 2) x !! k
  = Some (fround x).
Proof.
  intros Hk Hlen.
  destruct (decide (k = 3 * v + 2)) as [->|];
    [apply lookup_store_eq; rewrite !length_store; lia|].
  rewrite lookup_store_ne by lia.
  destruct (decide (k = 3 * v + 1)) as [->|];
    [apply lookup_store_eq; rewrite !length_store; lia|].
  rewrite lookup_store_ne by lia.
  assert (k = 3 * v + 0) as -> by lia.
  apply lookup_store_eq; lia.
Qed.
End DecoderFacts.

Section LoopFacts.
Context `{Engine}.
Variable N : Z.
Variable order : list string.
Variable types : list value.
Variables xi yi zi ri gi bi : option nat.
Variable hc : bool.

(** *** The ASCII loop *)

Lemma ascii_loop_spec (lines : list string) :
  forall v pos col v' pos' col',
  ascii_loop N order xi yi zi ri gi bi hc lines v pos col = (v', pos', col') ->
  length pos' = length pos /\ length col' = length col /\ v <= v' /\
  ((Z.of_nat v <= N)%Z ->
   v' = Nat.min (Z.to_nat N) (v + data_rows (length order) lines)) /\
  (forall k, k < 3 * v \/ 3 * v' <= k ->
     pos' !! k = pos !! k /\ col' !! k = col !! k) /\
  (hc = false -> forall k, 3 * v <= k < 3 * v' -> k < length col ->
     col' !! k = Some white).
Proof.
  induction lines as [|line lines IH]; intros v pos col v' pos' col';
    cbn [ascii_loop data_rows].
  - intros [= <- <- <-]. repeat split; auto; lia.
  - unfold accepted.
    destruct (String.eqb (trim line) "") eqn:E1; cbn [negb andb]; [apply IH|].
    destruct (length (split_ws (trim line)) <? length order)%nat eqn:E2;
      cbn [negb]; [apply IH|].
    destruct (N <=? Z.of_nat v)%Z eqn:E3.
    + apply Z.leb_le in E3. intros [= <- <- <-]. repeat split; auto; lia.
    + apply Z.leb_gt in E3. intros Hl.
      apply IH in Hl as (Hp & Hc & Hv & Hn & Hf & Hw).
      assert (Hlc : forall c,
        length (if hc then
                  store (store (store col (3 * v + 0)
                    (fdiv (parseFloat_at c ri) (of_Z 255))) (3 * v + 1)
                    (fdiv (parseFloat_at c gi) (of_Z 255))) (3 * v + 2)
                    (fdiv (parseFloat_at c bi) (of_Z 255))
                else store (store (store col (3 * v + 0) (of_Z 1)) (3 * v + 1)
                    (of_Z 1)) (3 * v + 2) (of_Z 1)) = length col)
        by (intros; destruct hc; now rewrite !length_store).
      rewrite !length_store in Hp. rewrite Hlc in Hc, Hw.
      split; [exact Hp|]. split; [exact Hc|]. split; [lia|].
      split; [intros _; rewrite Hn by lia; lia|].
      split.
      * intros k Hk. destruct (Hf k) as [-> ->]; [lia|].
        split; [|destruct hc]; rewrite !lookup_store_ne by lia; reflexivity.
      * intros -> k Hk Hlen.
        destruct (decide (k < 3 * S v)) as [Hlt|Hge].
        -- destruct (Hf k) as [_ ->]; [lia|].
           apply lookup_store_point; lia.
        -- apply Hw; [reflexivity | lia | exact Hlen].
Qed.

(** Row [p] of the accepted lines fills point [v + p]. *)
Lemma ascii_loop_values (lines : list string) :
  forall v pos col v' pos' col',
  ascii_loop N order xi yi zi ri gi bi hc lines v pos col = (v', pos', col') ->
  3 * Z.to_nat N <= length pos -> 3 * Z.to_nat N <= length col ->
  forall p tokens,
    row_tokens (length order) lines !! p = Some tokens ->
    v + p < Z.to_nat N ->
    pos' !! (3 * (v + p) + 0) = Some (fround (parseFloat_at tokens xi)) /\
    pos' !! (3 * (v + p) + 1) = Some (fround (parseFloat_at tokens yi)) /\
    pos' !! (3 * (v + p) + 2) = Some (fround (parseFloat_at tokens zi)) /\
    (hc = true ->
     col' !! (3 * (v + p) + 0)
       = Some (fround (fdiv (parseFloat_at tokens ri) (of_Z 255))) /\
     col' !! (3 * (v + p) + 1)
       = Some (fround (fdiv (parseFloat_at tokens gi) (of_Z 255))) /\
     col' !! (3 * (v + p) + 2)
       = Some (fround (fdiv (parseFloat_at tokens bi) (of_Z 255)))).
Proof.
  induction lines as [|line lines IH]; intros v pos col v' pos' col';
    cbn [ascii_loop row_tokens]; [intros _ _ _ p tokens Hp; done|].
  unfold accepted.
  destruct (String.eqb (trim line) "") eqn:E1; cbn [negb andb]; [apply IH|].
  destruct (length (split_ws (trim line)) <? length order)%nat eqn:E2;
    cbn [negb]; [apply IH|].
  destruct (N <=? Z.of_nat v)%Z eqn:E3.
  - apply Z.leb_le in E3. intros _ _ _ p tokens _ Hp. lia.
  - intros Hl Hpl Hcl p tokens Hrow Hp.
    destruct p as [|p].
    + injection Hrow as <-. replace (v + 0) with v by lia.
      apply ascii_loop_spec in Hl as (_ & _ & _ & _ & Hf & _).
      destruct (Hf (3 * v + 0)) as [-> ->]; [lia|].
      destruct (Hf (3 * v + 1)) as [-> ->]; [lia|].
      destruct (Hf (3 * v + 2)) as [-> ->]; [lia|].
      split; [|split; [|split; [|intros Hhc; rewrite Hhc; split; [|split]]]];
        repeat (rewrite lookup_store_ne by lia);
        apply lookup_store_eq; rewrite ?length_store; lia.
    + replace (v + S p) with (S v + p) by lia.
      apply (IH _ _ _ _ _ _ Hl); [| | exact Hrow | lia].
      * now rewrite !length_store.
      * destruct hc; now rewrite !length_store.
Qed.

(** *** Completions *)

Lemma bind_Return {A B} (c : completion A) (k : A -> completion B) (b : B) :
  c ≫= k = Return b -> exists a, c = Return a /\ k a = Return b.
Proof. destruct c as [a|e]; cbn; [eauto | done]. Qed.

Lemma bind_Throw {A B} (c : completion A) (k : A -> completion B) (e : exn) :
  c ≫= k = Throw e -> c = Throw e \/ exists a, c = Return a /\ k a = Throw e.
Proof. destruct c as [a|e']; cbn; [eauto | intros [= ->]; auto]. Qed.

(** *** The binary loops *)

Variable bufferView : DataView.
Variable little : bool.

Lemma view_bytes_Throw (offset n : nat) (e : exn) :
  view_bytes bufferView offset n = Throw e -> e = RangeError.
Proof. unfold view_bytes. case_match; congruence. Qed.

Lemma readProperty_Throw (type : value) (offset : nat) (e : exn) :
  readProperty bufferView type offset little = Throw e -> e = RangeError.
Proof.
  unfold readProperty, getFloat32, getFloat64, getUint8, getInt8, getUint16,
    getInt16, getUint32, getInt32.
  repeat case_match;
    (intros [Ht | (a & _ & Ht)]%bind_Throw;
     [exact (view_bytes_Throw _ _ _ Ht) | discriminate Ht]).
Qed.

Lemma property_loop_Throw (n : nat) : forall i st e,
  property_loop order types hc bufferView little n i st = Throw e ->
  e = RangeError.
Proof.
  induction n as [|n IH]; intros i st e; cbn [property_loop]; [done|].
  intros [Ht | (st' & _ & Ht)]%bind_Throw; [|exact (IH _ _ _ Ht)].
  unfold property_step in Ht.
  apply bind_Throw in Ht as [Ht | (a & _ & Ht)]; [|discriminate Ht].
  exact (readProperty_Throw _ _ _ Ht).
Qed.

(** Without [hasColor] the property loop leaves [r], [g], [b] alone. *)
Lemma property_loop_no_color (n : nat) : forall i st st',
  hc = false ->
  property_loop order types hc bufferView little n i st = Return st' ->
  l_r st' = l_r st /\ l_g st' = l_g st /\ l_b st' = l_b st.
Proof.
  induction n as [|n IH]; intros i st st' Hc; cbn [property_loop].
  - intros [= <-]; auto.
  - intros (st1 & Hs & Hl)%bind_Return.
    destruct (IH _ _ _ Hc Hl) as (-> & -> & ->).
    unfold property_step in Hs.
    apply bind_Return in Hs as (a & _ & [= <-]).
    rewrite Hc. cbn. auto.
Qed.

Lemma vertex_loop_Throw (n : nat) : forall v offset pos col e,
  vertex_loop order types hc bufferView little n v offset pos col = Throw e ->
  e = RangeError.
Proof.
  induction n as [|n IH]; intros v offset pos col e; cbn [vertex_loop]; [done|].
  intros [Ht | (st & _ & Ht)]%bind_Throw; [|exact (IH _ _ _ _ _ Ht)].
  exact (property_loop_Throw _ _ _ _ Ht).
Qed.

Lemma vertex_loop_spec (n : nat) : forall v offset pos col pos' col',
  vertex_loop order types hc bufferView little n v offset pos col
    = Return (pos', col') ->
  length pos' = length pos /\ length col' = length col /\
  (forall k, k < 3 * v \/ 3 * (v + n) <= k ->
     pos' !! k = pos !! k /\ col' !! k = col !! k) /\
  (hc = false -> forall k, 3 * v <= k < 3 * (v + n) -> k < length col ->
     col' !! k = Some white).
Proof.
  induction n as [|n IH]; intros v offset pos col pos' col'; cbn [vertex_loop].
  - intros [= <- <-]. repeat split; auto; lia.
  - intros (st & Hs & Hl)%bind_Return.
    apply IH in Hl as (Hp & Hc & Hf & Hw). rewrite !length_store in *.
    split; [exact Hp|]. split; [exact Hc|]. split.
    + intros k Hk. destruct (Hf k) as [-> ->]; [lia|].
      rewrite !lookup_store_ne by lia. auto.
    + intros Hhc k Hk Hlen.
      destruct (decide (k < 3 * S v)) as [Hlt|Hge];
        [|apply Hw; [exact Hhc | lia | exact Hlen]].
      destruct (Hf k) as [_ ->]; [lia|].
      destruct (property_loop_no_color _ _ _ _ Hhc Hs) as (Hr & Hg & Hb).
      cbn in Hr, Hg, Hb. rewrite Hr, Hg, Hb.
      apply lookup_store_point; lia.
Qed.
End LoopFacts.

(** ** [parsePly], stage by stage *)

Section ParsePlyFacts.
Context `{Engine}.

Lemma bind_Return_l {A B} (a : A) (k : A -> completion B) : Return a ≫= k = k a.
Proof. reflexivity. Qed.

(** A successful call went through every header check, allocated two
    zeroed arrays of [3 * vertexCount] elements and ran one of the two
    loops to its end. *)
Lemma parsePly_Return (buffer : ArrayBuffer) (d : PlyData) :
  parsePly buffer = Return d ->
  exists h N a0,
    schema buffer = Some h /\ header_ok h = true /\
    vertexCount h = Some N /\ N <> 0%Z /\
    new_Float32Array (N * 3) = Return a0 /\ ply_vertexCount d = N /\
    ((is_str (format h) "ascii" = true /\
      exists v,
        ascii_loop N (vertexPropertyOrder h)
          (array_indexOf "x" (vertexPropertyOrder h))
          (array_indexOf "y" (vertexPropertyOrder h))
          (array_indexOf "z" (vertexPropertyOrder h))
          (color_index (vertexPropertyOrder h) "red" "r")
          (color_index (vertexPropertyOrder h) "green" "g")
          (color_index (vertexPropertyOrder h) "blue" "b")
          (hasColor_of h) (asciiLines buffer) 0 a0 a0
        = (v, ply_positions d, ply_colors d))
     \/
     (is_str (format h) "ascii" = false /\
      vertex_loop (vertexPropertyOrder h) (vertexPropertyTypes h) (hasColor_of h)
        (dataBytes buffer) (is_str (format h) "binary_little_endian")
        (Z.to_nat N) 0 0 a0 a0
      = Return (ply_positions d, ply_colors d))).
Proof.
  unfold parsePly, schema, asciiLines, dataBytes, dataOffset, headerEndIndex.
  intros Hd.
  destruct (indexOf end_header (textHeader buffer)) as [i|] eqn:Hi; [|done].
  cbv zeta in Hd. cbn [fmap option_fmap option_map].
  set (h := scan_header (headerLines buffer i)) in *.
  destruct (falsy (format h)) eqn:Hf; [done|].
  destruct (vertexCount h) as [N|] eqn:HN; cbn [falsy_number] in Hd; [|done].
  destruct (N =? 0)%Z eqn:HN0; [done|]. apply Z.eqb_neq in HN0.
  rewrite new_DataView_dataStart, bind_Return_l in Hd by exact Hi.
  destruct (negb (found (array_indexOf "x" (vertexPropertyOrder h)))
            || negb (found (array_indexOf "y" (vertexPropertyOrder h)))
            || negb (found (array_indexOf "z" (vertexPropertyOrder h))))
    eqn:Hxyz; [done|].
  apply orb_false_iff in Hxyz as [[Hx Hy]%orb_false_iff Hz].
  apply negb_false_iff in Hx, Hy, Hz.
  unfold decode_vertices in Hd.
  apply bind_Return in Hd as (a0 & Ha0 & Hd).
  apply bind_Return in Hd as (a1 & Ha1 & Hd).
  cbn [default from_option id] in *. rewrite Ha0 in Ha1. injection Ha1 as <-.
  exists h, N, a0. split; [reflexivity|].
  split; [unfold header_ok, declares; rewrite Hf, HN, Hx, Hy, Hz; cbn;
          now apply Z.eqb_neq in HN0 as ->|].
  split; [exact HN|]. split; [exact HN0|]. split; [exact Ha0|].
  destruct (is_str (format h) "ascii") eqn:Hascii.
  - destruct (ascii_loop _ _ _ _ _ _ _ _ _ _ _ _ _) as [[v p] c] eqn:Hl.
    injection Hd as <-. cbn. split; [reflexivity|]. left. split; [reflexivity|].
    exists v. reflexivity.
  - destruct (is_str (format h) "binary_little_endian"
              || is_str (format h) "binary_big_endian") eqn:Hbin; [|done].
    apply bind_Return in Hd as ([p c] & Hl & [= <-]). cbn.
    split; [reflexivity|]. right. split; [reflexivity | exact Hl].
Qed.

(** The outcome of [parsePly] in terms of the header it has read. *)
Lemma parsePly_schema (buffer : ArrayBuffer) (h : header) :
  schema buffer = Some h ->
  parsePly buffer =
    if falsy (format h) then Throw (Error msg_no_format)
    else if falsy_number (vertexCount h) then Throw (Error msg_no_vertex)
    else if negb (declares h "x" && declares h "y" && declares h "z")
    then Throw (Error msg_no_xyz)
    else decode_vertices buffer h (default 0%Z (vertexCount h))
           (dataOffset buffer) (dataBytes buffer).
Proof.
  unfold parsePly, schema, dataBytes, dataOffset, headerEndIndex, declares.
  destruct (indexOf end_header (textHeader buffer)) as [i|] eqn:Hi; [|done].
  cbn [fmap option_fmap option_map]. intros [= <-]. cbv zeta.
  rewrite new_DataView_dataStart, bind_Return_l by exact Hi.
  now rewrite !negb_andb.
Qed.

Section Vertices.
Variables (buffer : ArrayBuffer) (h : header) (N : Z).
Variables (start : nat) (view : DataView).

Lemma decode_vertices_alloc :
  ~ (0 <= N * 3 <= max_array_length)%Z ->
  decode_vertices buffer h N start view = Throw RangeError.
Proof.
  intros Hn. unfold decode_vertices, new_Float32Array.
  replace ((0 <=? N * 3)%Z && (N * 3 <=? max_array_length)%Z) with false;
    [reflexivity|].
  symmetry. apply andb_false_iff.
  destruct (Z.leb_spec 0 (N * 3)); [right; apply Z.leb_gt; lia | now left].
Qed.

Lemma new_Float32Array_ok :
  (0 <= N * 3 <= max_array_length)%Z ->
  new_Float32Array (N * 3) = Return (replicate (Z.to_nat (N * 3)) float32_zero).
Proof.
  intros Hn. unfold new_Float32Array.
  replace ((0 <=? N * 3)%Z && (N * 3 <=? max_array_length)%Z) with true;
    [reflexivity|].
  symmetry. apply andb_true_iff; split; apply Z.leb_le; lia.
Qed.

(** The text branch always returns. *)
Lemma decode_vertices_ascii :
  (0 <= N * 3 <= max_array_length)%Z ->
  is_str (format h) "ascii" = true ->
  exists d, decode_vertices buffer h N start view = Return d.
Proof.
  intros Hn Ha. unfold decode_vertices.
  rewrite (new_Float32Array_ok Hn), !bind_Return_l, Ha.
  destruct (ascii_loop _ _ _ _ _ _ _ _ _ _ _ _ _) as [[v p] c].
  eexists; reflexivity.
Qed.

(** The binary branch returns or runs off the end of the view. *)
Lemma decode_vertices_binary (e : exn) :
  is_str (format h) "ascii" = false ->
  is_str (format h) "binary_little_endian"
  || is_str (format h) "binary_big_endian" = true ->
  decode_vertices buffer h N start view = Throw e -> e = RangeError.
Proof.
  intros Ha Hb. unfold decode_vertices. rewrite Ha, Hb.
  intros [Ht | (a0 & _ & Ht)]%bind_Throw;
    [now apply new_Float32Array_Throw in Ht|].
  apply bind_Throw in Ht as [Ht | (a1 & _ & Ht)];
    [now apply new_Float32Array_Throw in Ht|].
  apply bind_Throw in Ht as [Ht | ([p c] & _ & Ht)]; [|discriminate Ht].
  exact (vertex_loop_Throw _ _ _ _ _ _ _ _ _ _ _ Ht).
Qed.

Lemma decode_vertices_unsupported :
  (0 <= N * 3 <= max_array_length)%Z ->
  supported_format h = false ->
  decode_vertices buffer h N start view
  = Throw (Error (msg_unsupported (format h))).
Proof.
  intros Hn Hs. unfold decode_vertices.
  rewrite (new_Float32Array_ok Hn), !bind_Return_l.
  unfold supported_format in Hs.
  apply orb_false_iff in Hs as [[-> ->]%orb_false_iff ->]. reflexivity.
Qed.
End Vertices.
End ParsePlyFacts.

(** ** The raw decoder *)

Section RawFacts.
Context `{Engine}.

Lemma length_chunks4 (m : nat) : forall bs : list byte,
  length bs = 4 * m -> length (chunks4 bs) = m.
Proof.
  induction m as [|m IH]; intros bs Hl.
  - destruct bs; [reflexivity | cbn in Hl; lia].
  - destruct bs as [|b0 [|b1 [|b2 [|b3 r]]]]; cbn in Hl; try lia.
    cbn. f_equal. apply IH. lia.
Qed.

Lemma Float32Array_view_Return (buffer : ArrayBuffer) (m : nat) :
  length buffer = 4 * m ->
  exists floats, Float32Array_view buffer = Return floats /\ length floats = m.
Proof.
  intros Hl. unfold Float32Array_view.
  replace (length buffer mod 4) with 0
    by (rewrite Hl, Nat.mul_comm; symmetry; apply Nat.Div0.mod_mul).
  cbn. eexists; split; [reflexivity|].
  rewrite length_fmap. now apply length_chunks4.
Qed.

Lemma length_copy_element (dst src : Float32Array) (k j : nat) :
  length (copy_element dst k src j) = length dst.
Proof. unfold copy_element, store. case_match; apply length_insert. Qed.

Lemma lookup_copy_element_ne (dst src : Float32Array) (k j k' : nat) :
  k <> k' -> copy_element dst k src j !! k' = dst !! k'.
Proof.
  intros Hk. unfold copy_element, store.
  case_match; now apply list_lookup_insert_ne.
Qed.

(** An element copied between two [Float32Array]s arrives unchanged. *)
Lemma lookup_copy_element_eq (dst src : Float32Array) (k j : nat) :
  k < length dst -> j < length src ->
  copy_element dst k src j !! k = src !! j.
Proof.
  intros Hk Hj. unfold copy_element, store.
  destruct (src !! j) as [f|] eqn:Hf.
  - rewrite fround_widen. now apply list_lookup_insert_eq.
  - apply lookup_ge_None in Hf. lia.
Qed.

Lemma raw_loop_spec (floats : Float32Array) (n : nat) :
  forall i pos col pos' col',
  raw_loop floats n i pos col = (pos', col') ->
  length pos' = length pos /\ length col' = length col /\
  (forall k, k < 3 * i -> pos' !! k = pos !! k /\ col' !! k = col !! k) /\
  (6 * (i + n) <= length floats -> 3 * (i + n) <= length pos ->
   3 * (i + n) <= length col ->
   forall p j, i <= p < i + n -> j < 3 ->
     pos' !! (3 * p + j) = floats !! (6 * p + j) /\
     col' !! (3 * p + j) = floats !! (6 * p + 3 + j)).
Proof.
  induction n as [|n IH]; intros i pos col pos' col'; cbn [raw_loop].
  - intros [= <- <-]. repeat split; auto; lia.
  - intros Hl. apply IH in Hl as (Hp & Hc & Hf & Hv).
    rewrite !length_copy_element in *.
    split; [exact Hp|]. split; [exact Hc|]. split.
    + intros k Hk. destruct (Hf k) as [-> ->]; [lia|].
      rewrite !lookup_copy_element_ne by lia. auto.
    + intros Hfl Hpl Hcl p j Hpi Hj.
      destruct (decide (p = i)) as [->|Hne]; [|apply Hv; lia].
      destruct (Hf (3 * i + j)) as [-> ->]; [lia|].
      replace (6 * i + 3 + j) with (6 * i + (3 + j)) by lia.
      assert (j = 0 \/ j = 1 \/ j = 2) as Hj3 by lia.
      destruct Hj3 as [-> | [-> | ->]]; cbn [Nat.add]; split;
        repeat (rewrite lookup_copy_element_ne by lia);
        apply lookup_copy_element_eq; rewrite ?length_copy_element; lia.
Qed.
End RawFacts.

(** ** The decoder's contract *)

Section Contract.
Context `{Engine}.

Lemma parsePly_lengths (buffer : ArrayBuffer) (d : PlyData) :
  parsePly buffer = Return d ->
  (0 < ply_vertexCount d)%Z /\
  Z.of_nat (length (ply_positions d)) = (3 * ply_vertexCount d)%Z /\
  Z.of_nat (length (ply_colors d)) = (3 * ply_vertexCount d)%Z.
Proof.
  intros (h & N & a0 & _ & _ & _ & HN0 & Ha0 & -> & Hloop)%parsePly_Return.
  apply new_Float32Array_Return in Ha0 as [HN ->].
  assert (Hr : length (replicate (Z.to_nat (N * 3)) float32_zero)
               = Z.to_nat (N * 3)) by apply length_replicate.
  destruct Hloop as [(_ & v & Hl) | (_ & Hl)].
  - apply ascii_loop_spec in Hl as (-> & -> & _). lia.
  - apply vertex_loop_spec in Hl as (-> & -> & _). lia.
Qed.

(** C2.  A structured buffer that decodes without error, and whose
    header declares [N] vertices with [x], [y], [z] among the collected
    properties, yields [vertexCount = N] and two arrays of exactly
    [3 * N] elements, that is [N] positions and [N] colours. *)
Theorem parsePly_count_and_lengths (buffer : ArrayBuffer) (h : header) (N : Z)
    (d : PlyData) :
  schema buffer = Some h ->
  vertexCount h = Some N ->
  declares h "x" && declares h "y" && declares h "z" = true ->
  parsePly buffer = Return d ->
  ply_vertexCount d = N /\
  Z.of_nat (length (ply_positions d)) = (3 * N)%Z /\
  Z.of_nat (length (ply_colors d)) = (3 * N)%Z.
Proof.
  intros Hs HN _ Hd. pose proof (parsePly_lengths _ _ Hd) as (_ & Hp & Hc).
  apply parsePly_Return in Hd as (h' & N' & a0 & Hs' & _ & HN' & _ & _ & Hv & _).
  assert (N' = N) as -> by congruence. rewrite Hv in Hp, Hc. auto.
Qed.

(** C9.  A buffer that does not start with [ply] and whose byte length
    is not a multiple of 4 makes the loader throw a [RangeError] (from
    [new Float32Array(buffer)]): it neither warns nor decodes the
    complete groups. *)
Theorem raw_length_not_multiple_of_4_throws (buffer : ArrayBuffer) :
  isPlyBuffer buffer = false ->
  length buffer mod 4 <> 0 ->
  loadSimpleSplatFromArrayBuffer buffer
  = ([console_log "Assuming raw Float32 xyzrgb format."], Throw RangeError).
Proof.
  intros Hply Hm. unfold loadSimpleSplatFromArrayBuffer, Float32Array_view.
  rewrite Hply. now apply Nat.eqb_neq in Hm as ->.
Qed.

(** C8.  A raw buffer that holds fewer than six 32-bit floats makes
    the loader return [null]; nothing is thrown. *)
Theorem raw_fewer_than_six_floats_is_null (buffer : ArrayBuffer) (n : nat) :
  isPlyBuffer buffer = false ->
  length buffer = 4 * n ->
  n < 6 ->
  snd (loadSimpleSplatFromArrayBuffer buffer) = Return None.
Proof.
  intros Hply Hl Hn. unfold loadSimpleSplatFromArrayBuffer. rewrite Hply.
  destruct (Float32Array_view_Return _ _ Hl) as (floats & -> & Hf).
  rewrite Hf, (Nat.div_small n 6) by exact Hn. reflexivity.
Qed.

(** C7.  A raw buffer of [6 * N + k] floats, [1 <= N], [k < 6], decodes
    to exactly [N] points: point [p] takes floats [6p .. 6p+2] as its
    position and floats [6p+3 .. 6p+5] as its colour, each copied as
    it is; the [k] trailing floats are dropped, and the only trace of
    them is a console warning. *)
Theorem raw_decodes_complete_groups (buffer : ArrayBuffer) (N k : nat) :
  isPlyBuffer buffer = false ->
  length buffer = 4 * (6 * N + k) ->
  1 <= N -> k < 6 ->
  (Z.of_nat (3 * N) <= max_array_length)%Z ->
  exists floats ps,
    Float32Array_view buffer = Return floats /\
    length floats = 6 * N + k /\
    loadSimpleSplatFromArrayBuffer buffer
    = ([console_log "Assuming raw Float32 xyzrgb format."]
         ++ (if (k =? 0)%nat then []
             else [console_warn msg_length [6 * N + k]]),
       Return (Some ps)) /\
    count ps = Z.of_nat N /\
    length (positions ps) = 3 * N /\ length (colors ps) = 3 * N /\
    forall p j, p < N -> j < 3 ->
      positions ps !! (3 * p + j) = floats !! (6 * p + j) /\
      colors ps !! (3 * p + j) = floats !! (6 * p + 3 + j).
Proof.
  intros Hply Hl HN Hk Hmax.
  destruct (Float32Array_view_Return _ _ Hl) as (floats & Hv & Hf).
  assert (Hdiv : (6 * N + k) / 6 = N)
    by (rewrite Nat.mul_comm, Nat.div_add_l, Nat.div_small by lia; lia).
  assert (Hmod : (6 * N + k) mod 6 = k)
    by (rewrite Nat.add_comm, Nat.mul_comm, Nat.Div0.mod_add;
        now apply Nat.mod_small).
  assert (Ha : new_Float32Array (Z.of_nat N * 3)
               = Return (replicate (3 * N) float32_zero)).
  { unfold new_Float32Array.
    replace ((0 <=? Z.of_nat N * 3)%Z && (Z.of_nat N * 3 <=? max_array_length)%Z)
      with true by (symmetry; apply andb_true_iff; split; apply Z.leb_le; lia).
    do 2 f_equal. lia. }
  destruct (raw_loop floats N 0 (replicate (3 * N) float32_zero)
              (replicate (3 * N) float32_zero)) as [pos col] eqn:Hloop.
  exists floats, {| positions := pos; colors := col; count := Z.of_nat N |}.
  split; [exact Hv|]. split; [exact Hf|].
  apply raw_loop_spec in Hloop as Hspec.
  destruct Hspec as (Hp & Hc & _ & Hcopy). rewrite !length_replicate in *.
  split.
  - unfold loadSimpleSplatFromArrayBuffer. rewrite Hply, Hv, Hf, Hdiv, Hmod.
    replace (N =? 0)%nat with false by (symmetry; apply Nat.eqb_neq; lia).
    rewrite Ha, !bind_Return_l, Hloop. f_equal.
    destruct (k =? 0)%nat; [|reflexivity]. symmetry; apply app_nil_r.
  - cbn [count positions colors]. split; [reflexivity|].
    split; [exact Hp|]. split; [exact Hc|].
    intros p j Hpn Hj. apply Hcopy; lia.
Qed.

(** C4 (amended).  Once the header is found, [parsePly] throws one of
    its own errors exactly when: no format token was recorded; or the
    vertex count is missing, not a number or zero; or [x], [y], [z] are
    not all among the collected properties; or the format token is none
    of the three encodings while the two arrays can be allocated. *)
Theorem header_error_cases (buffer : ArrayBuffer) (h : header) :
  schema buffer = Some h ->
  ((exists m, parsePly buffer = Throw (Error m)) <->
   (falsy (format h) = true \/ falsy_number (vertexCount h) = true \/
    declares h "x" && declares h "y" && declares h "z" = false \/
    (supported_format h = false /\
     exists N, vertexCount h = Some N /\ (0 <= N * 3 <= max_array_length)%Z))).
Proof.
  intros Hs. rewrite (parsePly_schema _ _ Hs).
  destruct (falsy (format h)) eqn:Hf; [split; eauto|].
  destruct (falsy_number (vertexCount h)) eqn:Hc; [split; eauto|].
  destruct (declares h "x" && declares h "y" && declares h "z") eqn:Hxyz;
    cbn [negb]; [|split; eauto].
  destruct (vertexCount h) as [N|] eqn:HN; [|done]. cbn [default from_option id].
  destruct (decide (0 <= N * 3 <= max_array_length)%Z) as [Hn|Hn].
  - destruct (supported_format h) eqn:Hsup.
    + split; [|intros [|[|[|[]]]]; done].
      intros [m Hm]. exfalso. unfold supported_format in Hsup.
      destruct (is_str (format h) "ascii") eqn:Ha.
      * destruct (decode_vertices_ascii buffer h N (dataOffset buffer)
                    (dataBytes buffer) Hn Ha) as [d Hd]. congruence.
      * cbn [orb] in Hsup. now apply decode_vertices_binary in Hm.
    + rewrite decode_vertices_unsupported by assumption.
      split; [intros _|eauto]. do 3 right. eauto.
  - rewrite decode_vertices_alloc by exact Hn.
    split; [intros [m Hm]; done|].
    intros [|[|[|(_ & N' & [= <-] & Hn')]]]; done.
Qed.

(** C6 (amended).  When some colour channel is declared under neither
    of its names, a successful decode gives colour (1, 1, 1) to every
    point it has read: all [vertexCount] points of a binary file, and in
    a text file the points filled from its accepted data lines. *)
Theorem colour_default (buffer : ArrayBuffer) (h : header) (d : PlyData) :
  schema buffer = Some h ->
  hasColor_of h = false ->
  parsePly buffer = Return d ->
  forall p j,
    (Z.of_nat p < ply_vertexCount d)%Z ->
    (is_str (format h) "ascii" = true ->
     p < data_rows (length (vertexPropertyOrder h)) (asciiLines buffer)) ->
    j < 3 ->
    ply_colors d !! (3 * p + j) = Some white.
Proof.
  intros Hs Hc Hd p j Hp Hrows Hj.
  apply parsePly_Return in Hd as (h' & N & a0 & Hs' & _ & _ & _ & Ha0 & Hv & Hloop).
  assert (h' = h) as -> by congruence. rewrite Hv in Hp.
  apply new_Float32Array_Return in Ha0 as [HN ->].
  destruct Hloop as [(Ha & v & Hl) | (_ & Hl)].
  - apply ascii_loop_spec in Hl as (_ & _ & _ & Hv' & _ & Hw).
    specialize (Hrows Ha). rewrite Nat.add_0_l in Hv'.
    apply Hw; [exact Hc | rewrite Hv' by lia; lia | rewrite length_replicate; lia].
  - apply vertex_loop_spec in Hl as (_ & _ & _ & Hw).
    apply Hw; [exact Hc | lia | rewrite length_replicate; lia].
Qed.

(** C10.  A text file whose header passes the checks and whose data
    section has fewer accepted lines than the declared vertex count
    still decodes, with [vertexCount] the declared count; every point
    past the accepted lines keeps position (0, 0, 0) and colour
    (0, 0, 0), which is not the white default. *)
Theorem text_missing_rows_are_zero (buffer : ArrayBuffer) (h : header) (N : Z)
    (rows : nat) :
  schema buffer = Some h ->
  header_ok h = true ->
  is_str (format h) "ascii" = true ->
  vertexCount h = Some N ->
  (N * 3 <= max_array_length)%Z ->
  rows = data_rows (length (vertexPropertyOrder h)) (asciiLines buffer) ->
  (Z.of_nat rows < N)%Z ->
  exists d,
    parsePly buffer = Return d /\ ply_vertexCount d = N /\
    (forall p j, rows <= p -> (Z.of_nat p < N)%Z -> j < 3 ->
       ply_positions d !! (3 * p + j) = Some float32_zero /\
       ply_colors d !! (3 * p + j) = Some float32_zero) /\
    float32_zero <> white.
Proof.
  intros Hs Hok Ha HN Hmax -> Hrows.
  assert (Hp : parsePly buffer
               = decode_vertices buffer h N (dataOffset buffer) (dataBytes buffer)).
  { rewrite (parsePly_schema _ _ Hs). unfold header_ok in Hok.
    apply andb_true_iff in Hok as [[[[Hf Hc]%andb_true_iff Hx]%andb_true_iff
      Hy]%andb_true_iff Hz].
    apply negb_true_iff in Hf, Hc. rewrite Hf, Hc, Hx, Hy, Hz, HN. reflexivity. }
  destruct (decode_vertices_ascii buffer h N (dataOffset buffer) (dataBytes buffer))
    as [d Hd]; [lia | exact Ha |].
  exists d. rewrite Hp. split; [exact Hd|].
  rewrite <- Hp in Hd.
  apply parsePly_Return in Hd as (h' & N' & a0 & Hs' & _ & HN' & _ & Ha0 & Hv & Hloop).
  assert (h' = h) as -> by congruence. assert (N' = N) as -> by congruence.
  split; [exact Hv|].
  apply new_Float32Array_Return in Ha0 as [_ ->].
  split; [|intros E; exact (fround_one_nonzero (eq_sym E))].
  destruct Hloop as [(_ & v & Hl) | (Ha' & _)]; [|congruence].
  apply ascii_loop_spec in Hl as (_ & _ & _ & Hv' & Hf & _).
  rewrite Nat.add_0_l in Hv'. intros p j Hp1 Hp2 Hj.
  destruct (Hf (3 * p + j)) as [-> ->]; [rewrite Hv' by lia; lia|].
  split; apply lookup_replicate_2; lia.
Qed.

(** X2.  In a text file the long-form colour name is the one that is
    read.  A successful text decode fills point [p] from the [p]-th accepted
    data line: its position from the tokens at the indices of [x], [y],
    [z], and, when colours are decoded and [red] (resp. [green],
    [blue]) is declared, its red (green, blue) channel from the token at
    the index of that long name, divided by 255, whether or not the
    one-letter name is declared as well. *)
Theorem text_rows_decode (buffer : ArrayBuffer) (h : header) (d : PlyData)
    (p : nat) (tokens : list string) :
  schema buffer = Some h ->
  is_str (format h) "ascii" = true ->
  parsePly buffer = Return d ->
  (Z.of_nat p < ply_vertexCount d)%Z ->
  row_tokens (length (vertexPropertyOrder h)) (asciiLines buffer) !! p = Some tokens ->
  let number_at name :=
    parseFloat_at tokens (array_indexOf name (vertexPropertyOrder h)) in
  let channel name := fround (fdiv (number_at name) (of_Z 255)) in
  ply_positions d !! (3 * p + 0) = Some (fround (number_at "x")) /\
  ply_positions d !! (3 * p + 1) = Some (fround (number_at "y")) /\
  ply_positions d !! (3 * p + 2) = Some (fround (number_at "z")) /\
  (hasColor_of h = true ->
   (declares h "red" = true -> ply_colors d !! (3 * p + 0) = Some (channel "red")) /\
   (declares h "green" = true ->
    ply_colors d !! (3 * p + 1) = Some (channel "green")) /\
   (declares h "blue" = true ->
    ply_colors d !! (3 * p + 2) = Some (channel "blue"))).
Proof.
  intros Hs Ha Hd Hp Hrow number_at channel.
  apply parsePly_Return in Hd as (h' & N & a0 & Hs' & _ & _ & _ & Ha0 & Hv & Hloop).
  assert (h' = h) as -> by congruence. rewrite Hv in Hp.
  apply new_Float32Array_Return in Ha0 as [HN ->].
  destruct Hloop as [(_ & v & Hl) | (Ha' & _)]; [|congruence].
  edestruct ascii_loop_values as (Hx & Hy & Hz & Hcol);
    [exact Hl | rewrite length_replicate; lia | rewrite length_replicate; lia
    | exact Hrow | lia |].
  rewrite Nat.add_0_l in *.
  split; [exact Hx|]. split; [exact Hy|]. split; [exact Hz|].
  intros Hc. destruct (Hcol Hc) as (Hr & Hg & Hb).
  unfold declares, channel, number_at, color_index in *.
  repeat split; intros Hdecl.
  - destruct (array_indexOf "red" (vertexPropertyOrder h)); [exact Hr | done].
  - destruct (array_indexOf "green" (vertexPropertyOrder h)); [exact Hg | done].
  - destruct (array_indexOf "blue" (vertexPropertyOrder h)); [exact Hb | done].
Qed.
End Contract.

(** ** The concrete scenario, for any two records *)

Section Scenario.
Context `{Engine}.
Import Examples.

Lemma search_nonspace_after_LF (b : byte) (r : list byte) :
  isWhiteSpace (ascii_of_byte b) = false ->
  search_nonspace (String LF (decode (b :: r))) = 1.
Proof.
  intros Hb. unfold decode, string_of_list_byte.
  cbn [List.map string_of_list_ascii search_nonspace].
  change (isWhiteSpace LF) with true. cbv iota. now rewrite Hb.
Qed.

(** X1.  The scenario header followed by any two 15-byte records whose
    first byte is not a whitespace character decodes to two points:
    the positions are the encoded floats and each colour channel is
    its byte divided by 255. *)
Theorem scenario_decodes (records : list byte) :
  length records = 30 ->
  search_nonspace (decode records) = 0 ->
  (6 <= max_array_length)%Z ->
  parsePly (file scenario_header records)
  = Return
      {| ply_positions :=
           [float_at records 0; float_at records 4; float_at records 8;
            float_at records 15; float_at records 19; float_at records 23];
         ply_colors :=
           [channel_at records 12; channel_at records 13; channel_at records 14;
            channel_at records 27; channel_at records 28; channel_at records 29];
         ply_vertexCount := 2 |}.
Proof.
  intros Hlen Hfirst Hmax.
  destruct records as [|b0 rest]; [discriminate Hlen|].
  assert (Hb0 : isWhiteSpace (ascii_of_byte b0) = false).
  { unfold decode, string_of_list_byte in Hfirst.
    cbn [List.map string_of_list_ascii search_nonspace] in Hfirst.
    destruct (isWhiteSpace (ascii_of_byte b0)); [discriminate Hfirst | reflexivity]. }
  clear Hfirst.
  do 29 (destruct rest as [|? rest]; [discriminate Hlen|]).
  destruct rest; [clear Hlen | discriminate Hlen].
  set (records := b0 :: _).
  set (buffer := file scenario_header records).
  assert (Hi : headerEndIndex buffer = Some 164) by (vm_compute; reflexivity).
  assert (Hs : schema buffer = Some scenario_schema) by (vm_compute; reflexivity).
  assert (Ho : dataOffset buffer = 175).
  { unfold dataOffset. rewrite Hi. unfold dataStart.
    replace (slice_from (164 + String.length end_header) (textHeader buffer))
      with (String LF (decode records)) by (vm_compute; reflexivity).
    subst records. now rewrite search_nonspace_after_LF. }
  assert (Hb : dataBytes buffer = records).
  { unfold dataBytes. rewrite Ho. vm_compute. reflexivity. }
  rewrite (parsePly_schema _ _ Hs), Ho, Hb.
  cbv beta iota delta [format vertexCount falsy falsy_number negb declares found
    vertexPropertyOrder array_indexOf String.eqb Ascii.eqb Bool.eqb Z.eqb
    andb fmap option_fmap option_map default from_option id].
  unfold decode_vertices.
  rewrite new_Float32Array_ok by (split; [done | exact Hmax]).
  rewrite !bind_Return_l.
  lazy -[bytes_to_Z fround widen float32_of_bits float64_of_bits of_Z fdiv
         float_at channel_at].
  rewrite !fround_widen. reflexivity.
Qed.
End Scenario.

(** ** The header scan and the binary stride *)

Section Stride.
Context `{Engine}.

Lemma header_line_lengths (h : header) (line : string) :
  length (vertexPropertyOrder h) = length (vertexPropertyTypes h) ->
  length (vertexPropertyOrder (header_line h line))
  = length (vertexPropertyTypes (header_line h line)).
Proof.
  intros Hl. unfold header_line.
  repeat (case_match; cbn [vertexPropertyOrder vertexPropertyTypes]);
    rewrite ?length_app; cbn [length]; lia.
Qed.

Lemma fold_header_line_lengths (ls : list string) : forall h : header,
  length (vertexPropertyOrder h) = length (vertexPropertyTypes h) ->
  length (vertexPropertyOrder (fold_left header_line ls h))
  = length (vertexPropertyTypes (fold_left header_line ls h)).
Proof.
  induction ls as [|l ls IH]; intros h Hh; cbn [fold_left]; [exact Hh|].
  apply IH, header_line_lengths, Hh.
Qed.

(** X3.  The header scan keeps [vertexPropertyOrder] and
    [vertexPropertyTypes] in step: every collected property name has
    its type at the same index. *)
Theorem scan_header_lengths (headerLines : list string) :
  length (vertexPropertyOrder (scan_header headerLines))
  = length (vertexPropertyTypes (scan_header headerLines)).
Proof. unfold scan_header. now apply fold_header_line_lengths. Qed.
End Stride.

Section Bounds.
Context `{Engine}.
Variable order : list string.
Variable types : list value.
Variable hc : bool.
Variable view : DataView.
Variable little : bool.

Lemma view_bytes_Return (offset n : nat) (bs : list byte) :
  view_bytes view offset n = Return bs -> offset + n <= length view.
Proof.
  unfold view_bytes. destruct (offset + n <=? length view)%nat eqn:E; [|done].
  intros _. now apply Nat.leb_le.
Qed.

Lemma getter_Return {A} (offset n : nat) (k : list byte -> completion A) (a : A) :
  view_bytes view offset n ≫= k = Return a -> offset + n <= length view.
Proof. intros (bs & Hb & _)%bind_Return. exact (view_bytes_Return _ _ _ Hb). Qed.

Ltac read_size :=
  cbn [String.eqb Ascii.eqb Bool.eqb orb andb];
  unfold getFloat32, getFloat64, getUint8, getInt8, getUint16, getInt16,
    getUint32, getInt32;
  apply getter_Return.

Ltac on_label s L :=
  destruct (String.eqb_spec s L) as [->|?]; [read_size|].

(** The two [switch] statements agree: a property that was read
    occupies [propertySize] bytes inside the view. *)
Lemma readProperty_size (type : value) (offset : nat) (v : number) :
  readProperty view type offset little = Return v ->
  offset + propertySize type <= length view.
Proof.
  destruct type as [| |s]; unfold readProperty, propertySize, case_of;
    cbn [existsb is_str]; [read_size | read_size |].
  on_label s "float". on_label s "float32". on_label s "double".
  on_label s "float64". on_label s "uchar". on_label s "uint8".
  on_label s "char". on_label s "int8". on_label s "ushort".
  on_label s "uint16". on_label s "short". on_label s "int16".
  on_label s "uint". on_label s "uint32". on_label s "int". on_label s "int32".
  repeat match goal with
         | Hn : s <> ?L |- _ =>
             rewrite (proj2 (String.eqb_neq s L) Hn); clear Hn
         end.
  read_size.
Qed.

Lemma bytesPerVertex_sum :
  bytesPerVertex types = sum_list (propertySize <$> types).
Proof.
  unfold bytesPerVertex.
  assert (Hgen : forall ts acc,
    foldl (fun acc t => acc + propertySize t) acc ts
    = acc + sum_list (propertySize <$> ts)).
  { induction ts as [|t ts IH]; intros acc; cbn; [lia|]. rewrite IH. lia. }
  apply Hgen.
Qed.

(** [n] iterations of the property loop advance the offset by the
    sizes of the properties they read, and every read lies inside the
    view. *)
Lemma property_loop_offset (n : nat) : forall i st st',
  i + n <= length types ->
  property_loop order types hc view little n i st = Return st' ->
  propertyOffset st'
  = propertyOffset st + sum_list (propertySize <$> take n (drop i types)) /\
  (0 < n -> propertyOffset st' <= length view).
Proof.
  induction n as [|n IH]; intros i st st' Hi; cbn [property_loop].
  - intros [= <-]. change (take 0 (drop i types)) with (@nil value).
    cbn. split; lia.
  - intros (st1 & Hs & Hl)%bind_Return.
    destruct (IH (S i) st1 st' ltac:(lia) Hl) as [Ho Hb].
    unfold property_step in Hs.
    apply bind_Return in Hs as (a & Hr & [= <-]).
    apply readProperty_size in Hr. cbn [propertyOffset] in *.
    destruct (lookup_lt_is_Some_2 types i ltac:(lia)) as [t Ht].
    rewrite Ht in *. cbn [default from_option id] in *.
    rewrite (drop_S _ _ _ Ht). cbn [take fmap list_fmap sum_list sum_list_with].
    split; [rewrite Ho; cbn; lia|].
    intros _. destruct n as [|n]; [|apply Hb; lia].
    change (take 0 (drop (S i) types)) with (@nil value) in Ho.
    cbn in Ho. lia.
Qed.

(** A vertex loop that returns has read [n] whole records from
    [offset] on. *)
Lemma vertex_loop_in_bounds (n : nat) : forall v offset pos col r,
  length order = length types -> 0 < length order -> 0 < n ->
  vertex_loop order types hc view little n v offset pos col = Return r ->
  offset + n * bytesPerVertex types <= length view.
Proof.
  induction n as [|n IH]; intros v offset pos col r Hlen Hne Hn; [lia|].
  cbn [vertex_loop]. intros (st & Hs & Hl)%bind_Return.
  apply property_loop_offset in Hs as [Ho Hb]; [|lia].
  rewrite Hlen, drop_0, firstn_all, <- bytesPerVertex_sum in Ho.
  cbn [propertyOffset] in Ho. specialize (Hb Hne).
  destruct n as [|n]; [lia|].
  specialize (IH _ _ _ _ _ Hlen Hne ltac:(lia) Hl). cbn. lia.
Qed.
End Bounds.

Section Truncated.
Context `{Engine}.

Lemma declares_nonempty (h : header) (name : string) :
  declares h name = true -> 0 < length (vertexPropertyOrder h).
Proof.
  unfold declares. destruct (vertexPropertyOrder h); cbn; [done | lia].
Qed.

Lemma binary_is_not_ascii (h : header) :
  is_str (format h) "binary_little_endian"
  || is_str (format h) "binary_big_endian" = true ->
  is_str (format h) "ascii" = false.
Proof.
  destruct (format h) as [| |s]; cbn; try done.
  destruct (String.eqb_spec s "ascii") as [->|]; [cbn; done | done].
Qed.

(** X4.  No partial records in binary mode.  When the header passes
    the checks and names a binary format, and the bytes after the data
    offset are fewer than [vertexCount] records of [bytesPerVertex]
    bytes, [parsePly] throws a [RangeError]: it returns no point set
    and reads nothing outside the buffer. *)
Theorem binary_truncated_throws (buffer : ArrayBuffer) (h : header) (N : Z) :
  schema buffer = Some h ->
  header_ok h = true ->
  is_str (format h) "binary_little_endian"
  || is_str (format h) "binary_big_endian" = true ->
  vertexCount h = Some N ->
  (Z.of_nat (length (dataBytes buffer))
   < N * Z.of_nat (bytesPerVertex (vertexPropertyTypes h)))%Z ->
  parsePly buffer = Throw RangeError.
Proof.
  intros Hs Hok Hbin HN Hshort.
  pose proof (binary_is_not_ascii _ Hbin) as Hascii.
  destruct (parsePly buffer) as [d|e] eqn:Hd.
  - exfalso.
    apply parsePly_Return in Hd
      as (h' & N' & a0 & Hs' & Hok' & HN' & HN0 & Ha0 & _ & Hloop).
    assert (h' = h) as -> by congruence. assert (N' = N) as -> by congruence.
    apply new_Float32Array_Return in Ha0 as [Hpos _].
    destruct Hloop as [(Ha & _) | (_ & Hl)]; [congruence|].
    unfold header_ok in Hok.
    apply andb_true_iff in Hok as [[[_ Hx]%andb_true_iff _]%andb_true_iff _].
    apply vertex_loop_in_bounds in Hl;
      [ unfold dataBytes in *; lia
      | unfold schema in Hs; destruct (headerEndIndex buffer); [|done];
        injection Hs as <-; now apply fold_header_line_lengths
      | exact (declares_nonempty _ _ Hx)
      | lia ].
  - f_equal. rewrite (parsePly_schema _ _ Hs) in Hd. unfold header_ok in Hok.
    apply andb_true_iff in Hok as [[[[Hf Hc]%andb_true_iff Hx]%andb_true_iff
      Hy]%andb_true_iff Hz].
    apply negb_true_iff in Hf, Hc. rewrite Hf, Hc, Hx, Hy, Hz in Hd.
    exact (decode_vertices_binary _ _ _ _ _ _ Hascii Hbin Hd).
Qed.
End Truncated.


(** ** The magic number *)

Section Magic.
Lemma ascii_of_byte_inj (b c : byte) : ascii_of_byte b = ascii_of_byte c -> b = c.
Proof.
  intros E. rewrite <- (byte_of_ascii_of_byte b), <- (byte_of_ascii_of_byte c).
  now rewrite E.
Qed.

(** X5.  [isPlyBuffer] is a test on the first three bytes only: it
    holds exactly for the buffers that begin with the bytes 0x70 0x6C
    0x79 (lower-case "ply"); a shorter buffer, or one that begins with
    anything else, is handed to the raw decoder. *)
Theorem isPlyBuffer_iff (buffer : ArrayBuffer) :
  isPlyBuffer buffer = true <-> exists rest, buffer = x70 :: x6c :: x79 :: rest.
Proof.
  unfold isPlyBuffer, decode, string_of_list_byte. split.
  - destruct buffer as [|b0 buffer]; [done|].
    change (take 1024 (b0 :: buffer)) with (b0 :: take 1023 buffer).
    cbn [List.map string_of_list_ascii String.prefix].
    destruct (ascii_dec "p" (ascii_of_byte b0)) as [E0|]; [|done].
    destruct buffer as [|b1 buffer]; [done|].
    change (take 1023 (b1 :: buffer)) with (b1 :: take 1022 buffer).
    cbn [List.map string_of_list_ascii String.prefix].
    destruct (ascii_dec "l" (ascii_of_byte b1)) as [E1|]; [|done].
    destruct buffer as [|b2 rest]; [done|].
    change (take 1022 (b2 :: rest)) with (b2 :: take 1021 rest).
    cbn [List.map string_of_list_ascii String.prefix].
    destruct (ascii_dec "y" (ascii_of_byte b2)) as [E2|]; [|done].
    intros _. exists rest.
    now rewrite (ascii_of_byte_inj x70 b0 E0), (ascii_of_byte_inj x6c b1 E1),
      (ascii_of_byte_inj x79 b2 E2).
  - intros [rest ->].
    change (take 1024 (x70 :: x6c :: x79 :: rest))
      with (x70 :: x6c :: x79 :: take 1021 rest).
    cbn. now destruct (string_of_list_ascii _).
Qed.
End Magic.

(** ** The scalar codec *)

Section Codec.
Context `{Engine}.
Variable view : DataView.
Variable little : bool.

Lemma view_bytes_total (offset n : nat) :
  offset + n <= length view ->
  view_bytes view offset n = Return (take n (drop offset view)).
Proof. intros Hn. unfold view_bytes. now apply Nat.leb_le in Hn as ->. Qed.

Ltac read_total :=
  cbn [String.eqb Ascii.eqb Bool.eqb orb andb] in *;
  unfold getFloat32, getFloat64, getUint8, getInt8, getUint16, getInt16,
    getUint32, getInt32;
  rewrite view_bytes_total by assumption; eexists; reflexivity.

Ltac on_label s L :=
  destruct (String.eqb_spec s L) as [->|?]; [read_total|].

Lemma readProperty_total (type : value) (offset : nat) :
  offset + propertySize type <= length view ->
  exists v, readProperty view type offset little = Return v.
Proof.
  destruct type as [| |s]; unfold readProperty, propertySize, case_of;
    cbn [existsb is_str]; intros Hn; [read_total | read_total |].
  on_label s "float". on_label s "float32". on_label s "double".
  on_label s "float64". on_label s "uchar". on_label s "uint8".
  on_label s "char". on_label s "int8". on_label s "ushort".
  on_label s "uint16". on_label s "short". on_label s "int16".
  on_label s "uint". on_label s "uint32". on_label s "int". on_label s "int32".
  repeat match goal with
         | Hn : s <> ?L |- _ =>
             rewrite (proj2 (String.eqb_neq s L) Hn) in *; clear Hn
         end.
  read_total.
Qed.

(** X6.  The two [switch] statements of the binary branch agree on
    every type name, the unknown ones included: [readProperty]
    delivers a value exactly when the [propertySize] bytes at the
    offset lie inside the view, and throws a [RangeError] exactly when
    they do not. *)
Theorem readProperty_reads_propertySize (type : value) (offset : nat) :
  ((exists v, readProperty view type offset little = Return v)
   <-> offset + propertySize type <= length view) /\
  (readProperty view type offset little = Throw RangeError
   <-> length view < offset + propertySize type).
Proof.
  split; split.
  - intros [v Hv]. exact (readProperty_size _ _ _ _ _ Hv).
  - apply readProperty_total.
  - intros Ht. destruct (le_lt_dec (offset + propertySize type) (length view))
      as [Hle|Hlt]; [|exact Hlt].
    destruct (readProperty_total _ _ Hle) as [v Hv]. congruence.
  - intros Hlt. destruct (readProperty view type offset little) as [v|e] eqn:E.
    + apply readProperty_size in E. lia.
    + now rewrite (readProperty_Throw _ _ _ _ _ E).
Qed.
End Codec.

(** ** The binary branch: when it returns, and what it delivers *)

Section Binary.
Context `{Engine}.
Variable order : list string.
Variable types : list value.
Variable hc : bool.
Variable view : DataView.
Variable little : bool.

Lemma field_offset_S (i : nat) (t : value) :
  types !! i = Some t ->
  field_offset types (S i) = field_offset types i + propertySize t.
Proof.
  intros Ht. unfold field_offset.
  rewrite (take_S_r _ _ _ Ht), fmap_app, sum_list_with_app. cbn. lia.
Qed.

Lemma property_loop_total (n : nat) : forall i st,
  i + n <= length types ->
  propertyOffset st + sum_list (propertySize <$> take n (drop i types))
    <= length view ->
  exists st', property_loop order types hc view little n i st = Return st'.
Proof.
  induction n as [|n IH]; intros i st Hi Hb; cbn [property_loop];
    [eexists; reflexivity|].
  destruct (lookup_lt_is_Some_2 types i ltac:(lia)) as [t Ht].
  rewrite (drop_S _ _ _ Ht), firstn_cons, fmap_cons in Hb.
  change (sum_list (?a :: ?l)) with (a + sum_list l) in Hb.
  destruct (readProperty_total view little t (propertyOffset st) ltac:(lia))
    as [v Hv].
  unfold property_step. rewrite Ht. cbn [default from_option id].
  rewrite Hv, !bind_Return_l.
  apply IH; [lia|]. cbn [propertyOffset]. lia.
Qed.

Lemma vertex_loop_total (n : nat) : forall v offset pos col,
  length order = length types ->
  offset + n * bytesPerVertex types <= length view ->
  exists r, vertex_loop order types hc view little n v offset pos col = Return r.
Proof.
  induction n as [|n IH]; intros v offset pos col Hlen Hb; cbn [vertex_loop];
    [eexists; reflexivity|].
  edestruct (property_loop_total (length order) 0) as [st Hst];
    [| |rewrite Hst, bind_Return_l; apply IH; [exact Hlen | lia]].
  - lia.
  - rewrite Hlen, drop_0, firstn_all, <- bytesPerVertex_sum.
    cbn [propertyOffset]. lia.
Qed.

(** *** The last property of a name wins *)

Section Pick.
Variable base : nat.
Variable proj : locals -> number.
Variable names : list string.
Variable g : number -> number.
Hypothesis proj_step : forall i st st' v,
  readProperty view (default Undefined (types !! i)) (propertyOffset st) little
  = Return v ->
  property_step order types hc view little i st = Return st' ->
  proj st' = if case_of (at_index order i) names then g v else proj st.

Lemma property_loop_last (n : nat) : forall i st st',
  i + n = length order -> length order = length types ->
  propertyOffset st = base + field_offset types i ->
  property_loop order types hc view little n i st = Return st' ->
  match last_named_from names (drop i order) i with
  | Some j =>
      exists val, field view little types base j = Return val /\
                  proj st' = g val
  | None => proj st' = proj st
  end.
Proof.
  induction n as [|n IH]; intros i st st' Hi Hlen Hoff; cbn [property_loop].
  - intros [= <-]. rewrite drop_ge by lia. reflexivity.
  - intros (st1 & Hs & Hl)%bind_Return.
    destruct (lookup_lt_is_Some_2 order i ltac:(lia)) as [name Hname].
    destruct (lookup_lt_is_Some_2 types i ltac:(lia)) as [t Ht].
    pose proof Hs as Hs'. unfold property_step in Hs'.
    apply bind_Return in Hs' as (v & Hv & Hst1).
    pose proof (proj_step _ _ _ _ Hv Hs) as Hp.
    assert (Hoff1 : propertyOffset st1 = base + field_offset types (S i)).
    { injection Hst1 as <-. cbn [propertyOffset].
      rewrite (field_offset_S _ _ Ht), Ht, Hoff. cbn. lia. }
    specialize (IH (S i) st1 st' ltac:(lia) Hlen Hoff1 Hl).
    rewrite (drop_S _ _ _ Hname). cbn [last_named_from].
    destruct (last_named_from names (drop (S i) order) (S i)) as [j|];
      [exact IH|].
    unfold at_index in Hp. rewrite Hname in Hp.
    destruct (case_of (Str name) names).
    + exists v. split; [|congruence].
      unfold field. now rewrite <- Hoff.
    + congruence.
Qed.
End Pick.

Lemma case_of_one (v : value) (a : string) : case_of v [a] = is_str v a.
Proof. unfold case_of. cbn. apply orb_false_r. Qed.

Lemma case_of_two (v : value) (a b : string) :
  case_of v [a; b] = is_str v a || is_str v b.
Proof. unfold case_of. cbn. now rewrite orb_false_r. Qed.

Ltac step_position :=
  intros i s s' v Hv Hs; unfold property_step in Hs;
  rewrite Hv in Hs; injection Hs as <-;
  cbn [l_x l_y l_z l_r l_g l_b andb]; now rewrite case_of_one.

Ltac step_colour :=
  intros i s s' v Hv Hs; unfold property_step in Hs;
  rewrite Hv in Hs; injection Hs as <-;
  cbn [l_x l_y l_z l_r l_g l_b andb]; now rewrite case_of_two.

(** The values the property loop leaves in [x], [y], [z], [r], [g],
    [b] for the record at [base]. *)
Lemma property_loop_record (base : nat) (st : locals) :
  length order = length types ->
  property_loop order types hc view little (length order) 0
    {| propertyOffset := base;
       l_x := of_Z 0; l_y := of_Z 0; l_z := of_Z 0;
       l_r := of_Z 1; l_g := of_Z 1; l_b := of_Z 1 |} = Return st ->
  let from proj names g :=
    match last_named names order with
    | Some j =>
        exists val, field view little types base j = Return val /\
                    proj st = g val
    | None => True
    end in
  from l_x ["x"] id /\ from l_y ["y"] id /\ from l_z ["z"] id /\
  (hc = true ->
   from l_r ["red"; "r"] (fun v => fdiv v (of_Z 255)) /\
   from l_g ["green"; "g"] (fun v => fdiv v (of_Z 255)) /\
   from l_b ["blue"; "b"] (fun v => fdiv v (of_Z 255))).
Proof.
  intros Hlen Hl from.
  match type of Hl with
  | property_loop _ _ _ _ _ _ _ ?i = _ => set (init := i) in *
  end.
  assert (Hgen : forall proj names g,
    (forall i st st' v,
       readProperty view (default Undefined (types !! i)) (propertyOffset st) little
       = Return v ->
       property_step order types hc view little i st = Return st' ->
       proj st' = if case_of (at_index order i) names then g v else proj st) ->
    from proj names g).
  { intros proj names g Hstep. unfold from, last_named.
    pose proof (property_loop_last base proj names g Hstep (length order) 0
                  init st (Nat.add_0_l _) Hlen (eq_sym (Nat.add_0_r base)) Hl)
      as Hp.
    rewrite drop_0 in Hp.
    destruct (last_named_from names order 0); [exact Hp | exact I]. }
  split; [apply Hgen; step_position|].
  split; [apply Hgen; step_position|].
  split; [apply Hgen; step_position|].
  intros ->. repeat split; apply Hgen; step_colour.
Qed.

(** Iteration [p] of a vertex loop that returns has read the record
    at [offset + p * bytesPerVertex] and stored what the property loop
    left in its variables. *)
Lemma vertex_loop_records (n : nat) : forall v offset pos col pos' col',
  vertex_loop order types hc view little n v offset pos col = Return (pos', col') ->
  3 * (v + n) <= length pos -> 3 * (v + n) <= length col ->
  forall p, p < n -> exists st,
    property_loop order types hc view little (length order) 0
      {| propertyOffset := offset + p * bytesPerVertex types;
         l_x := of_Z 0; l_y := of_Z 0; l_z := of_Z 0;
         l_r := of_Z 1; l_g := of_Z 1; l_b := of_Z 1 |} = Return st /\
    pos' !! (3 * (v + p) + 0) = Some (fround (l_x st)) /\
    pos' !! (3 * (v + p) + 1) = Some (fround (l_y st)) /\
    pos' !! (3 * (v + p) + 2) = Some (fround (l_z st)) /\
    col' !! (3 * (v + p) + 0) = Some (fround (l_r st)) /\
    col' !! (3 * (v + p) + 1) = Some (fround (l_g st)) /\
    col' !! (3 * (v + p) + 2) = Some (fround (l_b st)).
Proof.
  induction n as [|n IH]; intros v offset pos col pos' col' Hl Hpl Hcl p Hp;
    [lia|].
  cbn [vertex_loop] in Hl. apply bind_Return in Hl as (st & Hs & Hl).
  destruct p as [|p].
  - exists st. replace (offset + 0 * bytesPerVertex types) with offset by lia.
    replace (v + 0) with v by lia. split; [exact Hs|].
    apply vertex_loop_spec in Hl as (_ & _ & Hf & _).
    destruct (Hf (3 * v + 0)) as [-> ->]; [lia|].
    destruct (Hf (3 * v + 1)) as [-> ->]; [lia|].
    destruct (Hf (3 * v + 2)) as [-> ->]; [lia|].
    repeat split;
      repeat (rewrite lookup_store_ne by lia);
      apply lookup_store_eq; rewrite ?length_store; lia.
  - replace (offset + S p * bytesPerVertex types)
      with (offset + bytesPerVertex types + p * bytesPerVertex types) by lia.
    replace (v + S p) with (S v + p) by lia.
    apply (IH _ _ _ _ _ _ Hl); rewrite ?length_store; lia.
Qed.
End Binary.

Section BinaryDecode.
Context `{Engine}.

Lemma last_named_from_found (names : list string) (name : string) :
  In name names -> forall order k i,
  array_indexOf name order = Some i ->
  exists j, last_named_from names order k = Some j.
Proof.
  intros Hin. induction order as [|a order IH]; intros k i; cbn; [done|].
  destruct (String.eqb_spec a name) as [->|Hne].
  - intros _. destruct (last_named_from names order (S k)); [eauto|].
    replace (case_of (Str name) names) with true; [eauto|].
    symmetry. apply existsb_exists. exists name. split; [exact Hin|].
    cbn. apply String.eqb_refl.
  - destruct (array_indexOf name order) as [i'|] eqn:E; [|done].
    intros _. destruct (IH (S k) i' eq_refl) as [j ->]. eauto.
Qed.

Lemma last_named_declared (h : header) (name : string) :
  declares h name = true ->
  exists j, last_named [name] (vertexPropertyOrder h) = Some j.
Proof.
  unfold declares, last_named.
  destruct (array_indexOf name (vertexPropertyOrder h)) as [i|] eqn:E; [|done].
  intros _. eapply last_named_from_found; [|exact E]. now left.
Qed.

Lemma last_named_color_index (order : list string) (long short : string) :
  found (color_index order long short) = true ->
  exists j, last_named [long; short] order = Some j.
Proof.
  unfold color_index, last_named.
  destruct (array_indexOf long order) as [i|] eqn:El.
  - intros _. eapply last_named_from_found; [|exact El]. now left.
  - destruct (array_indexOf short order) as [i|] eqn:Es; [|done].
    intros _. eapply last_named_from_found; [|exact Es]. right; now left.
Qed.

Lemma schema_lengths (buffer : ArrayBuffer) (h : header) :
  schema buffer = Some h ->
  length (vertexPropertyOrder h) = length (vertexPropertyTypes h).
Proof.
  unfold schema. destruct (headerEndIndex buffer); [|done].
  intros [= <-]. now apply fold_header_line_lengths.
Qed.

(** X7.  What a binary decode delivers.  Point [p] of a successful
    binary decode is read from record [p], the [bytesPerVertex] bytes at
    [p * bytesPerVertex] after the data offset: each coordinate is the
    value of the last property named [x] (resp. [y], [z]), read at the
    sum of the sizes of the properties before it with its declared type
    and the byte order of the format line; when colours are decoded,
    each channel is the value of the last property named [red] or [r]
    (resp. [green] or [g], [blue] or [b]) divided by 255.  A property
    declared later overrides an earlier one of the same role. *)
Theorem binary_rows_decode (buffer : ArrayBuffer) (h : header) (d : PlyData)
    (p : nat) :
  schema buffer = Some h ->
  is_str (format h) "ascii" = false ->
  parsePly buffer = Return d ->
  (Z.of_nat p < ply_vertexCount d)%Z ->
  let read :=
    record_field (dataBytes buffer) (is_str (format h) "binary_little_endian")
      (vertexPropertyTypes h) (vertexPropertyOrder h)
      (p * bytesPerVertex (vertexPropertyTypes h)) in
  let scaled v := fdiv v (of_Z 255) in
  read ["x"] id (ply_positions d !! (3 * p + 0)) /\
  read ["y"] id (ply_positions d !! (3 * p + 1)) /\
  read ["z"] id (ply_positions d !! (3 * p + 2)) /\
  (hasColor_of h = true ->
   read ["red"; "r"] scaled (ply_colors d !! (3 * p + 0)) /\
   read ["green"; "g"] scaled (ply_colors d !! (3 * p + 1)) /\
   read ["blue"; "b"] scaled (ply_colors d !! (3 * p + 2))).
Proof.
  intros Hs Ha Hd Hp read scaled.
  apply parsePly_Return in Hd
    as (h' & N & a0 & Hs' & Hok & _ & _ & Ha0 & Hv & Hloop).
  assert (h' = h) as -> by congruence. rewrite Hv in Hp.
  apply new_Float32Array_Return in Ha0 as [HN ->].
  destruct Hloop as [(Ha' & _) | (_ & Hl)]; [congruence|].
  pose proof (schema_lengths _ _ Hs) as Hlen.
  edestruct vertex_loop_records as (st & Hst & Hx & Hy & Hz & Hr & Hg & Hb);
    [exact Hl | rewrite length_replicate; lia | rewrite length_replicate; lia
    | instantiate (1 := p); lia |].
  rewrite !Nat.add_0_l in *.
  destruct (property_loop_record _ _ _ _ _ _ _ Hlen Hst)
    as (Fx & Fy & Fz & Fc).
  unfold header_ok in Hok.
  apply andb_true_iff in Hok as [[[_ Dx]%andb_true_iff Dy]%andb_true_iff Dz].
  destruct (last_named_declared _ _ Dx) as [jx Jx].
  destruct (last_named_declared _ _ Dy) as [jy Jy].
  destruct (last_named_declared _ _ Dz) as [jz Jz].
  rewrite Jx in Fx. rewrite Jy in Fy. rewrite Jz in Fz.
  destruct Fx as (vx & Vx & Ex), Fy as (vy & Vy & Ey), Fz as (vz & Vz & Ez).
  split; [exists jx, vx; rewrite Hx, Ex; auto|].
  split; [exists jy, vy; rewrite Hy, Ey; auto|].
  split; [exists jz, vz; rewrite Hz, Ez; auto|].
  intros Hc. destruct (Fc Hc) as (Fr & Fg & Fb).
  unfold hasColor_of in Hc.
  apply andb_true_iff in Hc as [[Cr Cg]%andb_true_iff Cb].
  destruct (last_named_color_index _ _ _ Cr) as [jr Jr].
  destruct (last_named_color_index _ _ _ Cg) as [jg Jg].
  destruct (last_named_color_index _ _ _ Cb) as [jb Jb].
  rewrite Jr in Fr. rewrite Jg in Fg. rewrite Jb in Fb.
  destruct Fr as (vr & Vr & Er), Fg as (vg & Vg & Eg), Fb as (vb & Vb & Eb).
  split; [exists jr, vr; rewrite Hr, Er; auto|].
  split; [exists jg, vg; rewrite Hg, Eg; auto | exists jb, vb; rewrite Hb, Eb; auto].
Qed.

(** X8.  When a binary decode returns.  With a header that passes the
    checks and names a binary format, [parsePly] returns exactly when
    the two arrays can be allocated and the bytes after the data offset
    hold [vertexCount] whole records; in every other case it throws a
    [RangeError].  Bytes after the last record are not looked at. *)
Theorem binary_decode_returns_iff (buffer : ArrayBuffer) (h : header) (N : Z) :
  schema buffer = Some h ->
  header_ok h = true ->
  is_str (format h) "binary_little_endian"
  || is_str (format h) "binary_big_endian" = true ->
  vertexCount h = Some N ->
  let complete :=
    (0 <= N * 3 <= max_array_length)%Z /\
    (N * Z.of_nat (bytesPerVertex (vertexPropertyTypes h))
     <= Z.of_nat (length (dataBytes buffer)))%Z in
  ((exists d, parsePly buffer = Return d) <-> complete) /\
  (parsePly buffer = Throw RangeError <-> ~ complete).
Proof.
  intros Hs Hok Hbin HN complete.
  pose proof (binary_is_not_ascii _ Hbin) as Hascii.
  pose proof (schema_lengths _ _ Hs) as Hlen.
  assert (Hret : (exists d, parsePly buffer = Return d) -> complete).
  { intros [d Hd].
    apply parsePly_Return in Hd
      as (h' & N' & a0 & Hs' & _ & HN' & HN0 & Ha0 & _ & Hloop).
    assert (h' = h) as -> by congruence. assert (N' = N) as -> by congruence.
    apply new_Float32Array_Return in Ha0 as [Hpos _].
    destruct Hloop as [(Ha & _) | (_ & Hl)]; [congruence|].
    split; [exact Hpos|].
    unfold header_ok in Hok.
    apply andb_true_iff in Hok as [[[_ Hx]%andb_true_iff _]%andb_true_iff _].
    apply vertex_loop_in_bounds in Hl;
      [ unfold dataBytes in *; lia | exact Hlen
      | exact (declares_nonempty _ _ Hx) | lia ]. }
  assert (Hcomp : complete -> exists d, parsePly buffer = Return d).
  { intros [Hpos Hfit]. rewrite (parsePly_schema _ _ Hs).
    pose proof Hok as Hok'. unfold header_ok in Hok'.
    apply andb_true_iff in Hok' as [[[[Hf Hc]%andb_true_iff Hx]%andb_true_iff
      Hy]%andb_true_iff Hz].
    apply negb_true_iff in Hf, Hc. rewrite Hf, Hc, Hx, Hy, Hz, HN.
    cbn [negb andb default from_option id]. unfold decode_vertices.
    rewrite (new_Float32Array_ok _ Hpos), !bind_Return_l, Hascii, Hbin.
    edestruct (vertex_loop_total (vertexPropertyOrder h) (vertexPropertyTypes h)
                 (hasColor_of h) (dataBytes buffer)
                 (is_str (format h) "binary_little_endian") (Z.to_nat N) 0 0)
      as [[pos col] Hl]; [exact Hlen | lia |].
    unfold hasColor_of in Hl. rewrite Hl. eexists. reflexivity. }
  split; [split; assumption|]. split.
  - intros Ht Hc. destruct (Hcomp Hc) as [d Hd]. congruence.
  - intros Hn. destruct (parsePly buffer) as [d|e] eqn:Hd;
      [exfalso; apply Hn, Hret; eauto|].
    f_equal. rewrite (parsePly_schema _ _ Hs) in Hd. unfold header_ok in Hok.
    apply andb_true_iff in Hok as [[[[Hf Hc]%andb_true_iff Hx]%andb_true_iff
      Hy]%andb_true_iff Hz].
    apply negb_true_iff in Hf, Hc. rewrite Hf, Hc, Hx, Hy, Hz in Hd.
    exact (decode_vertices_binary _ _ _ _ _ _ Hascii Hbin Hd).
Qed.
End BinaryDecode.

(** ** The text branch *)

Section TextDecode.
Context `{Engine}.

(** X9.  A text decode never fails on its data.  With a header that
    passes the checks and [format ascii], [parsePly] returns whatever
    follows the header (no lines, blank or short lines, tokens that are
    not numbers) as soon as the two arrays can be allocated, and throws
    a [RangeError] exactly when they cannot. *)
Theorem text_decode_returns_iff (buffer : ArrayBuffer) (h : header) (N : Z) :
  schema buffer = Some h ->
  header_ok h = true ->
  is_str (format h) "ascii" = true ->
  vertexCount h = Some N ->
  ((exists d, parsePly buffer = Return d) <-> (0 <= N * 3 <= max_array_length)%Z) /\
  (parsePly buffer = Throw RangeError <-> ~ (0 <= N * 3 <= max_array_length)%Z).
Proof.
  intros Hs Hok Ha HN. rewrite (parsePly_schema _ _ Hs).
  unfold header_ok in Hok.
  apply andb_true_iff in Hok as [[[[Hf Hc]%andb_true_iff Hx]%andb_true_iff
    Hy]%andb_true_iff Hz].
  apply negb_true_iff in Hf, Hc. rewrite Hf, Hc, Hx, Hy, Hz, HN.
  cbn [negb andb default from_option id].
  destruct (decide (0 <= N * 3 <= max_array_length)%Z) as [Hn|Hn].
  - destruct (decode_vertices_ascii buffer h N (dataOffset buffer)
                (dataBytes buffer) Hn Ha) as [d Hd].
    rewrite Hd. split; split; eauto; [done | intros; done].
  - rewrite (decode_vertices_alloc buffer h N _ _ Hn).
    split; split; eauto; [intros [d Hd]; done | done].
Qed.
End TextDecode.

(** ** The header scan, line by line *)

Section HeaderScan.
Lemma split_ws_from_nonempty (s : string) : forall b, split_ws_from b s <> [].
Proof.
  induction s as [|c s IH]; intros b; cbn; [done|].
  destruct (isWhiteSpace c); [destruct b; [apply IH | done]|].
  destruct (split_ws_from false s); done.
Qed.

Lemma tokens_of_length (line : string) :
  (length (tokens_of line) =? 0)%nat = false.
Proof.
  apply Nat.eqb_neq. unfold tokens_of, split_ws.
  pose proof (split_ws_from_nonempty (trim line) false).
  destruct (split_ws_from false (trim line)); cbn; [done | lia].
Qed.

(** What one iteration of the header loop does, by the kind of line. *)
Lemma header_line_cases (h : header) (line : string) :
  header_line h line =
    if is_vertex_line line then
      {| format := format h;
         vertexCount := parseInt (at_index (tokens_of line) 2);
         vertexPropertyOrder := vertexPropertyOrder h;
         vertexPropertyTypes := vertexPropertyTypes h;
         inVertexElement := true |}
    else if is_element_line line then
      {| format := format h; vertexCount := vertexCount h;
         vertexPropertyOrder := vertexPropertyOrder h;
         vertexPropertyTypes := vertexPropertyTypes h;
         inVertexElement := false |}
    else if is_format_line line then
      {| format := at_index (tokens_of line) 1; vertexCount := vertexCount h;
         vertexPropertyOrder := vertexPropertyOrder h;
         vertexPropertyTypes := vertexPropertyTypes h;
         inVertexElement := inVertexElement h |}
    else if inVertexElement h && is_property_line line then
      {| format := format h; vertexCount := vertexCount h;
         vertexPropertyOrder := vertexPropertyOrder h ++ [property_name line];
         vertexPropertyTypes := vertexPropertyTypes h ++ [property_type line];
         inVertexElement := inVertexElement h |}
    else h.
Proof.
  unfold header_line, is_vertex_line, is_element_line, is_format_line,
    is_property_line, property_name, property_type.
  fold (tokens_of line). rewrite tokens_of_length.
  destruct h as [f c o t v]. cbn [format vertexCount vertexPropertyOrder
    vertexPropertyTypes inVertexElement].
  destruct (at_index (tokens_of line) 0) as [| |s]; cbn [is_str andb];
    [destruct v; reflexivity | destruct v; reflexivity |].
  destruct (String.eqb_spec s "format") as [->|Hf];
    [destruct v; reflexivity|].
  destruct (String.eqb_spec s "element") as [->|He].
  - destruct (is_str (at_index (tokens_of line) 1) "vertex"), v; reflexivity.
  - destruct v; reflexivity.
Qed.

Lemma scan_header_snoc (ls : list string) (l : string) :
  scan_header (ls ++ [l]) = header_line (scan_header ls) l.
Proof. unfold scan_header. now rewrite fold_left_app. Qed.

(** X10.  The last declaration wins.  After the header loop,
    [vertexCount] is [parseInt] of the third token of the last
    [element vertex] line (0 when there is none) and [format] is the
    second token of the last line whose first token is [format] (null
    when there is none), wherever in the header those lines stand. *)
Theorem scan_header_last_declaration_wins (headerLines : list string) :
  vertexCount (scan_header headerLines)
  = match last (List.filter is_vertex_line headerLines) with
    | Some line => parseInt (at_index (tokens_of line) 2)
    | None => Some 0%Z
    end /\
  format (scan_header headerLines)
  = match last (List.filter is_format_line headerLines) with
    | Some line => at_index (tokens_of line) 1
    | None => Null
    end.
Proof.
  induction headerLines as [|l ls [IHc IHf]] using rev_ind; [done|].
  rewrite scan_header_snoc, header_line_cases, !List.filter_app, !last_app.
  cbn [List.filter].
  assert (Hfv : is_vertex_line l = true -> is_format_line l = false).
  { unfold is_vertex_line, is_element_line, is_format_line.
    destruct (at_index (tokens_of l) 0) as [| |s]; cbn; try done.
    destruct (String.eqb_spec s "element") as [->|]; [done | done]. }
  assert (Hfe : is_element_line l = true -> is_format_line l = false).
  { unfold is_element_line, is_format_line.
    destruct (at_index (tokens_of l) 0) as [| |s]; cbn; try done.
    destruct (String.eqb_spec s "element") as [->|]; [done | done]. }
  destruct (is_vertex_line l) eqn:Ev; [rewrite (Hfv eq_refl); cbn; auto|].
  destruct (is_element_line l) eqn:Ee; [rewrite (Hfe eq_refl); cbn; auto|].
  destruct (is_format_line l) eqn:Ef; [cbn; auto|].
  destruct (inVertexElement (scan_header ls) && is_property_line l); cbn; auto.
Qed.

Lemma fold_outside (ls : list string) : forall h,
  inVertexElement h = false ->
  Forall (fun l => is_vertex_line l = false) ls ->
  let h' := fold_left header_line ls h in
  vertexPropertyOrder h' = vertexPropertyOrder h /\
  vertexPropertyTypes h' = vertexPropertyTypes h /\
  vertexCount h' = vertexCount h /\ inVertexElement h' = false.
Proof.
  induction ls as [|l ls IH]; intros h Hv Hls; cbn [fold_left]; [auto|].
  apply Forall_cons in Hls as [Hl Hls].
  edestruct (IH (header_line h l)) as (-> & -> & -> & ->); [|exact Hls|];
    rewrite header_line_cases, Hl, Hv;
    destruct (is_element_line l), (is_format_line l); cbn; auto.
Qed.

Lemma header_line_inside (h : header) (l : string) :
  inVertexElement h = true -> is_element_line l = false ->
  vertexPropertyOrder (header_line h l)
  = vertexPropertyOrder h ++ (property_name <$> List.filter is_property_line [l]) /\
  vertexPropertyTypes (header_line h l)
  = vertexPropertyTypes h ++ (property_type <$> List.filter is_property_line [l]) /\
  vertexCount (header_line h l) = vertexCount h /\
  inVertexElement (header_line h l) = true.
Proof.
  intros Hv Hl.
  assert (Hnv : is_vertex_line l = false)
    by (unfold is_vertex_line; now rewrite Hl).
  assert (Hfp : is_format_line l = true -> is_property_line l = false).
  { unfold is_format_line, is_property_line.
    destruct (at_index (tokens_of l) 0) as [| |s]; cbn; try done.
    destruct (String.eqb_spec s "format") as [->|]; [done | done]. }
  rewrite header_line_cases, Hnv, Hl, Hv. cbn [List.filter andb].
  destruct (is_format_line l) eqn:Ef.
  - rewrite (Hfp eq_refl). cbn. rewrite !app_nil_r. auto.
  - destruct (is_property_line l); cbn; rewrite ?app_nil_r; auto.
Qed.

Lemma fold_inside (ls : list string) : forall h,
  inVertexElement h = true ->
  Forall (fun l => is_element_line l = false) ls ->
  let h' := fold_left header_line ls h in
  vertexPropertyOrder h'
  = vertexPropertyOrder h ++ (property_name <$> List.filter is_property_line ls) /\
  vertexPropertyTypes h'
  = vertexPropertyTypes h ++ (property_type <$> List.filter is_property_line ls) /\
  vertexCount h' = vertexCount h /\ inVertexElement h' = true.
Proof.
  induction ls as [|l ls IH]; intros h Hv Hls; cbn [fold_left].
  - cbn. rewrite !app_nil_r. auto.
  - apply Forall_cons in Hls as [Hl Hls].
    destruct (header_line_inside h l Hv Hl) as (Ho & Ht & Hc & Hin).
    destruct (IH (header_line h l) Hin Hls) as (-> & -> & -> & ->).
    rewrite Ho, Ht, Hc.
    change (l :: ls) with ([l] ++ ls).
    rewrite List.filter_app, !fmap_app, !app_assoc. auto.
Qed.

(** X11.  A header of the usual shape.  Let the header lines be: any
    lines without an [element vertex] line; an [element vertex] line;
    lines none of which starts a new element; and then either nothing
    or an [element] line of another kind followed by lines without an
    [element vertex] line.  The scan then reads the count from the
    [element vertex] line and collects, in order, the name (last token)
    and type (second token) of exactly the [property] lines of the
    middle part: properties before the vertex element or inside another
    element, and lines that are neither [element] nor [property]
    (comments, [ply], [end_header], blank lines), contribute nothing. *)
Theorem scan_header_standard (pre body tail : list string) (ev : string) :
  Forall (fun l => is_vertex_line l = false) pre ->
  is_vertex_line ev = true ->
  Forall (fun l => is_element_line l = false) body ->
  Forall (fun l => is_vertex_line l = false) tail ->
  match tail with [] => True | e :: _ => is_element_line e = true end ->
  let h := scan_header (pre ++ ev :: body ++ tail) in
  vertexCount h = parseInt (at_index (tokens_of ev) 2) /\
  vertexPropertyOrder h = property_name <$> List.filter is_property_line body /\
  vertexPropertyTypes h = property_type <$> List.filter is_property_line body.
Proof.
  intros Hpre Hev Hbody Htail Hhead. unfold scan_header.
  rewrite fold_left_app. cbn [fold_left]. rewrite fold_left_app.
  destruct (fold_outside pre header_init eq_refl Hpre) as (Ho & Ht & _ & _).
  set (h0 := fold_left header_line pre header_init) in *.
  assert (H1 : inVertexElement (header_line h0 ev) = true
               /\ vertexPropertyOrder (header_line h0 ev) = []
               /\ vertexPropertyTypes (header_line h0 ev) = []
               /\ vertexCount (header_line h0 ev)
                  = parseInt (at_index (tokens_of ev) 2))
    by (rewrite header_line_cases, Hev; cbn; auto).
  destruct H1 as (Hin & Ho1 & Ht1 & Hc1).
  destruct (fold_inside body _ Hin Hbody) as (Ho2 & Ht2 & Hc2 & Hin2).
  rewrite Ho1, Ht1, Hc1 in *. cbn [app] in *.
  set (h2 := fold_left header_line body (header_line h0 ev)) in *.
  destruct tail as [|e rest]; [cbn; auto|].
  cbn [fold_left]. apply Forall_cons in Htail as [He Hrest].
  assert (H3 : inVertexElement (header_line h2 e) = false
               /\ vertexPropertyOrder (header_line h2 e) = vertexPropertyOrder h2
               /\ vertexPropertyTypes (header_line h2 e) = vertexPropertyTypes h2
               /\ vertexCount (header_line h2 e) = vertexCount h2)
    by (rewrite header_line_cases, He, Hhead; cbn; auto).
  destruct H3 as (Hout & Ho3 & Ht3 & Hc3).
  destruct (fold_outside rest _ Hout Hrest) as (-> & -> & -> & _).
  rewrite Ho3, Ht3, Hc3. auto.
Qed.
End HeaderScan.

(** ** Lines and tokens *)

Section Text.
Local Notation "a +++ b" := (String.append a b) (at level 60, right associativity).

Lemma append_empty_r (s : string) : s +++ "" = s.
Proof. induction s as [|c s IH]; cbn; [reflexivity | now rewrite IH]. Qed.

(** *** [trim] *)

Lemma trimStart_blank (lead s : string) :
  blank lead = true -> trimStart (lead +++ s) = trimStart s.
Proof.
  induction lead as [|c lead IH]; cbn; [reflexivity|].
  intros [-> Hb]%andb_true_iff. now apply IH.
Qed.

Lemma trimEnd_blank (s : string) : blank s = true -> trimEnd s = "".
Proof.
  induction s as [|c s IH]; cbn; [reflexivity|].
  intros [-> Hb]%andb_true_iff. now rewrite IH.
Qed.

Lemma trimEnd_solid (w s : string) :
  solid w = true -> trimEnd (w +++ s) = w +++ trimEnd s.
Proof.
  induction w as [|c w IH]; cbn; [reflexivity|].
  intros [Hc%negb_true_iff Hw]%andb_true_iff. rewrite (IH Hw), Hc.
  now destruct (w +++ trimEnd s).
Qed.

Lemma trimEnd_separator (sep s : string) :
  trimEnd s <> "" -> trimEnd (sep +++ s) = sep +++ trimEnd s.
Proof.
  intros Hs. induction sep as [|c sep IH]; cbn; [reflexivity|].
  rewrite IH. destruct (sep +++ trimEnd s) eqn:E; [|reflexivity].
  destruct sep; cbn in E; [done | discriminate].
Qed.

Lemma word_inv (w : string) :
  word w = true ->
  exists c w', w = String c w' /\ isWhiteSpace c = false /\ solid w = true.
Proof.
  unfold word. destruct w as [|c w']; cbn; [done|].
  intros [Hc%negb_true_iff Hw]%andb_true_iff.
  exists c, w'. now rewrite Hc, Hw.
Qed.

Lemma trimEnd_spaced (items : list (string * string)) (w trail : string) :
  Forall (fun i => word (fst i) = true /\ separator (snd i) = true) items ->
  word w = true -> blank trail = true ->
  trimEnd (spaced items (w +++ trail)) = spaced items w /\ spaced items w <> "".
Proof.
  intros Hitems Hw Htrail.
  destruct (word_inv _ Hw) as (c & w' & -> & Hc & Hsolid).
  induction Hitems as [|[wi sep] items [Hwi Hsep] _ [IH Hne]]; cbn [spaced].
  - rewrite (trimEnd_solid _ _ Hsolid), (trimEnd_blank _ Htrail), append_empty_r.
    split; [reflexivity | discriminate].
  - cbn [fst snd] in *.
    destruct (word_inv _ Hwi) as (ci & wi' & -> & Hci & Hsi).
    rewrite (trimEnd_solid _ _ Hsi), trimEnd_separator by (rewrite IH; exact Hne).
    rewrite IH. split; [reflexivity | discriminate].
Qed.

(** *** [split(/\s+/)] *)

Lemma split_ws_solid (w : string) : forall (b : bool) (s : string),
  solid w = true -> w <> "" \/ b = false ->
  split_ws_from b (w +++ s)
  = match split_ws_from false s with
    | h :: t => (w +++ h) :: t
    | [] => [w]
    end.
Proof.
  induction w as [|c w IH]; intros b s Hw Hb; cbn.
  - destruct Hb as [ Hb | -> ]; [done|].
    pose proof (split_ws_from_nonempty s false).
    now destruct (split_ws_from false s).
  - cbn in Hw. apply andb_true_iff in Hw as [Hc%negb_true_iff Hw].
    rewrite Hc, (IH false s Hw (or_intror eq_refl)).
    now destruct (split_ws_from false s).
Qed.

Lemma split_ws_blank (sep s : string) :
  blank sep = true -> split_ws_from true (sep +++ s) = split_ws_from true s.
Proof.
  induction sep as [|c sep IH]; cbn; [reflexivity|].
  intros [-> Hb]%andb_true_iff. now apply IH.
Qed.

Lemma split_ws_separator (sep s : string) :
  separator sep = true ->
  split_ws_from false (sep +++ s) = "" :: split_ws_from true s.
Proof.
  unfold separator. destruct sep as [|c sep]; cbn; [done|].
  intros [-> Hb]%andb_true_iff. now rewrite (split_ws_blank _ _ Hb).
Qed.

Lemma split_ws_spaced (items : list (string * string)) (w : string) :
  Forall (fun i => word (fst i) = true /\ separator (snd i) = true) items ->
  word w = true ->
  forall b, split_ws_from b (spaced items w) = (fst <$> items) ++ [w].
Proof.
  intros Hitems Hw.
  destruct (word_inv _ Hw) as (c & w' & Ew & Hc & Hsolid).
  induction Hitems as [|[wi sep] items [Hwi Hsep] _ IH]; intros b; cbn [spaced].
  - rewrite <- (append_empty_r w) at 1.
    rewrite split_ws_solid; [cbn; now rewrite append_empty_r | exact Hsolid|].
    left. now rewrite Ew.
  - cbn [fst snd] in *.
    destruct (word_inv _ Hwi) as (ci & wi' & Ei & Hci & Hsi).
    rewrite split_ws_solid, (split_ws_separator _ _ Hsep), IH;
      [now rewrite append_empty_r | exact Hsi | left; now rewrite Ei].
Qed.

(** X12.  Tokens do not depend on the layout of a line.  A line made
    of words (non-empty, free of whitespace) separated by any non-empty
    runs of whitespace (spaces, tabs, a stray carriage return,
    no-break spaces), with any whitespace before the first and after
    the last word, has exactly those words as its [tokens]. *)
Theorem tokens_of_spaced (lead trail w : string) (items : list (string * string)) :
  blank lead = true ->
  Forall (fun i => word (fst i) = true /\ separator (snd i) = true) items ->
  word w = true ->
  blank trail = true ->
  tokens_of (lead +++ spaced items (w +++ trail)) = (fst <$> items) ++ [w].
Proof.
  intros Hlead Hitems Hw Htrail. unfold tokens_of, trim, split_ws.
  rewrite (trimStart_blank _ _ Hlead).
  assert (Hstart : trimStart (spaced items (w +++ trail))
                   = spaced items (w +++ trail)).
  { destruct Hitems as [|[wi sep] items [Hwi _] _]; cbn [spaced fst] in *.
    - destruct (word_inv _ Hw) as (c & w' & -> & Hc & _). cbn. now rewrite Hc.
    - destruct (word_inv _ Hwi) as (c & w' & -> & Hc & _). cbn. now rewrite Hc. }
  rewrite Hstart, (proj1 (trimEnd_spaced _ _ _ Hitems Hw Htrail)).
  now apply split_ws_spaced.
Qed.

(** *** [split(/\r?\n/)] *)

Lemma split_lines_nonempty (s : string) : split_lines s <> [].
Proof.
  assert (Hc : forall c l, cons_head c l <> []) by (intros c [|? ?]; done).
  induction s as [|c s IH]; cbn; [done|]. repeat case_match; auto; done.
Qed.

Lemma split_lines_line (l : string) : forall rest : string,
  no_LF l = true ->
  (ends_with_CR l = true ->
   match rest with String c _ => Ascii.eqb c LF = false | "" => True end) ->
  split_lines (l +++ rest)
  = match split_lines rest with
    | h :: t => (l +++ h) :: t
    | [] => [l]
    end.
Proof.
  induction l as [|c l IH]; intros rest Hl Hcr.
  - cbn. pose proof (split_lines_nonempty rest).
    now destruct (split_lines rest).
  - cbn [no_LF] in Hl. apply andb_true_iff in Hl as [Hc%negb_true_iff Hl].
    assert (Hcons : split_lines (String c l +++ rest)
                    = cons_head c (split_lines (l +++ rest))).
    { cbn [String.append split_lines]. rewrite Hc.
      destruct (Ascii.eqb c CR) eqn:Ecr; [|reflexivity].
      destruct l as [|c' l].
      - cbn [String.append]. cbn [ends_with_CR] in Hcr.
        destruct rest as [|r rest]; [reflexivity|]. now rewrite (Hcr Ecr).
      - cbn [String.append]. cbn [no_LF] in Hl.
        apply andb_true_iff in Hl as [->%negb_true_iff _]. reflexivity. }
    rewrite Hcons, IH; [now destruct (split_lines rest) | exact Hl|].
    intros Hend. apply Hcr. cbn [ends_with_CR]. now destruct l.
Qed.

(** X13.  Line breaks.  A text made of lines each ended by LF or by
    CR LF (mixed freely), where no line contains a line feed and a line
    ended by a bare LF does not itself end in a carriage return, splits
    into exactly those lines followed by what stands after the last
    break: files with Windows and with Unix line ends are read alike. *)
Theorem split_lines_broken (lines : list (string * bool)) (rest : string) :
  Forall (fun i => no_LF (fst i) = true
                   /\ (snd i = false -> ends_with_CR (fst i) = false)) lines ->
  no_LF rest = true ->
  split_lines (broken lines rest) = (fst <$> lines) ++ [rest].
Proof.
  intros Hlines Hrest.
  induction Hlines as [|[l crlf] lines [Hl Hcr] _ IH]; cbn [broken fmap list_fmap app].
  - rewrite <- (append_empty_r rest) at 1.
    rewrite split_lines_line; [cbn; now rewrite append_empty_r | exact Hrest | done].
  - cbn [fst snd] in *. rewrite split_lines_line; [|exact Hl|].
    + destruct crlf; cbn [split_lines];
        change (Ascii.eqb LF LF) with true; change (Ascii.eqb CR LF) with false;
        change (Ascii.eqb CR CR) with true; cbn [app];
        now rewrite IH, append_empty_r.
    + intros Hend. destruct crlf; [reflexivity|]. rewrite Hcr in Hend; done.
Qed.
End Text.

(** ** The loader as a whole *)

Section Loader.
Context `{Engine}.

Lemma Float32Array_view_length (buffer : ArrayBuffer) (floats : Float32Array) :
  Float32Array_view buffer = Return floats ->
  length buffer = 4 * length floats.
Proof.
  unfold Float32Array_view.
  destruct (length buffer mod 4 =? 0)%nat eqn:E; [|done].
  apply Nat.eqb_eq in E. intros [= <-]. rewrite length_fmap.
  pose proof (Nat.div_mod_eq (length buffer) 4) as Hd.
  rewrite (length_chunks4 (length buffer / 4)); lia.
Qed.

(** X14.  Every point set the loader returns, from a structured or
    from a raw buffer, has at least one point and carries exactly three
    position elements and three colour elements per point. *)
Theorem loader_point_set_invariant (buffer : ArrayBuffer) (ps : PointSet) :
  snd (loadSimpleSplatFromArrayBuffer buffer) = Return (Some ps) ->
  (0 < count ps)%Z /\
  Z.of_nat (length (positions ps)) = (3 * count ps)%Z /\
  Z.of_nat (length (colors ps)) = (3 * count ps)%Z.
Proof.
  unfold loadSimpleSplatFromArrayBuffer.
  destruct (isPlyBuffer buffer).
  - cbn [snd]. intros (d & Hd & [= <-])%bind_Return.
    cbn [count positions colors]. exact (parsePly_lengths _ _ Hd).
  - destruct (Float32Array_view buffer) as [floats|e]; [|done].
    destruct (length floats / 6 =? 0)%nat eqn:E; [done|].
    apply Nat.eqb_neq in E. cbn [snd]. set (n := length floats / 6) in *.
    intros (a0 & Ha0 & Hr)%bind_Return.
    apply bind_Return in Hr as (a1 & Ha1 & Hr).
    apply new_Float32Array_Return in Ha0 as [_ ->].
    apply new_Float32Array_Return in Ha1 as [_ ->].
    destruct (raw_loop _ _ _ _ _) as [pos col] eqn:Hl.
    injection Hr as <-. cbn [count positions colors].
    apply raw_loop_spec in Hl as (-> & -> & _).
    rewrite length_replicate. lia.
Qed.

(** X15.  The loader returns [null] for one kind of input only: a
    buffer that does not begin with [ply] and holds zero to five whole
    32-bit floats.  A structured buffer never yields [null]. *)
Theorem loader_null_iff (buffer : ArrayBuffer) :
  snd (loadSimpleSplatFromArrayBuffer buffer) = Return None
  <-> isPlyBuffer buffer = false /\ length buffer mod 4 = 0 /\ length buffer < 24.
Proof.
  unfold loadSimpleSplatFromArrayBuffer.
  destruct (isPlyBuffer buffer).
  - cbn [snd]. split; [|intros [? _]; done].
    destruct (parsePly buffer); cbn; done.
  - destruct (Float32Array_view buffer) as [floats|e] eqn:Hv.
    + pose proof (Float32Array_view_length _ _ Hv) as Hlen.
      assert (Hmod : length buffer mod 4 = 0)
        by (rewrite Hlen, Nat.mul_comm; apply Nat.Div0.mod_mul).
      destruct (length floats / 6 =? 0)%nat eqn:E; cbn [snd].
      * apply Nat.eqb_eq, Nat.div_small_iff in E; [|lia].
        split; [intros _; repeat split; [exact Hmod | lia] | reflexivity].
      * apply Nat.eqb_neq in E.
        assert (6 <= length floats).
        { destruct (le_lt_dec 6 (length floats)) as [|Hlt]; [assumption|].
          apply Nat.div_small in Hlt. lia. }
        split; [|lia].
        intros (a0 & _ & Hr)%bind_Return.
        apply bind_Return in Hr as (a1 & _ & Hr).
        destruct (raw_loop _ _ _ _ _); done.
    + cbn [snd]. split; [done|]. intros (_ & Hmod & _).
      unfold Float32Array_view in Hv. now rewrite Hmod in Hv.
Qed.

(** X16.  The only way the loader fails on a raw buffer.  For a buffer
    that does not begin with [ply] the loader throws exactly when the
    byte length is not a multiple of 4 or the engine cannot allocate
    arrays of three elements per complete group of 24 bytes; what it
    throws is then a [RangeError], never an error of its own. *)
Theorem raw_throws_iff (buffer : ArrayBuffer) (e : exn) :
  isPlyBuffer buffer = false ->
  (snd (loadSimpleSplatFromArrayBuffer buffer) = Throw e
   <-> e = RangeError /\
       (length buffer mod 4 <> 0 \/
        (max_array_length < 3 * Z.of_nat (length buffer / 24))%Z)).
Proof.
  intros Hply. unfold loadSimpleSplatFromArrayBuffer. rewrite Hply.
  destruct (Float32Array_view buffer) as [floats|e'] eqn:Hv.
  - pose proof (Float32Array_view_length _ _ Hv) as Hlen.
    assert (Hmod : length buffer mod 4 = 0)
      by (rewrite Hlen, Nat.mul_comm; apply Nat.Div0.mod_mul).
    assert (Hdiv : length buffer / 24 = length floats / 6).
    { rewrite Hlen. change 24 with (4 * 6).
      rewrite <- Nat.Div0.div_div, (Nat.mul_comm 4), Nat.div_mul; lia. }
    rewrite Hdiv.
    destruct (length floats / 6 =? 0)%nat eqn:E; cbn [snd].
    + apply Nat.eqb_eq in E. rewrite E.
      pose proof max_array_length_safe.
      split; [done | intros (_ & [?|?]); [done | lia]].
    + set (n := length floats / 6) in *.
      destruct (new_Float32Array (Z.of_nat n * 3)) as [a0|e0] eqn:Ha.
      * apply new_Float32Array_Return in Ha as [Hn _].
        rewrite !bind_Return_l. destruct (raw_loop _ _ _ _ _).
        split; [done | intros (_ & [?|?]); [done | lia]].
      * apply new_Float32Array_Throw in Ha as [-> Hn].
        change (Throw RangeError ≫= ?k) with (@Throw (option PointSet) RangeError).
        split; [intros [= <-]; split; [reflexivity | right; lia]
               | intros [-> _]; reflexivity].
  - cbn [snd]. unfold Float32Array_view in Hv.
    destruct (length buffer mod 4 =? 0)%nat eqn:E; [done|].
    apply Nat.eqb_neq in E. injection Hv as <-.
    split; [intros [= <-]; auto | intros [-> _]; reflexivity].
Qed.
End Loader.

(** ** Where the data section starts *)

Section DataStart.
Lemma slice_from_decode (k : nat) : forall b : ArrayBuffer,
  slice_from k (decode b) = decode (drop k b).
Proof.
  unfold decode, string_of_list_byte.
  induction k as [|k IH]; intros [|c b]; cbn; try reflexivity. apply IH.
Qed.

Lemma drop_search_nonspace (bs : list byte) :
  drop (search_nonspace (decode bs)) bs = skip_whitespace bs.
Proof.
  unfold decode, string_of_list_byte.
  induction bs as [|b bs IH]; cbn; [reflexivity|].
  destruct (isWhiteSpace (ascii_of_byte b)); [exact IH | reflexivity].
Qed.

(** X22.  The data section starts at the first byte after [end_header]
    that is not whitespace.  For a buffer that fits the 64 KiB header
    window, the bytes handed to the decoding loops are those after the
    first [end_header] with every leading byte 0x09-0x0D, 0x20 or 0xA0
    removed: the line end that closes the header, and also any such
    bytes at the start of binary data. *)
Theorem data_starts_at_first_non_whitespace (buffer : ArrayBuffer) (i : nat) :
  headerEndIndex buffer = Some i ->
  length buffer <= 1024 * 64 ->
  dataBytes buffer
  = skip_whitespace (drop (i + String.length end_header) buffer).
Proof.
  intros Hi Hlen. unfold dataBytes, dataOffset. rewrite Hi.
  unfold dataStart, textHeader. rewrite (take_ge buffer) by exact Hlen.
  now rewrite slice_from_decode, <- drop_drop, drop_search_nonspace.
Qed.
End DataStart.

(** ** The header terminator *)

Section Terminator.
Context `{Engine}.
Local Notation "a +++ b" := (String.append a b) (at level 60, right associativity).

Lemma append_assoc (a b c : string) : (a +++ b) +++ c = a +++ (b +++ c).
Proof. induction a as [|x a IH]; cbn; [reflexivity | now rewrite IH]. Qed.

Lemma prefix_append (p s : string) : String.prefix p (p +++ s) = true.
Proof.
  induction p as [|c p IH]; cbn; [now destruct s|].
  destruct (ascii_dec c c); [exact IH | done].
Qed.

Lemma indexOf_unfold (needle s : string) :
  indexOf needle s
  = if String.prefix needle s then Some 0
    else match s with
         | "" => None
         | String _ s' => S <$> indexOf needle s'
         end.
Proof. now destruct s. Qed.

(** [indexOf] finds whatever occurs. *)
Lemma indexOf_contains (needle s : string) :
  contains needle s -> indexOf needle s <> None.
Proof.
  intros (pre & post & ->). induction pre as [|c pre IH]; cbn [String.append].
  - now rewrite indexOf_unfold, prefix_append.
  - rewrite indexOf_unfold. destruct (String.prefix _ _); [done|].
    destruct (indexOf needle (pre +++ needle +++ post)); [done | contradiction].
Qed.

Lemma contains_prefix (h post : string) : contains h (h +++ post).
Proof. now exists "", post. Qed.

Lemma contains_String (l s : string) (c : ascii) :
  contains l s -> contains l (String c s).
Proof. intros (pre & post & ->). now exists (String c pre), post. Qed.

Lemma contains_trans (a b c : string) :
  contains a b -> contains b c -> contains a c.
Proof.
  intros (p1 & q1 & ->) (p2 & q2 & ->).
  exists (p2 +++ p1), (q1 +++ q2). now rewrite !append_assoc.
Qed.

(** The first line is a prefix of the text and every further line
    occurs in it. *)
Lemma split_lines_parts (s : string) :
  exists h t, split_lines s = h :: t /\ (exists post, s = h +++ post) /\
              forall l, In l t -> contains l s.
Proof.
  set (Q := fun s : string =>
    exists h t, split_lines s = h :: t /\ (exists post, s = h +++ post) /\
                forall l, In l t -> contains l s).
  assert (Hskip : forall s brk, Q s ->
            exists h t, "" :: split_lines s = h :: t /\
              (exists post, brk +++ s = h +++ post) /\
              forall l, In l t -> contains l (brk +++ s)).
  { intros s0 brk (h & t & E & [post Hp] & Ht).
    exists "", (h :: t). split; [now rewrite E|]. split; [now exists (brk +++ s0)|].
    intros l [<- | Hl].
    - exists brk, post. now rewrite <- Hp.
    - destruct (Ht l Hl) as (pre & q & ->).
      exists (brk +++ pre), q. now rewrite append_assoc. }
  assert (Hcons : forall s c, Q s ->
            exists h t, cons_head c (split_lines s) = h :: t /\
              (exists post, String c s = h +++ post) /\
              forall l, In l t -> contains l (String c s)).
  { intros s0 c (h & t & E & [post Hp] & Ht).
    exists (String c h), t. rewrite E. split; [reflexivity|].
    split; [exists post; cbn; now rewrite <- Hp|].
    intros l Hl. now apply contains_String, Ht. }
  assert (Hunfold : forall c s',
    split_lines (String c s')
    = if Ascii.eqb c LF then "" :: split_lines s'
      else if Ascii.eqb c CR then
        match s' with
        | String c' s'' =>
            if Ascii.eqb c' LF then "" :: split_lines s''
            else cons_head c (split_lines s')
        | "" => cons_head c (split_lines s')
        end
      else cons_head c (split_lines s')) by reflexivity.
  enough (Q s /\ forall c, Q (String c s)) by tauto.
  induction s as [|c s [IH1 IH2]].
  - assert (H0 : Q "") by (exists "", []; repeat split; [now exists "" | done]).
    split; [exact H0|]. intros c. unfold Q. rewrite Hunfold.
    destruct (Ascii.eqb c LF); [exact (Hskip "" (String c "") H0)|].
    destruct (Ascii.eqb c CR); exact (Hcons "" c H0).
  - split; [apply IH2|]. intros c'. unfold Q. rewrite (Hunfold c').
    destruct (Ascii.eqb c' LF);
      [exact (Hskip (String c s) (String c' "") (IH2 c))|].
    destruct (Ascii.eqb c' CR); [|exact (Hcons (String c s) c' (IH2 c))].
    destruct (Ascii.eqb c LF);
      [exact (Hskip s (String c' (String c "")) IH1)
      | exact (Hcons (String c s) c' (IH2 c))].
Qed.

Lemma split_lines_contains (s l : string) :
  In l (split_lines s) -> contains l s.
Proof.
  destruct (split_lines_parts s) as (h & t & -> & [post Hp] & Ht).
  intros [<- | Hl]; [rewrite Hp; apply contains_prefix | now apply Ht].
Qed.

Lemma trimStart_suffix (s : string) : exists pre, s = pre +++ trimStart s.
Proof.
  induction s as [|c s [pre IH]]; cbn; [now exists ""|].
  destruct (isWhiteSpace c); [|now exists ""].
  exists (String c pre). cbn. now rewrite <- IH.
Qed.

Lemma trimEnd_prefix (s : string) : exists post, s = trimEnd s +++ post.
Proof.
  induction s as [|c s [post IH]]; cbn; [now exists ""|].
  destruct (trimEnd s) as [|a t].
  - destruct (isWhiteSpace c); [now exists (String c s)|].
    exists post. cbn in *. now rewrite <- IH.
  - exists post. cbn in *. now rewrite <- IH.
Qed.

Lemma trim_contains (s : string) : contains (trim s) s.
Proof.
  unfold trim. destruct (trimStart_suffix s) as [pre Hpre].
  destruct (trimEnd_prefix (trimStart s)) as [post Hpost].
  exists pre, post. now rewrite <- Hpost.
Qed.

(** A terminator line is one of the places where [end_header] occurs. *)
Lemma terminator_line_contains (text : string) :
  has_terminator_line text = true -> contains end_header text.
Proof.
  unfold has_terminator_line.
  intros (line & Hin & Heq%String.eqb_eq)%existsb_exists.
  apply (contains_trans _ line); [|now apply split_lines_contains].
  rewrite <- Heq. apply trim_contains.
Qed.

(** Past the header checks, [parsePly] fails on an allocation, on a
    read outside the view or on the format token. *)
Lemma decode_vertices_Throw (buffer : ArrayBuffer) (h : header) (N : Z)
    (start : nat) (view : DataView) (e : exn) :
  decode_vertices buffer h N start view = Throw e ->
  e = RangeError \/ e = Error (msg_unsupported (format h)).
Proof.
  unfold decode_vertices.
  intros [Ht | (a0 & _ & Ht)]%bind_Throw;
    [left; now apply new_Float32Array_Throw in Ht|].
  apply bind_Throw in Ht as [Ht | (a1 & _ & Ht)];
    [left; now apply new_Float32Array_Throw in Ht|].
  destruct (is_str (format h) "ascii").
  - destruct (ascii_loop _ _ _ _ _ _ _ _ _ _ _ _ _) as [[v p] c]. discriminate Ht.
  - destruct (is_str (format h) "binary_little_endian"
              || is_str (format h) "binary_big_endian").
    + apply bind_Throw in Ht as [Ht | ([p c] & _ & Ht)]; [|discriminate Ht].
      left. exact (vertex_loop_Throw _ _ _ _ _ _ _ _ _ _ _ Ht).
    + right. now injection Ht as <-.
Qed.

Lemma bind_mret_Throw {A B} (c : completion A) (f : A -> B) (e : exn) :
  (a ← c; mret (f a)) = Throw e <-> c = Throw e.
Proof.
  destruct c as [a|e']; cbn; [split; discriminate|].
  split; intros [= ->]; reflexivity.
Qed.

(** C3 (amended).  What the parser looks for is the character sequence
    [end_header], not a line.  On a buffer that starts with [ply],
    [parsePly] and the loader throw the "does not contain end_header"
    error exactly when [end_header] occurs nowhere in the first 64 KiB
    of the buffer, decoded as ASCII; no point set is returned then, and
    the window then holds no terminator line either. *)
Theorem missing_end_header_throws (buffer : ArrayBuffer) :
  isPlyBuffer buffer = true ->
  (parsePly buffer = Throw (Error msg_no_end_header)
   <-> headerEndIndex buffer = None) /\
  (snd (loadSimpleSplatFromArrayBuffer buffer) = Throw (Error msg_no_end_header)
   <-> headerEndIndex buffer = None) /\
  (headerEndIndex buffer = None ->
   has_terminator_line (textHeader buffer) = false).
Proof.
  intros Hply.
  assert (Hp : parsePly buffer = Throw (Error msg_no_end_header)
               <-> headerEndIndex buffer = None).
  { split.
    - destruct (headerEndIndex buffer) as [i|] eqn:Hi; [|reflexivity].
      assert (Hs : schema buffer = Some (scan_header (headerLines buffer i)))
        by (unfold schema; now rewrite Hi).
      rewrite (parsePly_schema _ _ Hs). intros Ht. exfalso.
      repeat case_match; try (injection Ht as Ht; cbv in Ht; discriminate Ht).
      apply decode_vertices_Throw in Ht as [Ht | Ht]; [discriminate Ht|].
      injection Ht as Ht. unfold msg_unsupported, msg_no_end_header in Ht.
      cbn in Ht. discriminate Ht.
    - intros Hi. unfold parsePly. unfold headerEndIndex in Hi. now rewrite Hi. }
  split; [exact Hp|]. split.
  - rewrite <- Hp. unfold loadSimpleSplatFromArrayBuffer. rewrite Hply. cbn [snd].
    apply bind_mret_Throw.
  - intros Hi. destruct (has_terminator_line (textHeader buffer)) eqn:Hl;
      [|reflexivity].
    apply terminator_line_contains, indexOf_contains in Hl. contradiction.
Qed.
End Terminator.

(** * viewer.js: the annotation tools *)

Section ViewerTools.
Import Viewer.
Context {coordinate : Type}.
Implicit Types (s : @state coordinate) (e : @event coordinate).
Implicit Types (clicks : list (@Vector3 coordinate * N)).

Lemma list_pair_ind {A} (P : list A -> Prop) :
  P [] -> (forall x, P [x]) -> (forall x y l, P l -> P (x :: y :: l)) ->
  forall l, P l.
Proof.
  intros H0 H1 H2 l.
  enough (P l /\ forall x, P (x :: l)) by tauto.
  induction l as [|y l [IH1 IH2]]; [auto|].
  split; [apply IH2 | intros x; apply H2, IH1].
Qed.

Lemma handle_annotations s e :
  annotations (handle s e) = annotations s \/
  exists a, annotations (handle s e) = annotations s ++ [a].
Proof.
  destruct e as [[p|] now | [t|]]; cbn; unfold pointerdown;
    repeat case_match; cbn; eauto.
  unfold handleDistanceClick. case_match; cbn; eauto.
Qed.

(** X18.  The pointer and toolbar handlers never remove or change an
    annotation: whatever the user clicks, the annotations present
    before are a prefix of the annotations present after. *)
Theorem annotations_append_only (events : list event) s :
  annotations s `prefix_of` annotations (run events s).
Proof.
  revert s. induction events as [|e events IH]; intros s; cbn; [done|].
  etrans; [|apply IH].
  destruct (handle_annotations s e) as [-> | [a ->]];
    [done | now apply prefix_app_r].
Qed.

(** X19.  The drawing keeps up with the list: if [rebuildAnnotations]
    has drawn the current annotations, it has again after any series of
    pointer and toolbar events, since every handler that adds an
    annotation redraws. *)
Theorem drawn_in_step (events : list event) s :
  drawn s = annotations s ->
  drawn (run events s) = annotations (run events s).
Proof.
  revert s. induction events as [|e events IH]; intros s Hs; cbn; [exact Hs|].
  apply IH.
  destruct e as [[p|] now | [t|]]; cbn; unfold pointerdown;
    repeat case_match; cbn; auto.
  unfold handleDistanceClick. case_match; cbn; auto.
Qed.

Lemma distance_first_click s p now :
  tool s = "distance" -> pending s = None ->
  handle s (PointerDown (Some p) now)
  = {| tool := "distance"; pending := Some p;
       annotations := annotations s; drawn := drawn s |}.
Proof.
  intros Ht Hp. cbn. unfold pointerdown, handleDistanceClick.
  now rewrite Ht, Hp.
Qed.

Lemma distance_second_click s p1 p2 now :
  tool s = "distance" -> pending s = Some p1 ->
  let a := distance (String.append "dist-" (decimal now))
             [v_x p1; v_y p1; v_z p1] [v_x p2; v_y p2; v_z p2] in
  handle s (PointerDown (Some p2) now)
  = {| tool := "distance"; pending := None;
       annotations := annotations s ++ [a]; drawn := annotations s ++ [a] |}.
Proof.
  intros Ht Hp a. cbn. unfold pointerdown, handleDistanceClick.
  rewrite Hp. unfold rebuildAnnotations, push. cbn. now rewrite Ht.
Qed.

(** X20.  The distance tool pairs its clicks.  With the distance tool
    active and no first point pending, a series of clicks that hit the
    model adds one measurement for every two clicks, from the first to
    the second point of the pair and named after the clock reading of
    the second click; an odd click is left pending as the first point
    of the next measurement. *)
Theorem distance_clicks_pair_up clicks s :
  tool s = "distance" -> pending s = None ->
  let s' := run (hits clicks) s in
  annotations s' = annotations s ++ measurements clicks /\
  pending s' = unpaired clicks /\
  tool s' = "distance".
Proof.
  revert s. induction clicks as [|[p t]|[p1 t1] [p2 t2] clicks IH]
    using list_pair_ind; intros s Ht Hp.
  - cbn. now rewrite app_nil_r.
  - cbn [hits fmap list_fmap run fold_left fst snd].
    rewrite (distance_first_click _ _ _ Ht Hp). cbn. now rewrite app_nil_r.
  - cbn [hits fmap list_fmap run fold_left fst snd].
    rewrite (distance_first_click _ _ _ Ht Hp).
    erewrite distance_second_click; [|reflexivity|reflexivity].
    cbn [annotations].
    match goal with
    | |- context [fold_left handle _ ?st] =>
        destruct (IH st eq_refl eq_refl) as (Ha & Hq & Hr)
    end.
    unfold run, hits in Ha, Hq, Hr. rewrite Ha, Hq, Hr.
    cbn [annotations measurements unpaired]. now rewrite <- app_assoc.
Qed.

Lemma marker_clicks clicks : forall s,
  tool s = "marker" ->
  let s' := run (hits clicks) s in
  annotations s' = annotations s ++ markers clicks /\
  pending s' = pending s /\ tool s' = "marker".
Proof.
  induction clicks as [|[p t] clicks IH]; intros s Ht.
  - cbn. now rewrite app_nil_r.
  - cbn [hits fmap list_fmap run fold_left fst snd handle].
    unfold pointerdown. rewrite Ht. cbn [String.eqb Ascii.eqb Bool.eqb].
    destruct (IH (addMarkerAnnotation t p s) Ht) as (Ha & Hq & Hr).
    unfold run, hits in Ha, Hq, Hr. rewrite Ha, Hq, Hr.
    cbn. now rewrite <- app_assoc.
Qed.

(** X21.  Changing the tool does not cancel a measurement that has
    its first point.  After one click with the distance tool, a switch
    to the marker tool, any number of marker clicks and a switch back,
    the next click with the distance tool completes the measurement
    from the point that was clicked before the switch. *)
Theorem measurement_survives_tool_switch clicks s p1 t1 p2 t2 :
  tool s = "distance" -> pending s = None ->
  let events :=
    [PointerDown (Some p1) t1; ToolbarClick (Some "marker")]
    ++ hits clicks
    ++ [ToolbarClick (Some "distance"); PointerDown (Some p2) t2] in
  annotations (run events s)
  = annotations s ++ markers clicks
    ++ [distance (String.append "dist-" (decimal t2))
          [v_x p1; v_y p1; v_z p1] [v_x p2; v_y p2; v_z p2]] /\
  pending (run events s) = None.
Proof.
  intros Ht Hp events. unfold events, run.
  rewrite fold_left_app. cbn [fold_left].
  rewrite (distance_first_click _ _ _ Ht Hp). cbn [handle toolbar_click].
  cbn [tool pending annotations drawn]. rewrite fold_left_app.
  match goal with
  | |- context [fold_left handle (hits clicks) ?st] =>
      destruct (marker_clicks clicks st eq_refl) as (Ha & Hq & Hr)
  end.
  unfold run in Ha, Hq, Hr. cbn [fold_left handle toolbar_click].
  rewrite Ha, Hq. cbn [tool pending annotations drawn].
  change (pointerdown (Some p2) t2 ?st) with (handle st (PointerDown (Some p2) t2)).
  erewrite distance_second_click; [|reflexivity|reflexivity].
  cbn [annotations pending]. now rewrite <- app_assoc.
Qed.
End ViewerTools.


(** ** The sample files, decoded with IEEE arithmetic *)

Section Samples.
Import Examples.
Existing Instance IEEE.engine.

(** C1.  The scenario header followed by two 15-byte records whose
    first encoded byte is 0x20 (x = 0x3F800020): the whitespace skip
    after [end_header] swallows that byte as well, the view is one byte
    short of two records and the decode throws a [RangeError]; with
    first byte 0x00 the same file decodes as the scenario says. *)
Theorem scenario_first_byte_whitespace :
  length scenario_space = dataOffset scenario + 30 /\
  dataOffset scenario_space = dataOffset scenario + 1 /\
  Observe.ply (parsePly scenario_space) = Throw RangeError /\
  Observe.points (snd (loadSimpleSplatFromArrayBuffer scenario_space))
  = Throw RangeError /\
  Observe.ply (parsePly scenario)
  = Return
      ([Observe.pos 8388608 (-23); Observe.pos 8388608 (-22);
        Observe.pos 12582912 (-22);
        Observe.neg 8388608 (-23); Observe.pos 8388608 (-24);
        Observe.pos 13421773 (-27)],
       [Observe.pos 8388608 (-23); Observe.pos 8421505 (-24); Observe.zero;
        Observe.pos 8421505 (-31); Observe.pos 8421505 (-30);
        Observe.pos 12632257 (-30)],
       2%Z).
Proof. repeat split; vm_compute; reflexivity. Qed.

(** C5.  One binary vertex with red = 255, green = 128, blue = 0 and a
    later property r = 0: the red channel comes out as 0 / 255, the
    value of [r]; the text decoder, given the same header and values,
    takes 255 / 255 from [red]. *)
Theorem binary_short_name_overrides_long :
  vertexPropertyOrder <$> schema both_names_binary
  = Some ["x"; "y"; "z"; "red"; "green"; "blue"; "r"] /\
  vertexPropertyOrder <$> schema both_names_ascii
  = Some ["x"; "y"; "z"; "red"; "green"; "blue"; "r"] /\
  Observe.ply (parsePly both_names_binary)
  = Return
      ([Observe.pos 8388608 (-23); Observe.pos 8388608 (-22);
        Observe.pos 12582912 (-22)],
       [Observe.zero; Observe.pos 8421505 (-24); Observe.zero], 1%Z) /\
  Observe.ply (parsePly both_names_ascii)
  = Return
      ([Observe.pos 8388608 (-23); Observe.pos 8388608 (-22);
        Observe.pos 12582912 (-22)],
       [Observe.pos 8388608 (-23); Observe.pos 8421505 (-24); Observe.zero],
       1%Z).
Proof. repeat split; vm_compute; reflexivity. Qed.

(** A decode that is observed to return did return. *)
Lemma observed_Return (c : completion PlyData) (o : Observe.observed) :
  Observe.ply c = Return o ->
  exists d, c = Return d /\
    o = (Observe.values (ply_positions d), Observe.values (ply_colors d), ply_vertexCount d).
Proof. destruct c as [d|e]; cbn; [intros [= <-]; eauto | done]. Qed.

Lemma observe_scenario :
  Observe.ply (parsePly scenario)
  = Return
      ([Observe.pos 8388608 (-23); Observe.pos 8388608 (-22);
        Observe.pos 12582912 (-22);
        Observe.neg 8388608 (-23); Observe.pos 8388608 (-24);
        Observe.pos 13421773 (-27)],
       [Observe.pos 8388608 (-23); Observe.pos 8421505 (-24); Observe.zero;
        Observe.pos 8421505 (-31); Observe.pos 8421505 (-30);
        Observe.pos 12632257 (-30)],
       2%Z).
Proof. vm_compute; reflexivity. Qed.

Lemma observe_short_text :
  Observe.ply (parsePly short_text)
  = Return
      ([Observe.pos 8388608 (-23); Observe.pos 8388608 (-22);
        Observe.pos 12582912 (-22); Observe.zero; Observe.zero; Observe.zero],
       [Observe.pos 8388608 (-23); Observe.pos 8388608 (-23);
        Observe.pos 8388608 (-23); Observe.zero; Observe.zero; Observe.zero],
       2%Z).
Proof. vm_compute; reflexivity. Qed.

Lemma observe_mixed_names :
  Observe.ply (parsePly mixed_names)
  = Return
      ([Observe.pos 8388608 (-23); Observe.pos 8388608 (-22);
        Observe.pos 12582912 (-22)],
       [Observe.zero; Observe.zero; Observe.zero], 1%Z).
Proof. vm_compute; reflexivity. Qed.

Lemma parsePly_count_and_lengths_scenario :
  exists d, parsePly scenario = Return d /\
    ply_vertexCount d = 2%Z /\
    Z.of_nat (length (ply_positions d)) = (3 * 2)%Z /\
    Z.of_nat (length (ply_colors d)) = (3 * 2)%Z.
Proof.
  destruct (observed_Return _ _ observe_scenario) as (d & E & _).
  exists d. split; [exact E|].
  eapply (parsePly_count_and_lengths scenario);
    [vm_compute; reflexivity | reflexivity | reflexivity | exact E].
Defined.

Lemma missing_end_header_throws_no_terminator :
  parsePly no_terminator = Throw (Error msg_no_end_header) /\
  snd (loadSimpleSplatFromArrayBuffer no_terminator)
  = Throw (Error msg_no_end_header).
Proof.
  destruct (missing_end_header_throws no_terminator) as (Hp & Hl & _);
    [vm_compute; reflexivity|].
  split; [apply Hp | apply Hl]; vm_compute; reflexivity.
Defined.

(** C4.  A header with an unknown format token and [element vertex -1]
    is one of the listed cases, yet the call ends in the [RangeError] of
    [new Float32Array(-3)], not in an error of the parser. *)
Lemma error_cases_counterexample : ~ error_cases_as_stated.
Proof.
  intros Hc.
  eassert (Hs : schema negative_count = Some _) by (vm_compute; reflexivity).
  destruct (Hc _ _ Hs) as [_ Hback].
  destruct Hback as [m Hm]; [do 3 right; vm_compute; reflexivity|].
  assert (Ho : Observe.ply (parsePly negative_count) = Throw RangeError)
    by (vm_compute; reflexivity).
  rewrite Hm in Ho. discriminate Ho.
Qed.

Lemma header_error_cases_no_format :
  exists m, parsePly no_format = Throw (Error m).
Proof.
  eassert (Hs : schema no_format = Some _) by (vm_compute; reflexivity).
  apply (proj2 (header_error_cases no_format _ Hs)). left. reflexivity.
Defined.

(** C6.  A binary vertex whose colour properties are named [red], [g],
    [b] has neither complete triple, yet its colour is decoded (here to
    0, 0, 0); and a text file with no colour property at all and one
    data line for two declared vertices leaves the second colour at
    (0, 0, 0). *)
Lemma colour_default_counterexample :
  ~ colour_default_as_stated /\
  no_full_triple <$> schema short_text = Some true /\
  Observe.ply (parsePly short_text)
  = Return
      ([Observe.pos 8388608 (-23); Observe.pos 8388608 (-22);
        Observe.pos 12582912 (-22); Observe.zero; Observe.zero; Observe.zero],
       [Observe.pos 8388608 (-23); Observe.pos 8388608 (-23);
        Observe.pos 8388608 (-23); Observe.zero; Observe.zero; Observe.zero],
       2%Z).
Proof.
  split; [|split; vm_compute; reflexivity].
  intros Hc.
  destruct (observed_Return _ _ observe_mixed_names) as (d & E & [= Hp Hcol Hv]).
  eassert (Hs : schema mixed_names = Some _) by (vm_compute; reflexivity).
  assert (Hk : ply_colors d !! 0 = Some white).
  { apply (Hc mixed_names _ d Hs); [vm_compute; reflexivity | exact E |].
    apply (f_equal length) in Hcol. unfold Observe.values in Hcol.
    rewrite length_fmap in Hcol. rewrite <- Hcol. cbn. lia. }
  assert (Hk' : Observe.values (ply_colors d) !! 0 = Some (widen white))
    by (unfold Observe.values; rewrite list_lookup_fmap; exact (f_equal (fmap widen) Hk)).
  rewrite <- Hcol in Hk'. vm_compute in Hk'. discriminate Hk'.
Qed.

Lemma colour_default_short_text :
  exists d, parsePly short_text = Return d /\
    ply_colors d !! (3 * 0 + 2) = Some white.
Proof.
  destruct (observed_Return _ _ observe_short_text) as (d & E & [= _ _ Hv]).
  exists d. split; [exact E|].
  eapply (colour_default short_text _ d);
    [vm_compute; reflexivity | vm_compute; reflexivity | exact E | | | lia].
  - rewrite <- Hv. lia.
  - intros _. vm_compute. lia.
Defined.

Lemma raw_decodes_complete_groups_seven :
  exists floats ps,
    Float32Array_view raw_seven = Return floats /\
    length floats = 6 * 1 + 1 /\
    loadSimpleSplatFromArrayBuffer raw_seven
    = ([console_log "Assuming raw Float32 xyzrgb format."]
         ++ (if (1 =? 0)%nat then []
             else [console_warn msg_length [6 * 1 + 1]]),
       Return (Some ps)) /\
    count ps = Z.of_nat 1 /\
    length (positions ps) = 3 * 1 /\ length (colors ps) = 3 * 1 /\
    forall p j, p < 1 -> j < 3 ->
      positions ps !! (3 * p + j) = floats !! (6 * p + j) /\
      colors ps !! (3 * p + j) = floats !! (6 * p + 3 + j).
Proof.
  apply (raw_decodes_complete_groups raw_seven 1 1);
    [reflexivity | reflexivity | lia | lia | vm_compute; discriminate].
Defined.

Lemma raw_fewer_than_six_floats_is_null_two :
  snd (loadSimpleSplatFromArrayBuffer raw_two) = Return None.
Proof.
  apply (raw_fewer_than_six_floats_is_null raw_two 2);
    [reflexivity | reflexivity | lia].
Defined.

Lemma raw_length_not_multiple_of_4_throws_five :
  loadSimpleSplatFromArrayBuffer raw_five_bytes
  = ([console_log "Assuming raw Float32 xyzrgb format."], Throw RangeError).
Proof.
  apply (raw_length_not_multiple_of_4_throws raw_five_bytes);
    [reflexivity | cbn; lia].
Defined.

Lemma text_missing_rows_are_zero_short_text :
  exists d,
    parsePly short_text = Return d /\ ply_vertexCount d = 2%Z /\
    (forall p j, 1 <= p -> (Z.of_nat p < 2)%Z -> j < 3 ->
       ply_positions d !! (3 * p + j) = Some float32_zero /\
       ply_colors d !! (3 * p + j) = Some float32_zero) /\
    float32_zero <> white.
Proof.
  eapply (text_missing_rows_are_zero short_text _ 2 1);
    [vm_compute; reflexivity | reflexivity | reflexivity | reflexivity
    | vm_compute; discriminate | vm_compute; reflexivity | lia].
Defined.

Lemma scenario_decodes_sample :
  parsePly scenario
  = Return
      {| ply_positions :=
           [float_at scenario_records 0; float_at scenario_records 4;
            float_at scenario_records 8; float_at scenario_records 15;
            float_at scenario_records 19; float_at scenario_records 23];
         ply_colors :=
           [channel_at scenario_records 12; channel_at scenario_records 13;
            channel_at scenario_records 14; channel_at scenario_records 27;
            channel_at scenario_records 28; channel_at scenario_records 29];
         ply_vertexCount := 2 |}.
Proof.
  apply (scenario_decodes scenario_records);
    [reflexivity | vm_compute; reflexivity | vm_compute; discriminate].
Defined.

Lemma observe_both_names_ascii :
  Observe.ply (parsePly both_names_ascii)
  = Return
      ([Observe.pos 8388608 (-23); Observe.pos 8388608 (-22);
        Observe.pos 12582912 (-22)],
       [Observe.pos 8388608 (-23); Observe.pos 8421505 (-24); Observe.zero],
       1%Z).
Proof. vm_compute; reflexivity. Qed.

Lemma text_rows_decode_both_names :
  exists d, parsePly both_names_ascii = Return d /\
    ply_colors d !! (3 * 0 + 0)
    = Some (fround (fdiv (parseFloat "255") (of_Z 255))).
Proof.
  destruct (observed_Return _ _ observe_both_names_ascii) as (d & E & [= _ _ Hv]).
  exists d. split; [exact E|].
  eassert (Hs : schema both_names_ascii = Some _) by (vm_compute; reflexivity).
  edestruct (text_rows_decode both_names_ascii _ d 0
               ["1"; "2"; "3"; "255"; "128"; "0"; "0"] Hs)
    as (_ & _ & _ & Hcol);
    [reflexivity | exact E | rewrite <- Hv; lia | vm_compute; reflexivity |].
  destruct (Hcol eq_refl) as (Hr & _ & _). exact (Hr eq_refl).
Defined.

Lemma binary_truncated_throws_scenario_space :
  parsePly scenario_space = Throw RangeError.
Proof.
  apply (binary_truncated_throws scenario_space scenario_schema 2);
    [vm_compute; reflexivity | reflexivity | reflexivity | reflexivity
    | vm_compute; reflexivity].
Defined.
End Samples.


(** ** Further samples *)

Section MoreSamples.
Import Examples Layout.
Existing Instance IEEE.engine.

(** X17.  With IEEE arithmetic, the colour channel decoded from an
    8-bit property lies between 0 and 1 for every byte; it is 0 for
    the byte 0 only and 1 for the byte 255 only. *)
Theorem uchar_channel_in_unit_interval (b : byte) :
  SFleb Observe.zero (uchar_channel b) = true /\
  SFleb (uchar_channel b) (Observe.pos 8388608 (-23)) = true /\
  (uchar_channel b = Observe.zero <-> b = x00) /\
  (uchar_channel b = Observe.pos 8388608 (-23) <-> b = xff).
Proof.
  destruct b; vm_compute; repeat split; try reflexivity; discriminate.
Qed.

(** C3.  A text file whose header ends in the line [comment
    end_header] has no terminator line, yet the parser takes the word
    inside the comment for the end of the header and the loader returns
    the vertex (1, 2, 3), coloured white. *)
Lemma missing_terminator_line_counterexample :
  ~ missing_terminator_line_as_stated /\
  isPlyBuffer comment_terminator = true /\
  has_terminator_line (textHeader comment_terminator) = false /\
  Observe.points (snd (loadSimpleSplatFromArrayBuffer comment_terminator))
  = Return
      (Some ([Observe.pos 8388608 (-23); Observe.pos 8388608 (-22);
              Observe.pos 12582912 (-22)],
             [Observe.pos 8388608 (-23); Observe.pos 8388608 (-23);
              Observe.pos 8388608 (-23)], 1%Z)).
Proof.
  assert (Ho : Observe.points (snd (loadSimpleSplatFromArrayBuffer comment_terminator))
               = Return
                   (Some ([Observe.pos 8388608 (-23); Observe.pos 8388608 (-22);
                           Observe.pos 12582912 (-22)],
                          [Observe.pos 8388608 (-23); Observe.pos 8388608 (-23);
                           Observe.pos 8388608 (-23)], 1%Z)))
    by (vm_compute; reflexivity).
  split; [|split; [|split]]; [|vm_compute; reflexivity
                             |vm_compute; reflexivity|exact Ho].
  intros Hc.
  destruct (Hc comment_terminator) as [m Hm];
    [vm_compute; reflexivity | vm_compute; reflexivity|].
  rewrite Hm in Ho. discriminate Ho.
Qed.

Lemma observed_points_Return (c : completion (option PointSet))
    (o : Observe.observed) :
  Observe.points c = Return (Some o) ->
  exists ps, c = Return (Some ps) /\
    o = (Observe.values (positions ps), Observe.values (colors ps), count ps).
Proof.
  destruct c as [[ps|]|e]; cbn; [intros [= <-]; eauto | done | done].
Qed.

Lemma observe_both_names_binary :
  Observe.ply (parsePly both_names_binary)
  = Return
      ([Observe.pos 8388608 (-23); Observe.pos 8388608 (-22);
        Observe.pos 12582912 (-22)],
       [Observe.zero; Observe.pos 8421505 (-24); Observe.zero], 1%Z).
Proof. vm_compute; reflexivity. Qed.

Lemma observe_raw_seven :
  Observe.points (snd (loadSimpleSplatFromArrayBuffer raw_seven))
  = Return
      (Some ([Observe.pos 8388608 (-23); Observe.pos 8388608 (-22);
              Observe.pos 12582912 (-22)],
             [Observe.pos 8388608 (-24); Observe.pos 8388608 (-24);
              Observe.pos 8388608 (-24)], 1%Z)).
Proof. vm_compute; reflexivity. Qed.

Lemma binary_rows_decode_both_names :
  exists h d,
    schema both_names_binary = Some h /\
    parsePly both_names_binary = Return d /\
    last_named ["red"; "r"] (vertexPropertyOrder h) = Some 6 /\
    record_field (dataBytes both_names_binary)
      (is_str (format h) "binary_little_endian")
      (vertexPropertyTypes h) (vertexPropertyOrder h)
      (0 * bytesPerVertex (vertexPropertyTypes h))
      ["red"; "r"] (fun v => fdiv v (of_Z 255)) (ply_colors d !! (3 * 0 + 0)).
Proof.
  destruct (observed_Return _ _ observe_both_names_binary) as (d & E & [= _ _ Hv]).
  eassert (Hs : schema both_names_binary = Some _) by (vm_compute; reflexivity).
  destruct (binary_rows_decode both_names_binary _ d 0 Hs eq_refl E)
    as (_ & _ & _ & Hc); [rewrite <- Hv; lia|].
  eexists _, d. split; [exact Hs|]. split; [exact E|].
  split; [reflexivity|].
  destruct (Hc eq_refl) as (Hr & _ & _). exact Hr.
Defined.

Lemma binary_decode_returns_iff_scenario :
  exists d, parsePly scenario = Return d.
Proof.
  apply (proj2 (proj1 (binary_decode_returns_iff scenario scenario_schema 2
                         ltac:(vm_compute; reflexivity) eq_refl eq_refl eq_refl))).
  split; [split|]; vm_compute; discriminate.
Defined.

Lemma text_decode_returns_iff_short_text :
  exists d, parsePly short_text = Return d.
Proof.
  eassert (Hs : schema short_text = Some _) by (vm_compute; reflexivity).
  apply (proj2 (proj1 (text_decode_returns_iff short_text _ 2 Hs
                         eq_refl eq_refl eq_refl))).
  split; vm_compute; discriminate.
Defined.

Lemma scan_header_standard_with_faces :
  let h := scan_header (faces_pre ++ "element vertex 3" :: faces_body ++ faces_tail) in
  vertexCount h = parseInt (at_index (tokens_of "element vertex 3") 2) /\
  vertexPropertyOrder h = property_name <$> List.filter is_property_line faces_body /\
  vertexPropertyTypes h = property_type <$> List.filter is_property_line faces_body.
Proof.
  apply (scan_header_standard faces_pre faces_body faces_tail "element vertex 3");
    [repeat constructor | reflexivity | repeat constructor | repeat constructor
    | reflexivity].
Defined.

Lemma tokens_of_spaced_property_line :
  tokens_of (String.append property_line_lead
               (spaced property_line_items (String.append "x" property_line_trail)))
  = (fst <$> property_line_items) ++ ["x"].
Proof.
  apply (tokens_of_spaced property_line_lead property_line_trail "x"
           property_line_items);
    [reflexivity | repeat constructor | reflexivity | reflexivity].
Defined.

Lemma split_lines_broken_mixed_breaks :
  split_lines (broken mixed_breaks "end_header")
  = (fst <$> mixed_breaks) ++ ["end_header"].
Proof.
  apply (split_lines_broken mixed_breaks "end_header");
    [repeat constructor; done | reflexivity].
Defined.

Lemma loader_point_set_invariant_raw_seven :
  exists ps,
    snd (loadSimpleSplatFromArrayBuffer raw_seven) = Return (Some ps) /\
    (0 < count ps)%Z /\
    Z.of_nat (length (positions ps)) = (3 * count ps)%Z /\
    Z.of_nat (length (colors ps)) = (3 * count ps)%Z.
Proof.
  destruct (observed_points_Return _ _ observe_raw_seven) as (ps & E & _).
  exists ps. split; [exact E|].
  exact (loader_point_set_invariant raw_seven ps E).
Defined.

Lemma raw_throws_iff_five_bytes :
  snd (loadSimpleSplatFromArrayBuffer raw_five_bytes) = Throw RangeError.
Proof.
  apply (proj2 (raw_throws_iff raw_five_bytes RangeError eq_refl)).
  split; [reflexivity | left; cbn; lia].
Defined.

Lemma data_starts_at_first_non_whitespace_scenario_space :
  dataBytes scenario_space
  = skip_whitespace (drop (164 + String.length end_header) scenario_space).
Proof.
  apply (data_starts_at_first_non_whitespace scenario_space 164);
    [vm_compute; reflexivity | apply Nat.leb_le; vm_compute; reflexivity].
Defined.

Lemma drawn_in_step_three_clicks :
  Viewer.drawn (Viewer.run (Viewer.hits Viewer.three_clicks) Viewer.measuring)
  = Viewer.annotations
      (Viewer.run (Viewer.hits Viewer.three_clicks) Viewer.measuring).
Proof.
  apply (drawn_in_step (Viewer.hits Viewer.three_clicks) Viewer.measuring).
  reflexivity.
Defined.

Lemma distance_clicks_pair_up_three_clicks :
  let s' := Viewer.run (Viewer.hits Viewer.three_clicks) Viewer.measuring in
  Viewer.annotations s'
  = Viewer.annotations Viewer.measuring ++ Viewer.measurements Viewer.three_clicks /\
  Viewer.pending s' = Viewer.unpaired Viewer.three_clicks /\
  Viewer.tool s' = "distance".
Proof.
  apply (distance_clicks_pair_up Viewer.three_clicks Viewer.measuring);
    reflexivity.
Defined.

Lemma measurement_survives_tool_switch_three_clicks :
  let events :=
    [Viewer.PointerDown (Some (Viewer.corner 5 5 5)) 1%N;
     Viewer.ToolbarClick (Some "marker")]
    ++ Viewer.hits Viewer.three_clicks
    ++ [Viewer.ToolbarClick (Some "distance");
        Viewer.PointerDown (Some (Viewer.corner 6 6 6)) 2%N] in
  Viewer.annotations (Viewer.run events Viewer.measuring)
  = Viewer.annotations Viewer.measuring ++ Viewer.markers Viewer.three_clicks
    ++ [Viewer.distance (String.append "dist-" (Viewer.decimal 2))
          [5%Z; 5%Z; 5%Z] [6%Z; 6%Z; 6%Z]] /\
  Viewer.pending (Viewer.run events Viewer.measuring) = None.
Proof.
  apply (measurement_survives_tool_switch Viewer.three_clicks Viewer.measuring
           (Viewer.corner 5 5 5) 1%N (Viewer.corner 6 6 6) 2%N);
    reflexivity.
Defined.
End MoreSamples.
